(* ===== verification/_CoqProject ===== *)
-Q . S2P
Spec2Rocq.v
WeatherCode.v
Units.v
Recents.v
Json.v
Forecast.v
Geocoder.v
Dashboard.v
Storage.v
Async.v
View.v
AuthServer.v
AuthClient.v
Routes.v
Http.v
Forms.v
