(* ===== verification/Spec2Rocq.v ===== *)
(** * WeatherAPI: a verification development

    The repository is a small web application in JavaScript:
    - [src/src/frontend/Dashboard.js]: a React component that looks up a
      city with the Open-Meteo geocoding API, fetches the forecast for its
      coordinates, merges the [current_weather], [hourly] and [daily]
      payloads into one display object ([setWeather]), keeps a list of the
      three most recent cities in local storage, converts temperatures to
      Fahrenheit for display, and on mount resolves the device position by
      reverse geocoding;
    - [src/src/backend/server.js]: an Express server with a MongoDB user
      collection, [/register], [/login] (bcrypt and JWT) and [/protected];
    - [src/src/frontend/Login.js], [src/src/frontend/Register.js]: the two
      forms that post to the server.

    ** Files of the development (in dependency order)

    - [Spec2Rocq] (this file): the JavaScript semantics the code relies
      on, shared by every component: values that may be [undefined] or
      [null] ([js]), nullish coalescing [??] ([coalesce]), truthiness and
      [||] ([truthy], [js_or]), optional chaining [?.] ([chain]), property
      access that throws a [TypeError] on a nullish base ([prop]), array
      reads [a[i]] with an integer index ([at_]), [Array.prototype.indexOf]
      ([index_of]), [String.prototype.split] on a one-character separator
      ([split_on]), and the exception monad [result] in which a throwing
      statement is modelled.  Lemmas: [index_of] finds the first
      occurrence or returns -1, [at_] out of range is [undefined],
      [split_on] / [join_on] round trip.
    - [WeatherCode]: the [codeMap] table of [getWeather] and the
      description/icon lookup with its ["Unknown"]/["❔"] fallback.
    - [Units]: [toF] and [formatTemp]; the rounding bounds of [toF].
    - [Recents]: the recent-cities update of [getWeather]; the bounded
      deduplicated most-recent-first list and its invariant.
    - [Json]: [JSON.parse] (line 14) as a parser of the whole JSON
      grammar, and [JSON.stringify] of the recent list (line 31) with the
      escapes of ECMA-262's [QuoteJSONString].  Both built-ins are
      modelled from their standards.
    - [Forecast]: the forecast payload ([RawForecastBundle] of the spec)
      and the normalisation [normalize] that builds the object passed to
      [setWeather], statement by statement, with the TypeErrors that the
      code throws on missing payload parts; per-field theorems.
    - [Geocoder]: the forward ([/v1/search]) and reverse ([/v1/reverse])
      geocoding responses and how [getWeather] and the mount effect read
      them.
    - [Dashboard]: the component's state ([useState] hooks and local
      storage), its events (input, buttons, geolocation callback, network
      replies in any order) and the transition function [dispatch], built
      from the source's handlers ([check_token], [request_position],
      [on_position], [getWeather], [handleLogout], [toggle_unit]).  The
      async chain of [getWeather] is split at each [await]: [getWeather]
      runs up to the geocoding request, and [resume_query] runs on from
      each reply.  The mount callback is split the same way
      ([on_position], [resume_mount]).  Invariants hold over the
      reachable states, with the ordering behaviour of concurrent queries.
    - [Storage]: the recent list across page loads.  The [useState]
      initialiser of lines 11-18 reads the text that the persisting effect
      of lines 29-33 wrote, and [reload] is the first render over that
      storage.
    - [Async]: the Dashboard without user input.  Network replies are
      the only events, and the theorems cover termination, liveness, and
      the agreement of the reachable states with [run].
    - [View]: the Dashboard's JSX (lines 212-266) as a function [render]
      from the state to the displayed elements, with the event each
      button dispatches.
    - [AuthServer]: [server.js]'s [/register], [/login] and [/protected]
      over an explicit users collection.  [save] applies Mongoose's
      [required] validation and then the unique email index.  bcrypt and jsonwebtoken are the type classes [Hasher] and
      [Signer], whose laws are all the handlers rely on.  Concurrent
      [/register] handlers interleave at their [await]s in the step
      relation [step].
    - [AuthClient]: the [handleSubmit] of [Login.js] and [Register.js],
      written against an interface [AuthApi] of the backend.  Client
      theorems are proved once against the interface.  The server's
      handlers are the instance [server_api], and the composed sign-up,
      login and dashboard flow is proved against it.
    - [Routes]: the two POST routes behind [express.json()] on any JSON
      body whose [email] and [password] are strings, missing or [null].
      It models bcrypt's rejection of a missing argument, a [findOne]
      filter on a missing email, and the [required] validator on a
      missing field.  On string fields the routes are [AuthServer]'s
      handlers.
    - [Http]: the same backend reached over HTTP.  The forms' axios
      bodies are JSON texts, which [express.json()] parses and the routes
      destructure.  [res.json] writes the answer as JSON, and axios parses
      it back.  This gives the instance [http_api] of [AuthApi].
    - [Forms]: the Login and Register pages as a browser runs them.  The
      JSX, the input handlers, and HTML constraint validation of the
      [required] and [type="email"] inputs, which decides whether
      [handleSubmit] runs at all.  The valid-email grammar comes from the
      HTML standard.

    ** What the theorems show
    - Normalisation ([Forecast]): on a complete payload it returns a
      snapshot.  A missing part throws a [TypeError], which is reported as
      a network issue.  Hourly values are read at the first index of
      [current.time].  When that time is absent, [indexOf] gives -1 and the
      hourly fields are [undefined]; the spec asks for index 0 instead.
      Description and icon always come from the table or its fallback.
      Sunrise and sunset round-trip through [split("T")].
    - Dashboard ([Dashboard]): the end-to-end success of a query, its
      error paths ("Please enter a city name", "City not found", "Network
      issue").  Invariants over every reachable state: loading implies a
      query in flight, request ids are fresh, and the recent list is well
      formed and persisted.  Any forecast reply that normalises sets the
      snapshot whatever else is in flight, so there is no stale-response
      guard: the last reply wins, not the last query.  Any empty geocoding
      reply clears the loading flag, even while another query is in
      flight.  The mount path re-geocodes the name found
      by reverse lookup, so "Your Location" can end in "City not found".
    - Asynchronous behaviour ([Async]): without user input every run of
      network replies is finite, with at most four replies per pending
      request.  Every maximal run from a reachable state ends with nothing
      in flight and the loading indicator off.
    - Display ([View], [Dashboard]): the page offers exactly its buttons
      and one per recent city.  After a toggle it shows [toF] of the
      temperatures, and toggling twice restores the state.  A recent
      entry that is [null] or [undefined] shows as a blank button that
      queries the input box's text instead of the entry.
    - Persistence ([Json], [Storage]): a page load over the storage of
      any reachable state starts with that state's recent list, read back
      through the JSON parser, with [undefined] entries turned into
      [null].  [Recents.update] compares with [!==], which keeps that
      [null] when the same unnamed place is queried again.
    - Recents ([Recents]): replaying the update refines the spec's
      [RecentLocations] (the 3 most recent distinct names, most recent
      first) and preserves well-formedness.
    - Geocoder, code table and units: the first candidate is used, an
      empty result is "not found", and the reverse name is never empty.
      The table lookup is total.  [toF] is within 0.05 of the exact
      value, is exact on one-decimal values, and is monotone.  All of
      this holds in the rational model; [Units] explains where doubles
      differ.
    - Auth ([AuthServer], [AuthClient]): register then login round-trips
      to a token, and a duplicate registration answers 400 and changes
      nothing.  The two login failures are told apart.  Emails stay
      unique under any interleaving of concurrent registrations.  When
      any number of registrations of one new email all pass [findOne],
      every interleaving ends with exactly one 200, and all the others get
      500 instead of 400.  [/protected]'s token check is dead code.  An empty email passes [findOne], fails Mongoose
      validation and answers 500.  Every stored document satisfies the
      schema under any interleaving.  Both forms validate their fields and
      react to resolved and rejected posts.  In a browser, the forms'
      own empty-field message is unreachable, and every account created
      through the Register page has a valid e-mail address.
    - Routes ([Routes]): a [/register] request without an email or a
      password never creates an account and answers 500, unless the
      email is taken (400).  For every modelled body, [/login] issues a
      token only for a string password that bcrypt accepts for the user
      the email member selects.  Because the email member is not
      type-checked, [{ "$ne": null }] selects the first stored user, so
      that user's password alone logs in as that user (operator
      injection).
    - HTTP ([Http], [Json]): over the JSON wire the forms behave exactly
      as against the handlers called directly, for every email and
      password, escapes included.

    ** Fuel and bounds
    Only the JSON parser uses fuel.  [Json.parse_value] and
    [Json.string_body] get the length of the text, and every nesting
    level, array element and string character consumes at least one
    character.  [Json.json_parse_join] proves that this fuel is
    enough for every text the dashboard writes.  Every other recursion is
    structural on a list, and the async chains are unfolded into separate
    events.  Their termination
    is proved with the measure [Async.pending_weight].  The reachable
    states are all the finite event sequences from [init].  Theorems about
    them are proved by induction on [reachable], so they hold for any
    number of queries, replies and interleavings.  Witnesses evaluate the
    model with [vm_compute] on the spec's examples.

    ** Modelling choices
    - JavaScript numbers are modelled as rationals [Q]: the code does no
      arithmetic on forecast values except [toF] and the one-decimal
      rounding of [formatTemp]; binary floating-point error is not
      modelled.  [Math.round x] is [floor (x + 1/2)].  At a rounding tie
      the double error decides in JavaScript.  For example, [toF(-18.25)]
      is [-0.9] in JavaScript and [-0.8] in the model, so no theorem is
      stated about ties.
    - bcrypt is the class [Hasher] with the laws the handlers use.
      [compare] rejects every other password, an idealisation: bcrypt
      reads only the first 72 bytes.
    - [Dashboard.dispatch] accepts every event in every state.  It
      over-approximates the page: events after navigating to /login, a
      repeated mount, and state updates after an unmount, which React
      drops.
    - Strings are Stdlib [string]s (bytes of the UTF-8 encoding).  The
      string operations are [split] on an ASCII separator and the e-mail
      grammar over ASCII characters.  They look only at ASCII bytes, which
      never occur inside a multi-byte UTF-8 sequence, so they agree with
      JavaScript's UTF-16 strings.
    - Network calls are not executed: each [await axios.get] is a pending
      request, and its reply (success with any payload, or rejection) is an
      event of the environment, delivered in any order.
    - Rendered JSX is a list of the elements that carry text or a
      handler.  The number-to-string conversion of [{x}] and
      [toLocaleTimeString] are parameters of [View.render], since they
      depend on the engine and the locale.  CSS is not modelled.

    ** Not modelled
    - The MongoDB connection, CORS, server start-up and logging: pure I/O
      and configuration.
    - Request bodies of another content type than JSON, and JSON members
      other than strings and [null].  Mongoose would cast a number or a
      boolean to its text; the forms send only strings.
    - The internals of bcrypt and jsonwebtoken.  Only their laws are
      assumed, as class fields, with bcrypt's rejection of a missing
      argument.  Token expiry and [jwt.verify] are reachable only from
      dead code.
    - The CSS and inline styles, which have no behaviour.  With the
      imports and the server set-up, they are the only lines of the
      sources not modelled.
    - The browser's sanitisation of email input values, and React's
      rendering and scheduling beyond the order in which state updates
      are applied.
    - Text stored under "recentCities" by anything other than the
      dashboard, whose JSON value is not an array of strings and nulls.
      [Storage.recents_of_json] gives [None] for it, since the state's
      type cannot hold it. *)

From Stdlib Require Import QArith Qround ZArith String Ascii.
From stdpp Require Import base list strings.

Declare Scope js_scope.
Delimit Scope js_scope with js.
Open Scope js_scope.

(** ** Values that may be [undefined] or [null] *)

Inductive js (A : Type) : Type :=
| Undefined
| Null
| Val (a : A).
Arguments Undefined {A}.
Arguments Null {A}.
Arguments Val {A} a.

#[export] Instance js_eq_dec `{EqDecision A} : EqDecision (js A).
Proof. solve_decision. Defined.

(** [v == null] in JavaScript: [undefined] or [null]. *)
Definition nullish {A} (v : js A) : bool :=
  match v with Val _ => false | _ => true end.

(** [a ?? b]: [b] is only evaluated (and may only throw) when [a] is
    nullish, so the fallback is a computation. *)
Definition coalesce {A} (a b : js A) : js A :=
  match a with Val _ => a | _ => b end.
Notation "a ?? b" := (coalesce a b) (at level 55, right associativity) : js_scope.

(** [o?.f]: [undefined] when [o] is nullish. *)
Definition chain {A B} (o : js A) (f : A -> js B) : js B :=
  match o with Val a => f a | _ => Undefined end.

(** Truthiness of the primitive types the code tests. *)
Class Falsy (A : Type) := falsy : A -> bool.
#[export] Instance string_falsy : Falsy string := fun s => String.eqb s "".
#[export] Instance Q_falsy : Falsy Q := fun q => Qeq_bool q 0.
#[export] Instance Z_falsy : Falsy Z := fun z => Z.eqb z 0.

Definition truthy {A} `{Falsy A} (v : js A) : bool :=
  match v with Val a => negb (falsy a) | _ => false end.

(** [a || b] *)
Definition js_or {A} `{Falsy A} (a b : js A) : js A :=
  if truthy a then a else b.

(** ** Exceptions

    [getWeather] runs in a [try] block: a [TypeError] from reading a
    property of [undefined] and a rejected [axios] promise both end in the
    same [catch]; the server's handlers catch the driver's errors
    ([MongoServerError], e.g. a duplicate key), Mongoose's validation
    errors ([ValidationError]) and bcrypt's argument errors
    ([BcryptError]).  A statement that may throw is a [result]. *)

Inductive exn : Type :=
| TypeError
| AxiosError
| MongoServerError
| ValidationError
| BcryptError.

#[export] Instance exn_eq_dec : EqDecision exn.
Proof. solve_decision. Defined.

Inductive result (A : Type) : Type :=
| Ok (a : A)
| Throw (e : exn).
Arguments Ok {A} a.
Arguments Throw {A} e.

#[export] Instance result_ret : MRet result := fun _ a => Ok a.
#[export] Instance result_bind : MBind result :=
  fun _ _ f m => match m with Ok a => f a | Throw e => Throw e end.

(** [o.f]: throws when [o] is nullish. *)
Definition prop {A B} (o : js A) (f : A -> B) : result B :=
  match o with Val a => Ok (f a) | _ => Throw TypeError end.

(** ** Arrays

    [a[i]] for an integer [i]: the element, or [undefined] out of range,
    negative indices included. *)
Definition at_ {A} (l : list (js A)) (i : Z) : js A :=
  if decide (0 <= i)%Z then default Undefined (l !! Z.to_nat i) else Undefined.

(** [a[i]] for an index that is itself a JavaScript value: a nullish
    index reads the property ["undefined"] or ["null"], which an array
    does not have. *)
Definition at_js {A} (l : list (js A)) (i : js Z) : js A :=
  match i with Val z => at_ l z | _ => Undefined end.

(** [a[i]] where [a] itself may be missing: throws on a nullish array. *)
Definition index {A} (a : js (list (js A))) (i : js Z) : result (js A) :=
  l ← prop a id; mret (at_js l i).

(** [Array.prototype.indexOf] with strict equality. *)
Fixpoint index_of_nat {A} `{EqDecision A} (l : list A) (x : A) : option nat :=
  match l with
  | [] => None
  | y :: l' => if decide (y = x) then Some 0%nat else S <$> index_of_nat l' x
  end.

Definition index_of {A} `{EqDecision A} (l : list A) (x : A) : Z :=
  match index_of_nat l x with Some n => Z.of_nat n | None => (-1)%Z end.

(** ** Strings

    [s.split(c)] for a one-character separator [c]. *)
Fixpoint split_on (c : ascii) (s : string) : list string :=
  match s with
  | EmptyString => [EmptyString]
  | String a s' =>
      let parts := split_on c s' in
      if decide (a = c) then EmptyString :: parts
      else match parts with
           | [] => [String a EmptyString]
           | p :: ps => String a p :: ps
           end
  end.

(** [parts.join(c)] *)
Fixpoint join_on (c : ascii) (parts : list string) : string :=
  match parts with
  | [] => EmptyString
  | [p] => p
  | p :: ps => (p ++ String c (join_on c ps))%string
  end.

(** [s] does not contain the separator [c]. *)
Definition sep_free (c : ascii) (s : string) : Prop := c ∉ list_ascii_of_string s.

#[export] Instance sep_free_dec (c : ascii) (s : string) : Decision (sep_free c s).
Proof. unfold sep_free. apply _. Defined.

(** ** Automation shared by the components *)

Create HintDb js.
Create Rewrite HintDb js.

Lemma coalesce_Val {A} (a : A) (b : js A) : (Val a ?? b) = Val a.
Proof. reflexivity. Qed.

Lemma coalesce_nullish {A} (a b : js A) : nullish a = true -> (a ?? b) = b.
Proof. by destruct a. Qed.

Lemma coalesce_present {A} (a b : js A) : nullish a = false -> (a ?? b) = a.
Proof. by destruct a. Qed.

Lemma at_neg {A} (l : list (js A)) (i : Z) : (i < 0)%Z -> at_ l i = Undefined.
Proof. intros. unfold at_. case_decide; [lia | done]. Qed.

Lemma at_nat {A} (l : list (js A)) (n : nat) :
  at_ l (Z.of_nat n) = default Undefined (l !! n).
Proof. unfold at_. case_decide; [by rewrite Nat2Z.id | lia]. Qed.

Lemma at_ge {A} (l : list (js A)) (i : Z) :
  (Z.of_nat (length l) <= i)%Z -> at_ l i = Undefined.
Proof.
  intros Hi. unfold at_. case_decide; [|done].
  rewrite lookup_ge_None_2; [done | lia].
Qed.

Lemma at_cons_0 {A} (x : js A) (l : list (js A)) : at_ (x :: l) 0 = x.
Proof. reflexivity. Qed.

Lemma js_or_truthy {A} `{Falsy A} (a b : js A) : truthy a = true -> js_or a b = a.
Proof. unfold js_or. by intros ->. Qed.

Lemma js_or_not_truthy {A} `{Falsy A} (a b : js A) : truthy a = false -> js_or a b = b.
Proof. unfold js_or. by intros ->. Qed.

Lemma truthy_string (s : string) : truthy (Val s) = true <-> s <> "".
Proof.
  unfold truthy, falsy, string_falsy. rewrite negb_true_iff. apply String.eqb_neq.
Qed.

Lemma truthy_nullish {A} `{Falsy A} (a : js A) : nullish a = true -> truthy a = false.
Proof. by destruct a. Qed.

#[export] Hint Rewrite @coalesce_Val @at_cons_0 : js.
#[export] Hint Resolve at_neg at_ge : js.

Ltac js_simpl := repeat (autorewrite with js in *; simpl in *).

(** ** The [result] monad *)

Lemma bind_Ok_inv {A B} (m : result A) (f : A -> result B) (b : B) :
  (m ≫= f) = Ok b -> exists a, m = Ok a /\ f a = Ok b.
Proof. destruct m as [a|e]; simpl; [eauto | done]. Qed.

Lemma bind_Throw_inv {A B} (m : result A) (f : A -> result B) (e : exn) :
  (m ≫= f) = Throw e -> m = Throw e \/ exists a, m = Ok a /\ f a = Throw e.
Proof. destruct m as [a|e']; simpl; [eauto | intros [= ->]; auto]. Qed.

Lemma bind_Ok {A B} (a : A) (f : A -> result B) : (Ok a ≫= f) = f a.
Proof. reflexivity. Qed.

Lemma prop_Ok_inv {A B} (o : js A) (f : A -> B) (b : B) :
  prop o f = Ok b -> exists a, o = Val a /\ b = f a.
Proof. destruct o; simpl; [done | done | intros [= <-]; eauto]. Qed.

Lemma prop_Throw {A B} (o : js A) (f : A -> B) (e : exn) :
  prop o f = Throw e -> nullish o = true /\ e = TypeError.
Proof. by destruct o; simpl; intros [=]. Qed.

Lemma index_Ok_inv {A} (a : js (list (js A))) (i : js Z) (v : js A) :
  index a i = Ok v -> exists l, a = Val l /\ v = at_js l i.
Proof. destruct a; simpl; [done | done | intros [= <-]; eauto]. Qed.

Lemma index_Throw {A} (a : js (list (js A))) (i : js Z) (e : exn) :
  index a i = Throw e -> nullish a = true /\ e = TypeError.
Proof. by destruct a; simpl; intros [=]. Qed.

(** Peels the successful binds of a hypothesis [m ≫= f = Ok b] into the
    equations of its steps. *)
Ltac inv_ok :=
  repeat match goal with
  | H : mbind _ _ = Ok _ |- _ =>
      let a := fresh "a" in let Ha := fresh "Ha" in
      apply bind_Ok_inv in H as (a & Ha & H); cbn beta in H
  | H : Ok _ = Ok _ |- _ => injection H as H
  | H : mret _ = Ok _ |- _ => injection H as H
  | H : prop _ _ = Ok _ |- _ =>
      let a := fresh "a" in let Ea := fresh "Ea" in
      apply prop_Ok_inv in H as (a & Ea & H)
  | H : index _ _ = Ok _ |- _ =>
      let a := fresh "l" in let Ea := fresh "El" in
      apply index_Ok_inv in H as (a & Ea & H)
  end.

Section IndexOf.
Context {A : Type} `{EqDecision A}.

Lemma index_of_nat_Some (l : list A) (x : A) (n : nat) :
  index_of_nat l x = Some n ->
  l !! n = Some x /\ forall m, (m < n)%nat -> l !! m <> Some x.
Proof.
  revert n. induction l as [|y l IH]; intros n; simpl; [done|].
  case_decide as Hyx.
  - intros [= <-]. subst. split; [done | lia].
  - destruct (index_of_nat l x) as [k|] eqn:Hk; simpl; [|done].
    intros [= <-]. destruct (IH k eq_refl) as [Hl Hmin]. split; [done|].
    intros [|m] Hm; simpl; [congruence|]. apply Hmin. lia.
Qed.

Lemma index_of_nat_None (l : list A) (x : A) :
  index_of_nat l x = None <-> x ∉ l.
Proof.
  induction l as [|y l IH]; simpl.
  - split; [intros _; apply not_elem_of_nil | done].
  - rewrite elem_of_cons. case_decide as Hyx; [naive_solver|].
    destruct (index_of_nat l x); simpl; naive_solver.
Qed.

Lemma index_of_nat_elem (l : list A) (x : A) :
  x ∈ l -> exists n, index_of_nat l x = Some n.
Proof.
  intros Hx. destruct (index_of_nat l x) as [n|] eqn:E; [by exists n|].
  by apply index_of_nat_None in E.
Qed.

(** [indexOf] is -1 exactly when the element is absent. *)
Lemma index_of_absent (l : list A) (x : A) : x ∉ l -> index_of l x = (-1)%Z.
Proof. intros H. unfold index_of. by rewrite (proj2 (index_of_nat_None l x) H). Qed.

Lemma index_of_range (l : list A) (x : A) :
  (index_of l x = -1 \/ 0 <= index_of l x < Z.of_nat (length l))%Z.
Proof.
  unfold index_of. destruct (index_of_nat l x) as [n|] eqn:E; [|by left].
  right. apply index_of_nat_Some in E as [E _]. apply lookup_lt_Some in E. lia.
Qed.
End IndexOf.

(** Reading back at the index found by [indexOf] gives the element. *)
Lemma at_index_of {A} `{EqDecision A} (l : list (js A)) (x : js A) :
  x ∈ l -> at_ l (index_of l x) = x.
Proof.
  intros Hx. destruct (index_of_nat_elem l x Hx) as [n Hn].
  unfold index_of. rewrite Hn, at_nat.
  by rewrite (proj1 (index_of_nat_Some l x n Hn)).
Qed.

Lemma at_index_of_absent {A} `{EqDecision A} (l : list (js A)) (x : js A) :
  x ∉ l -> at_ l (index_of l x) = Undefined.
Proof. intros Hx. rewrite index_of_absent by done. by apply at_neg. Qed.

(** ** [split] and [join] *)

Lemma split_on_cons_nil (c : ascii) (s : string) : split_on c s <> [].
Proof.
  destruct s as [|a s]; simpl; [done|].
  case_decide; [done|]. by destruct (split_on c s).
Qed.

Lemma string_app_assoc (a b c : string) : ((a +:+ b) +:+ c)%string = (a +:+ (b +:+ c))%string.
Proof. induction a as [|x a IH]; [reflexivity | exact (f_equal (String x) IH)]. Qed.

Lemma join_on_cons (c : ascii) (p : string) (ps : list string) :
  ps <> [] -> join_on c (p :: ps) = (p ++ String c (join_on c ps))%string.
Proof. by destruct ps. Qed.

Lemma join_split_on (c : ascii) (s : string) : join_on c (split_on c s) = s.
Proof.
  induction s as [|a s IH]; [done|]. simpl.
  pose proof (split_on_cons_nil c s) as Hne.
  case_decide as Hac.
  - subst. rewrite join_on_cons by done. simpl. by rewrite IH.
  - destruct (split_on c s) as [|p ps] eqn:E; [done|].
    destruct ps as [|p' ps]; simpl in *; by rewrite <- IH.
Qed.

Lemma sep_free_check (c : ascii) (s : string) : bool_decide (sep_free c s) = true -> sep_free c s.
Proof. apply bool_decide_eq_true_1. Qed.

Lemma split_on_sep_free (c : ascii) (s : string) :
  sep_free c s -> split_on c s = [s].
Proof.
  unfold sep_free. induction s as [|a s IH]; intros Hs; [done|]. simpl in *.
  rewrite elem_of_cons in Hs. case_decide; [naive_solver|].
  rewrite IH; [done | naive_solver].
Qed.

Lemma split_on_app (c : ascii) (d t : string) :
  sep_free c d -> split_on c (d ++ String c t) = d :: split_on c t.
Proof.
  unfold sep_free. induction d as [|a d IH]; intros Hd; simpl.
  - by case_decide.
  - simpl in Hd. rewrite elem_of_cons in Hd.
    rewrite IH by naive_solver. case_decide; naive_solver.
Qed.
