(* ===== verification/WeatherCode.v ===== *)
(** The weather-code table of [getWeather] ([src/src/frontend/Dashboard.js],
    lines 132-141) and the two lookups that read it (lines 149-150):
    [codeMap[current.weathercode]?.desc || "Unknown"] and
    [codeMap[current.weathercode]?.icon || "❔"].  The object literal is a
    [gmap Z entry]; a JavaScript property read converts the number to its
    decimal string, so only an integral code can hit an integer key, and
    [undefined]/[null] (keys ["undefined"], ["null"]) never do. *)

From Stdlib Require Import QArith Qround ZArith String.
From stdpp Require Import base list strings gmap.
From S2P Require Import Spec2Rocq.

Module WeatherCode.

Record entry : Type := mkEntry { desc : string; icon : string }.

Definition codeMap : gmap Z entry :=
  list_to_map [
    (0%Z, mkEntry "Clear Sky" "☀️");
    (1%Z, mkEntry "Mainly Clear" "🌤️");
    (2%Z, mkEntry "Partly Cloudy" "⛅");
    (3%Z, mkEntry "Overcast" "☁️");
    (45%Z, mkEntry "Fog" "🌫️");
    (61%Z, mkEntry "Rain" "🌧️");
    (71%Z, mkEntry "Snow" "❄️");
    (95%Z, mkEntry "Thunderstorm" "⛈️")].

(** The property key a weather code denotes, when it can be an integer
    key of the table: the code is an integral number. *)
Definition key_of (c : js Q) : option Z :=
  match c with
  | Val q => if Qeq_bool q (inject_Z (Qfloor q)) then Some (Qfloor q) else None
  | _ => None
  end.

(** [codeMap[c]] *)
Definition code_entry (c : js Q) : js entry :=
  match key_of c ≫= fun k => codeMap !! k with
  | Some e => Val e
  | None => Undefined
  end.

(** [codeMap[c]?.desc || "Unknown"] *)
Definition description (c : js Q) : js string :=
  js_or (chain (code_entry c) (fun e => Val (desc e))) (Val "Unknown").

(** [codeMap[c]?.icon || "❔"] *)
Definition icon_of (c : js Q) : js string :=
  js_or (chain (code_entry c) (fun e => Val (icon e))) (Val "❔").

(** ** Lemmas *)

(** Every entry of the literal has a non-empty description and icon, so
    the [||] fallback never fires on a hit. *)
Lemma codeMap_nonempty :
  map_Forall (fun _ e => desc e <> "" /\ icon e <> "") codeMap.
Proof.
  unfold codeMap. repeat (apply map_Forall_insert_2; [split; discriminate|]).
  apply map_Forall_empty.
Qed.

Lemma code_entry_hit (c : js Q) (k : Z) (e : entry) :
  key_of c = Some k -> codeMap !! k = Some e -> code_entry c = Val e.
Proof. intros Hk He. unfold code_entry. by rewrite Hk; simpl; rewrite He. Qed.

Lemma code_entry_miss (c : js Q) :
  (forall k, key_of c = Some k -> codeMap !! k = None) -> code_entry c = Undefined.
Proof.
  intros H. unfold code_entry. destruct (key_of c) as [k|] eqn:E; simpl; [|done].
  by rewrite H.
Qed.

Lemma code_entry_cases (c : js Q) :
  code_entry c = Undefined \/ exists k e, codeMap !! k = Some e /\ code_entry c = Val e.
Proof.
  unfold code_entry. destruct (key_of c) as [k|]; simpl; [|by left].
  destruct (codeMap !! k) as [e|] eqn:E; [right; eauto | by left].
Qed.

Lemma key_of_inject (k : Z) : key_of (Val (inject_Z k)) = Some k.
Proof.
  unfold key_of. rewrite Qfloor_Z. by rewrite (proj2 (Qeq_bool_iff _ _) (Qeq_refl _)).
Qed.

Lemma key_of_Qeq (q1 q2 : Q) : (q1 == q2)%Q -> key_of (Val q1) = key_of (Val q2).
Proof.
  intros H. unfold key_of. rewrite (Qfloor_comp q1 q2 H).
  destruct (Qeq_bool q2 (inject_Z (Qfloor q2))) eqn:E2.
  - apply Qeq_bool_iff in E2. by rewrite (proj2 (Qeq_bool_iff _ _) (Qeq_trans _ _ _ H E2)).
  - destruct (Qeq_bool q1 (inject_Z (Qfloor q2))) eqn:E1; [|done].
    apply Qeq_bool_iff in E1. apply Qeq_sym in H.
    by rewrite (proj2 (Qeq_bool_iff _ _) (Qeq_trans _ _ _ H E1)) in E2.
Qed.

#[export] Hint Resolve code_entry_hit code_entry_miss : js.

Lemma description_spec (c : js Q) :
  exists d i, description c = Val d /\ icon_of c = Val i /\
    ((d = "Unknown" /\ i = "❔") \/
     exists k e, codeMap !! k = Some e /\ d = desc e /\ i = icon e).
Proof.
  unfold description, icon_of.
  destruct (code_entry_cases c) as [-> | (k & e & Hk & ->)].
  - exists "Unknown", "❔". simpl. auto.
  - destruct (codeMap_nonempty k e Hk) as [Hd Hi].
    exists (desc e), (icon e). simpl.
    rewrite !js_or_truthy by by apply truthy_string.
    split; [done|]. split; [done|]. right. eauto.
Qed.

(** ** Properties *)

(** The description and the icon are always strings (never [undefined]
    or [null]), and each is either a table entry's or the fallback. *)
Theorem description_total (c : js Q) :
  exists d i, description c = Val d /\ icon_of c = Val i /\
    ((d = "Unknown" /\ i = "❔") \/
     exists k e, codeMap !! k = Some e /\ d = desc e /\ i = icon e).
Proof. apply description_spec. Qed.

(** A code that is not a key of the table (for instance 999, a
    fraction, [undefined] or [null]) yields ["Unknown"] and ["❔"]. *)
Theorem description_fallback (c : js Q) :
  (forall k, key_of c = Some k -> codeMap !! k = None) ->
  description c = Val "Unknown" /\ icon_of c = Val "❔".
Proof.
  intros H. unfold description, icon_of. by rewrite code_entry_miss.
Qed.

Lemma description_fallback_witness :
  description (Val (inject_Z 999)) = Val "Unknown" /\ icon_of (Val (inject_Z 999)) = Val "❔".
Proof.
  apply description_fallback. intros k Hk. rewrite key_of_inject in Hk.
  injection Hk as <-. reflexivity.
Defined.

(** A code in the table yields its own description and icon. *)
Theorem description_hit (k : Z) (e : entry) :
  codeMap !! k = Some e ->
  description (Val (inject_Z k)) = Val (desc e) /\ icon_of (Val (inject_Z k)) = Val (icon e).
Proof.
  intros Hk. destruct (codeMap_nonempty k e Hk) as [Hd Hi].
  unfold description, icon_of. rewrite (code_entry_hit _ k e (key_of_inject k) Hk). simpl.
  by rewrite !js_or_truthy by by apply truthy_string.
Qed.

Lemma description_hit_witness :
  codeMap !! 61%Z = Some (mkEntry "Rain" "🌧️") /\
  description (Val (inject_Z 61)) = Val "Rain" /\ icon_of (Val (inject_Z 61)) = Val "🌧️".
Proof.
  split; [reflexivity|]. apply (description_hit 61 (mkEntry "Rain" "🌧️")). reflexivity.
Defined.

(** The lookup depends on the code's numeric value only: [2] and [4/2]
    are the same JavaScript number. *)
#[export] Instance description_Proper : Proper (Qeq ==> eq) (fun q => description (Val q)).
Proof. intros q1 q2 H. unfold description, code_entry. by rewrite (key_of_Qeq q1 q2 H). Qed.

#[export] Instance icon_of_Proper : Proper (Qeq ==> eq) (fun q => icon_of (Val q)).
Proof. intros q1 q2 H. unfold icon_of, code_entry. by rewrite (key_of_Qeq q1 q2 H). Qed.

End WeatherCode.
