(* ===== verification/Units.v ===== *)
(** Temperature display of [src/src/frontend/Dashboard.js]: [toF]
    (line 75) and [formatTemp] (lines 76-81).  [Math.round x] is
    [floor (x + 1/2)] (ties towards +∞); a number printed by a template
    literal is one of the tenths that [formatTemp] produces, whose
    JavaScript spelling is [tenths_string].

    Numbers are exact rationals, while line 75 computes with IEEE
    doubles.  The two agree except where the double error of
    [((c * 9) / 5 + 32) * 10] moves a value across a rounding tie: in
    JavaScript [toF(-18.25)] is [-0.9], because the product is
    [-8.500000000000014], while the rational model gives [-0.8].  The
    theorems here are about the rational model; they hold in JavaScript
    up to that representation error (about [1e-15] relative). *)

From Stdlib Require Import QArith Qround ZArith String Lqa.
From stdpp Require Import base strings pretty.
From S2P Require Import Spec2Rocq.

Module Units.

Local Open Scope Q_scope.

(** [Math.round] *)
Definition math_round (x : Q) : Z := Qfloor (x + (1#2)).

(** [const toF = (c) => Math.round(((c * 9) / 5 + 32) * 10) / 10] *)
Definition toF (c : Q) : Q := inject_Z (math_round (((c * 9) / 5 + 32) * 10)) / 10.

(** JavaScript's spelling of the number [k / 10]: an optional minus sign,
    the integer part, and one decimal digit unless it is 0 ([-0] prints
    as ["0"]). *)
Definition tenths_string (k : Z) : string :=
  let sign := if (k <? 0)%Z then "-" else "" in
  let a := Z.abs_N k in
  let whole := pretty (a / 10)%N in
  let frac := (a mod 10)%N in
  if (frac =? 0)%N then (sign +:+ whole)%string
  else (sign +:+ whole +:+ "." +:+ pretty frac)%string.

(** [`${x}`] for the numbers [formatTemp] prints, which are multiples of
    1/10. *)
Definition number_string (x : Q) : string := tenths_string (Qfloor (x * 10)).

(** [formatTemp]: [c == null ? "—" : unit === "C" ? `${Math.round(c * 10) / 10}°C`
    : `${toF(c)}°F`] *)
Definition formatTemp (unit : string) (c : js Q) : string :=
  match c with
  | Val q =>
      if String.eqb unit "C"
      then (number_string (inject_Z (math_round (q * 10)) / 10) +:+ "°C")%string
      else (number_string (toF q) +:+ "°F")%string
  | _ => "—"
  end.

(** The Fahrenheit value before rounding. *)
Definition fahrenheit (c : Q) : Q := (c * 9) / 5 + 32.

(** ** Lemmas *)

Lemma div10_mul (x : Q) : x / 10 == x * (1#10).
Proof. reflexivity. Qed.

Lemma div5_mul (x : Q) : x / 5 == x * (1#5).
Proof. reflexivity. Qed.

Lemma inject_Z_succ (z : Z) : inject_Z (z + 1) = inject_Z z + 1.
Proof. by rewrite inject_Z_plus. Qed.

Lemma Qfloor_unique (y : Q) (z : Z) :
  inject_Z z <= y -> y < inject_Z z + 1 -> Qfloor y = z.
Proof.
  intros H1 H2. pose proof (Qfloor_le y) as H3. pose proof (Qlt_floor y) as H4.
  rewrite inject_Z_succ in H4.
  assert (inject_Z (Qfloor y) < inject_Z (z + 1)) as H5 by (rewrite inject_Z_succ; lra).
  assert (inject_Z z < inject_Z (Qfloor y + 1)) as H6 by (rewrite inject_Z_succ; lra).
  rewrite <- Zlt_Qlt in H5, H6. lia.
Qed.

Lemma math_round_bounds (x : Q) :
  x - (1#2) < inject_Z (math_round x) /\ inject_Z (math_round x) <= x + (1#2).
Proof.
  unfold math_round. pose proof (Qfloor_le (x + (1#2))) as Hle.
  pose proof (Qlt_floor (x + (1#2))) as Hlt. rewrite inject_Z_succ in Hlt.
  split; lra.
Qed.

(** [Math.round] returns the integer [z] on [[z - 1/2, z + 1/2)]. *)
Lemma math_round_spec (x : Q) (z : Z) :
  inject_Z z - (1#2) <= x -> x < inject_Z z + (1#2) -> math_round x = z.
Proof. intros H1 H2. apply Qfloor_unique; lra. Qed.

Lemma math_round_mono (x y : Q) : x <= y -> (math_round x <= math_round y)%Z.
Proof. intros H. apply Qfloor_resp_le. lra. Qed.

#[export] Instance math_round_Proper : Proper (Qeq ==> eq) math_round.
Proof. intros x y H. unfold math_round. apply Qfloor_comp. by rewrite H. Qed.

#[export] Instance toF_Proper : Proper (Qeq ==> Qeq) toF.
Proof. intros x y H. unfold toF. by rewrite H. Qed.

Lemma number_string_tenths (k : Z) : number_string (inject_Z k / 10) = tenths_string k.
Proof.
  unfold number_string. f_equal. apply Qfloor_unique; rewrite div10_mul; lra.
Qed.

(** ** Properties *)

(** C23 (bounds): [toF] is within half a tenth of the exact Fahrenheit value:
    [F - 0.05 < toF c <= F + 0.05].  In JavaScript the bound holds up to
    the double error of the product, about [2e-17] in absolute terms
    for everyday temperatures. *)
Theorem toF_bounds (c : Q) :
  fahrenheit c - (1#20) < toF c /\ toF c <= fahrenheit c + (1#20).
Proof.
  unfold toF, fahrenheit. rewrite div10_mul.
  destruct (math_round_bounds (((c * 9) / 5 + 32) * 10)) as [H1 H2].
  split; lra.
Qed.

(** When the Fahrenheit value has at most one decimal, [toF] is
    exact; 0°C gives 32°F and 100°C gives 212°F. *)
Theorem toF_exact (c : Q) (z : Z) :
  fahrenheit c * 10 == inject_Z z -> toF c == fahrenheit c.
Proof.
  intros H. unfold toF. fold (fahrenheit c).
  rewrite (math_round_spec (fahrenheit c * 10) z) by lra.
  rewrite div10_mul, <- H. lra.
Qed.

Lemma toF_exact_witness : toF 0 == 32 /\ toF 100 == 212.
Proof.
  split.
  - rewrite (toF_exact 0 320) by reflexivity. reflexivity.
  - rewrite (toF_exact 100 2120) by reflexivity. reflexivity.
Defined.

(** [toF] is monotone. *)
Theorem toF_mono (c1 c2 : Q) : c1 <= c2 -> toF c1 <= toF c2.
Proof.
  intros H. unfold toF. rewrite !div10_mul.
  assert (inject_Z (math_round (((c1 * 9) / 5 + 32) * 10))
          <= inject_Z (math_round (((c2 * 9) / 5 + 32) * 10))) as Hr.
  { rewrite <- Zle_Qle. apply math_round_mono. rewrite !div5_mul. lra. }
  lra.
Qed.

Lemma toF_mono_witness : 0 <= 100 /\ toF 0 <= toF 100.
Proof. split; [discriminate|]. apply toF_mono. discriminate. Defined.

End Units.
