(* ===== verification/Recents.v ===== *)
(** The recent-cities list of [src/src/frontend/Dashboard.js]: the
    functional update passed to [setRecentCities] after a successful query
    (lines 160-163),
    [(prev) => [name, ...prev.filter((c) => c !== name)].slice(0, 3)].
    The element type is left abstract with a decidable equality (strict
    equality [!==]); the dashboard uses it at [js string], since the
    geocoder's [name] may be [undefined].

    The abstract specification of the list is the spec's "up to 3 distinct
    names, most recent first": after a history [h] of successful queries
    it is [take 3 (reverse (remove_dups h))] ([remove_dups] keeps the last
    occurrence of each name). *)

From stdpp Require Import base list strings.
From S2P Require Import Spec2Rocq.

Module Recents.

Definition capacity : nat := 3.

Section Recents.
Context {A : Type} `{EqDecision A}.

(** The state update of lines 160-163. *)
Definition update (name : A) (prev : list A) : list A :=
  take capacity (name :: filter (fun c => c <> name) prev).

(** A history of successful queries, oldest first, replayed from an
    initial list. *)
Definition replay (init : list A) (hist : list A) : list A :=
  foldl (fun acc name => update name acc) init hist.

(** The abstract list the spec describes. *)
Definition recent_spec (hist : list A) : list A :=
  take capacity (reverse (remove_dups hist)).

(** The invariant of a well-formed list. *)
Definition wf (l : list A) : Prop := NoDup l /\ (length l <= capacity)%nat.

(** ** Lemmas *)

Lemma filter_all_id (P : A -> Prop) `{forall x, Decision (P x)} (l : list A) :
  (forall x, x ∈ l -> P x) -> filter P l = l.
Proof.
  induction l as [|y l IH]; intros Hl; [done|].
  rewrite filter_cons_True by (apply Hl; left). f_equal. apply IH.
  intros x Hx. apply Hl. by right.
Qed.

Lemma elem_of_take_elem (x : A) (n : nat) (l : list A) : x ∈ take n l -> x ∈ l.
Proof. intros Hx. eapply elem_of_sublist; [done | apply sublist_take]. Qed.

Lemma update_head (name : A) (prev : list A) : head (update name prev) = Some name.
Proof. reflexivity. Qed.

Lemma update_length (name : A) (prev : list A) : (length (update name prev) <= capacity)%nat.
Proof. unfold update. rewrite length_take. lia. Qed.

Lemma NoDup_update (name : A) (prev : list A) : NoDup prev -> NoDup (update name prev).
Proof.
  intros Hnd. unfold update. eapply sublist_NoDup; [|apply sublist_take]. constructor.
  - rewrite list_elem_of_filter. naive_solver.
  - by apply NoDup_filter.
Qed.

Lemma elem_of_update (x name : A) (prev : list A) :
  x ∈ update name prev -> x = name \/ x ∈ prev.
Proof.
  unfold update. intros Hx%elem_of_take_elem. rewrite elem_of_cons, list_elem_of_filter in Hx.
  naive_solver.
Qed.

(** Filtering out an element that occurs at most once commutes with
    keeping a prefix one longer. *)
Lemma take_filter_take (n : nat) (x : A) (l : list A) :
  NoDup l -> take n (filter (fun c => c <> x) (take (S n) l)) = take n (filter (fun c => c <> x) l).
Proof.
  revert n. induction l as [|y l IH]; intros n Hnd; [done|].
  apply NoDup_cons in Hnd as [Hy Hnd].
  destruct n as [|n]; [done|]. simpl. rewrite !filter_cons.
  case_decide as Hyx.
  - simpl. f_equal. by apply IH.
  - assert (y = x) as -> by (destruct (decide (y = x)); naive_solver).
    assert (filter (fun c => c <> x) (take (S n) l) = take (S n) l) as ->.
    { apply filter_all_id. intros z Hz%elem_of_take_elem. naive_solver. }
    assert (filter (fun c => c <> x) l = l) as ->.
    { apply filter_all_id. naive_solver. }
    rewrite take_take. f_equal. lia.
Qed.

Lemma remove_dups_snoc (h : list A) (x : A) :
  remove_dups (h ++ [x]) = filter (fun c => c <> x) (remove_dups h) ++ [x].
Proof.
  induction h as [|y h IH]; [done|]. simpl.
  rewrite IH. case_decide as H1; case_decide as H2;
    rewrite elem_of_app, list_elem_of_singleton in H1.
  - done.
  - assert (y = x) as -> by naive_solver. by rewrite filter_cons_False by naive_solver.
  - naive_solver.
  - by rewrite filter_cons_True by naive_solver.
Qed.

Lemma remove_dups_id (l : list A) : NoDup l -> remove_dups l = l.
Proof.
  induction l as [|y l IH]; intros Hnd; [done|]. apply NoDup_cons in Hnd as [Hy Hnd].
  simpl. case_decide; [done|]. by rewrite IH.
Qed.

Lemma NoDup_reverse (l : list A) : NoDup l -> NoDup (reverse l).
Proof. by rewrite reverse_Permutation. Qed.

Lemma update_wf (name : A) (prev : list A) : NoDup prev -> wf (update name prev).
Proof. intros Hnd. split; [by apply NoDup_update | apply update_length]. Qed.

(** One step of the abstract list: a new query puts its name in front of
    the uncapped list of the older distinct names. *)
Lemma recent_spec_snoc (h : list A) (x : A) :
  recent_spec (h ++ [x]) = take capacity (x :: filter (fun c => c <> x) (reverse (remove_dups h))).
Proof.
  unfold recent_spec. by rewrite remove_dups_snoc, reverse_snoc, filter_reverse.
Qed.

Lemma update_take (x : A) (l : list A) :
  NoDup l -> update x (take capacity l) = take capacity (x :: filter (fun c => c <> x) l).
Proof.
  intros Hnd. unfold update, capacity. rewrite !firstn_cons.
  f_equal. by apply take_filter_take.
Qed.

(** C14 (refinement): replaying a history of successful queries from a
    well-formed stored list yields the spec's list: the three most
    recent distinct names, most recent first, where the stored list
    counts as the oldest part of the history. *)
Theorem replay_refines_spec (init hist : list A) :
  wf init -> replay init hist = recent_spec (reverse init ++ hist).
Proof.
  intros [Hnd Hlen]. induction hist as [|x h IH] using rev_ind.
  - unfold replay, recent_spec. simpl. rewrite app_nil_r.
    rewrite remove_dups_id by (by apply NoDup_reverse).
    rewrite reverse_involutive. by rewrite take_ge.
  - unfold replay in *. rewrite foldl_snoc, IH, app_assoc, recent_spec_snoc.
    unfold recent_spec. apply update_take. apply NoDup_reverse, NoDup_remove_dups.
Qed.

(** Every update yields a well-formed list when the
    previous one had no duplicates; from a well-formed stored list the
    list stays well-formed along any history. *)
Theorem replay_wf (init hist : list A) : wf init -> wf (replay init hist).
Proof.
  intros Hwf. induction hist as [|x h IH] using rev_ind; [done|].
  unfold replay in *. rewrite foldl_snoc. apply update_wf, IH.
Qed.
End Recents.

End Recents.

(** The spec's example: "Paris", "Tokyo", "Paris", "Berlin", "Oslo"
    from an empty list. *)
Lemma replay_refines_spec_witness :
  Recents.replay [] ["Paris"; "Tokyo"; "Paris"; "Berlin"; "Oslo"]%string
  = ["Oslo"; "Berlin"; "Paris"]%string.
Proof.
  rewrite (Recents.replay_refines_spec [] _); [reflexivity|].
  split; [constructor | simpl; lia].
Defined.

Lemma replay_wf_witness :
  Recents.wf (Recents.replay ["Rome"] ["Paris"; "Rome"; "Oslo"; "Lima"]%string).
Proof.
  apply Recents.replay_wf. split; [apply NoDup_singleton | simpl; unfold Recents.capacity; lia].
Defined.
