(* ===== verification/Json.v ===== *)
(** JSON as the application uses it.
    - The [Dashboard] of [src/src/frontend/Dashboard.js] keeps the recent
      cities in local storage.  Lines 29-33 write
      [JSON.stringify(recentCities)], and lines 11-18 read it back with
      [JSON.parse], where a parse error yields [[]].
    - The forms and the server exchange JSON objects over HTTP ([Http]).

    [JSON.parse] and [JSON.stringify] are built-ins, modelled here from
    ECMA-404 and ECMA-262.
    - [json_parse] accepts exactly the JSON texts: surrounding whitespace,
      and the literals, numbers, strings, arrays and objects of the
      grammar.  It returns [None] where [JSON.parse] throws a
      [SyntaxError].
    - Strings are byte strings, UTF-8 encoded, so a [\uXXXX] escape
      becomes the UTF-8 bytes of its code point.  A surrogate pair becomes
      one 4-byte sequence.  A lone surrogate becomes its 3-byte
      generalised UTF-8 (WTF-8) sequence, since JavaScript strings may
      hold one.
    - A number is kept as its text, since the dashboard never computes
      with one.
    - [stringify_object] is [JSON.stringify] on an object whose values
      are strings, as axios and [res.json] send them.
    - [stringify_recents] is [JSON.stringify] on an array of strings and
      [undefined]/[null]: [undefined] and [null] become [null], and
      strings are quoted with the escapes of ECMA-262's [QuoteJSONString].
      In the byte model a lone surrogate passes through unescaped;
      [json_parse] reads it back the same either way. *)

From Stdlib Require Import Ascii String ZArith NArith.
From stdpp Require Import base list strings.
From S2P Require Import Spec2Rocq.

Module Json.

Inductive json : Type :=
| JNull
| JBool (b : bool)
| JNumber (lexeme : string)
| JString (s : string)
| JArray (vs : list json)
| JObject (members : list (string * json)).

(** The quotation mark and the reverse solidus. *)
Definition dq : ascii := ascii_of_nat 34.
Definition bsl : ascii := ascii_of_nat 92.

(** ** Lexical helpers *)

Definition is_ws (c : ascii) : bool :=
  Ascii.eqb c " " || Ascii.eqb c "009" || Ascii.eqb c "010" || Ascii.eqb c "013".

Fixpoint skip_ws (s : list ascii) : list ascii :=
  match s with
  | c :: r => if is_ws c then skip_ws r else s
  | [] => []
  end.

Definition is_digit (c : ascii) : bool := (48 <=? N_of_ascii c)%N && (N_of_ascii c <=? 57)%N.

(** The longest prefix of digits. *)
Fixpoint take_digits (s : list ascii) : list ascii * list ascii :=
  match s with
  | c :: r => if is_digit c then let '(ds, r') := take_digits r in (c :: ds, r') else ([], s)
  | [] => ([], [])
  end.

Definition hex_val (c : ascii) : option N :=
  let n := N_of_ascii c in
  if (48 <=? n)%N && (n <=? 57)%N then Some (n - 48)%N
  else if (97 <=? n)%N && (n <=? 102)%N then Some (n - 87)%N
  else if (65 <=? n)%N && (n <=? 70)%N then Some (n - 55)%N
  else None.

(** Four hexadecimal digits. *)
Definition hex4 (s : list ascii) : option (N * list ascii) :=
  match s with
  | a :: b :: c :: d :: r =>
      match hex_val a, hex_val b, hex_val c, hex_val d with
      | Some x, Some y, Some z, Some w => Some ((((x * 16 + y) * 16 + z) * 16 + w)%N, r)
      | _, _, _, _ => None
      end
  | _ => None
  end.

(** The UTF-8 bytes of a code point (WTF-8 for a lone surrogate). *)
Definition utf8 (cp : N) : list ascii :=
  if (cp <? 128)%N then [ascii_of_N cp]
  else if (cp <? 2048)%N then [ascii_of_N (192 + cp / 64); ascii_of_N (128 + cp mod 64)]
  else if (cp <? 65536)%N then
    [ascii_of_N (224 + cp / 4096); ascii_of_N (128 + (cp / 64) mod 64); ascii_of_N (128 + cp mod 64)]
  else [ascii_of_N (240 + cp / 262144); ascii_of_N (128 + (cp / 4096) mod 64);
        ascii_of_N (128 + (cp / 64) mod 64); ascii_of_N (128 + cp mod 64)].

(** ** Strings *)

(** One step inside a string literal.  [Some (None, r)] is the closing
    quote.  [Some (Some bytes, r)] is a character or an escape, with the
    bytes it stands for.  [None] is a syntax error: an unescaped control
    character, a bad escape, or the end of the input. *)
Definition string_step (s : list ascii) : option (option (list ascii) * list ascii) :=
  match s with
  | [] => None
  | c :: r =>
      if Ascii.eqb c dq then Some (None, r)
      else if Ascii.eqb c bsl then
        match r with
        | [] => None
        | e :: r' =>
            if Ascii.eqb e dq then Some (Some [dq], r')
            else if Ascii.eqb e bsl then Some (Some [bsl], r')
            else if Ascii.eqb e "/" then Some (Some ["/"%char], r')
            else if Ascii.eqb e "b" then Some (Some ["008"%char], r')
            else if Ascii.eqb e "f" then Some (Some ["012"%char], r')
            else if Ascii.eqb e "n" then Some (Some ["010"%char], r')
            else if Ascii.eqb e "r" then Some (Some ["013"%char], r')
            else if Ascii.eqb e "t" then Some (Some ["009"%char], r')
            else if Ascii.eqb e "u" then
              match hex4 r' with
              | None => None
              | Some (u, r'') =>
                  if (55296 <=? u)%N && (u <=? 56319)%N then
                    (* a high surrogate: combined with a following low one *)
                    match r'' with
                    | b :: v :: r3 =>
                        if Ascii.eqb b bsl && Ascii.eqb v "u" then
                          match hex4 r3 with
                          | Some (l, r4) =>
                              if (56320 <=? l)%N && (l <=? 57343)%N then
                                Some (Some (utf8 (65536 + (u - 55296) * 1024 + (l - 56320))), r4)
                              else Some (Some (utf8 u), r'')
                          | None => Some (Some (utf8 u), r'')
                          end
                        else Some (Some (utf8 u), r'')
                    | _ => Some (Some (utf8 u), r'')
                    end
                  else Some (Some (utf8 u), r'')
              end
            else None
        end
      else if (N_of_ascii c <? 32)%N then None
      else Some (Some [c], r)
  end.

(** The body of a string literal after its opening quote, with fuel. *)
Fixpoint string_body (n : nat) (s : list ascii) : option (list ascii * list ascii) :=
  match n with
  | 0 => None
  | S n =>
      match string_step s with
      | None => None
      | Some (None, r) => Some ([], r)
      | Some (Some b, r) => '(cs, r') ← string_body n r; Some (b ++ cs, r')
      end
  end.

(** ** Numbers: [-? (0 | [1-9][0-9]* ) (. [0-9]+)? ([eE] [+-]? [0-9]+)?] *)

Definition number_frac (s : list ascii) : option (list ascii * list ascii) :=
  match s with
  | c :: r =>
      if Ascii.eqb c "." then
        match take_digits r with
        | ([], _) => None
        | (ds, r') => Some (c :: ds, r')
        end
      else Some ([], s)
  | [] => Some ([], [])
  end.

Definition number_exp (s : list ascii) : option (list ascii * list ascii) :=
  match s with
  | c :: r =>
      if Ascii.eqb c "e" || Ascii.eqb c "E" then
        let '(sg, r1) := match r with
                         | x :: r' => if Ascii.eqb x "+" || Ascii.eqb x "-" then ([x], r') else ([], r)
                         | [] => ([], [])
                         end in
        match take_digits r1 with
        | ([], _) => None
        | (ds, r') => Some (c :: sg ++ ds, r')
        end
      else Some ([], s)
  | [] => Some ([], [])
  end.

Definition parse_number (s : list ascii) : option (list ascii * list ascii) :=
  let '(sg, s1) := match s with
                   | c :: r => if Ascii.eqb c "-" then ([c], r) else ([], s)
                   | [] => ([], [])
                   end in
  '(int, r1) ← match s1 with
               | c :: r => if Ascii.eqb c "0" then Some ([c], r)
                           else if is_digit c then Some (take_digits s1) else None
               | [] => None
               end;
  '(frac, r2) ← number_frac r1;
  '(exp, r3) ← number_exp r2;
  Some (sg ++ int ++ frac ++ exp, r3).

(** ** Values *)

(** The elements of an array after its first one starts, given the parser
    [pv] of a value: values separated by commas up to the closing
    bracket.  The fuel [m] bounds their number. *)
Fixpoint elems_with (pv : list ascii -> option (json * list ascii)) (m : nat) (s : list ascii)
    : option (list json * list ascii) :=
  match m with
  | 0 => None
  | S m' =>
      '(v, r) ← pv s;
      match skip_ws r with
      | c :: r' =>
          if Ascii.eqb c "," then '(vs, r'') ← elems_with pv m' r'; Some (v :: vs, r'')
          else if Ascii.eqb c "]" then Some ([v], r')
          else None
      | [] => None
      end
  end.

(** The members of an object after its first one starts: [string : value]
    pairs separated by commas up to the closing brace. *)
Fixpoint members_with (pv : list ascii -> option (json * list ascii)) (m : nat) (s : list ascii)
    : option (list (string * json) * list ascii) :=
  match m with
  | 0 => None
  | S m' =>
      match skip_ws s with
      | q :: r =>
          if Ascii.eqb q dq then
            '(k, r1) ← string_body (length r) r;
            match skip_ws r1 with
            | c :: r2 =>
                if Ascii.eqb c ":" then
                  '(v, r3) ← pv r2;
                  match skip_ws r3 with
                  | d :: r4 =>
                      if Ascii.eqb d "," then
                        '(kvs, r5) ← members_with pv m' r4; Some ((string_of_list_ascii k, v) :: kvs, r5)
                      else if Ascii.eqb d "}" then Some ([(string_of_list_ascii k, v)], r4)
                      else None
                  | [] => None
                  end
                else None
            | [] => None
            end
          else None
      | [] => None
      end
  end.

(** A value after optional whitespace.  The fuel [n] bounds the nesting
    depth and the length of each array and object. *)
Fixpoint parse_value (n : nat) (s : list ascii) {struct n} : option (json * list ascii) :=
  match n with
  | 0 => None
  | S n' =>
      match skip_ws s with
      | [] => None
      | c :: r =>
          if Ascii.eqb c dq then
            '(b, r') ← string_body (length r) r; Some (JString (string_of_list_ascii b), r')
          else if Ascii.eqb c "[" then
            match skip_ws r with
            | d :: r' => if Ascii.eqb d "]" then Some (JArray [], r')
                         else '(vs, r'') ← elems_with (parse_value n') n' r; Some (JArray vs, r'')
            | [] => None
            end
          else if Ascii.eqb c "{" then
            match skip_ws r with
            | d :: r' => if Ascii.eqb d "}" then Some (JObject [], r')
                         else '(kvs, r'') ← members_with (parse_value n') n' r; Some (JObject kvs, r'')
            | [] => None
            end
          else if Ascii.eqb c "n" then
            match r with "u" :: "l" :: "l" :: r' => Some (JNull, r') | _ => None end%char
          else if Ascii.eqb c "t" then
            match r with "r" :: "u" :: "e" :: r' => Some (JBool true, r') | _ => None end%char
          else if Ascii.eqb c "f" then
            match r with "a" :: "l" :: "s" :: "e" :: r' => Some (JBool false, r') | _ => None end%char
          else '(lex, r') ← parse_number (c :: r); Some (JNumber (string_of_list_ascii lex), r')
      end
  end.

(** [JSON.parse(text)]: one value, then only whitespace. *)
Definition json_parse (text : string) : option json :=
  let s := list_ascii_of_string text in
  match parse_value (length s) s with
  | Some (v, r) => if decide (skip_ws r = []) then Some v else None
  | None => None
  end.

(** ** [JSON.stringify] of the recent list *)

Definition hex_digit (k : N) : ascii :=
  if (k <? 10)%N then ascii_of_N (48 + k) else ascii_of_N (87 + k).

(** ECMA-262 [QuoteJSONString], one character. *)
Definition escape_char (c : ascii) : list ascii :=
  if Ascii.eqb c dq then [bsl; dq]
  else if Ascii.eqb c bsl then [bsl; bsl]
  else if Ascii.eqb c "008" then [bsl; "b"%char]
  else if Ascii.eqb c "012" then [bsl; "f"%char]
  else if Ascii.eqb c "010" then [bsl; "n"%char]
  else if Ascii.eqb c "013" then [bsl; "r"%char]
  else if Ascii.eqb c "009" then [bsl; "t"%char]
  else if (N_of_ascii c <? 32)%N then
    [bsl; "u"%char; "0"%char; "0"%char; hex_digit (N_of_ascii c / 16); hex_digit (N_of_ascii c mod 16)]
  else [c].

Definition quote (s : string) : list ascii :=
  dq :: flat_map escape_char (list_ascii_of_string s) ++ [dq].

(** An element of [recentCities]: [undefined] in an array becomes [null]. *)
Definition stringify_elem (v : js string) : list ascii :=
  match v with Val s => quote s | _ => list_ascii_of_string "null" end.

Fixpoint join_elems (l : list (js string)) : list ascii :=
  match l with
  | [] => []
  | [v] => stringify_elem v
  | v :: l' => stringify_elem v ++ ","%char :: join_elems l'
  end.

(** [JSON.stringify(recentCities)] *)
Definition stringify_recents (l : list (js string)) : string :=
  string_of_list_ascii ("["%char :: join_elems l ++ ["]"%char]).

(** The JSON value of an element, and back. *)
Definition json_of_recent (v : js string) : json :=
  match v with Val s => JString s | _ => JNull end.

(** [JSON.stringify] of an object whose values are strings. *)
Definition member_text (kv : string * string) : list ascii :=
  quote kv.1 ++ ":"%char :: quote kv.2.

Fixpoint join_members (kvs : list (string * string)) : list ascii :=
  match kvs with
  | [] => []
  | [kv] => member_text kv
  | kv :: kvs' => member_text kv ++ ","%char :: join_members kvs'
  end.

Definition stringify_object (kvs : list (string * string)) : string :=
  string_of_list_ascii ("{"%char :: join_members kvs ++ ["}"%char]).

Definition json_of_members (kvs : list (string * string)) : list (string * json) :=
  map (fun kv => (kv.1, JString kv.2)) kvs.

(** ** Lemmas *)

Lemma skip_ws_nonws (c : ascii) (t : list ascii) : is_ws c = false -> skip_ws (c :: t) = c :: t.
Proof. intros H. simpl. by rewrite H. Qed.

(** Every character's escape reads back as that character. *)
Lemma string_step_escape (c : ascii) (r : list ascii) :
  string_step (escape_char c ++ r) = Some (Some [c], r).
Proof. destruct c as [[] [] [] [] [] [] [] []]; reflexivity. Qed.

Lemma escape_char_length (c : ascii) : 1 <= length (escape_char c).
Proof. unfold escape_char. repeat case_match; simpl; lia. Qed.

Lemma flat_map_escape_length (cs : list ascii) : length cs <= length (flat_map escape_char cs).
Proof.
  induction cs as [|c cs IH]; simpl; [lia|].
  rewrite length_app. pose proof (escape_char_length c). lia.
Qed.

(** The escaped body of a string, then the closing quote, reads back as
    the string, given one unit of fuel per character and one for the
    quote. *)
Lemma string_body_escape (cs r : list ascii) (n : nat) :
  length cs < n -> string_body n (flat_map escape_char cs ++ dq :: r) = Some (cs, r).
Proof.
  induction cs as [|c cs IH] in n |- *; destruct n as [|n]; cbn [length]; intros Hn; try lia.
  - reflexivity.
  - cbn [flat_map string_body]. rewrite <- app_assoc, string_step_escape, IH by lia. reflexivity.
Qed.

Lemma parse_quote (n : nat) (s : string) (r : list ascii) :
  parse_value (S n) (quote s ++ r) = Some (JString s, r).
Proof.
  unfold quote. rewrite <- app_comm_cons, <- app_assoc.
  cbn [parse_value]. rewrite skip_ws_nonws by reflexivity.
  change (Ascii.eqb dq dq) with true. cbv iota. change ([dq] ++ r) with (dq :: r).
  rewrite string_body_escape.
  - cbn. by rewrite string_of_list_ascii_of_string.
  - rewrite length_app. pose proof (flat_map_escape_length (list_ascii_of_string s)). simpl. lia.
Qed.

Lemma parse_elem (n : nat) (v : js string) (r : list ascii) :
  parse_value (S n) (stringify_elem v ++ r) = Some (json_of_recent v, r).
Proof. destruct v as [| |s]; [reflexivity | reflexivity | apply parse_quote]. Qed.

Lemma stringify_elem_length (v : js string) : 1 <= length (stringify_elem v).
Proof. destruct v as [| |s]; simpl; lia. Qed.

Lemma join_elems_length (l : list (js string)) : length l <= length (join_elems l).
Proof.
  induction l as [|v [|w l] IH]; [simpl; lia | simpl; pose proof (stringify_elem_length v); lia|].
  change (join_elems (v :: w :: l)) with (stringify_elem v ++ ","%char :: join_elems (w :: l)).
  rewrite length_app. cbn [length] in *. pose proof (stringify_elem_length v). lia.
Qed.

(** The text of a non-empty list starts with a quote or an [n]. *)
Lemma join_elems_head (v : js string) (l : list (js string)) :
  exists c t, join_elems (v :: l) = c :: t /\ is_ws c = false /\ Ascii.eqb c "]" = false.
Proof. destruct v, l; eexists _, _; (split; [reflexivity | split; reflexivity]). Qed.

Section Elems.
Context (pv : list ascii -> option (json * list ascii)).
Hypothesis pv_elem : forall v r, pv (stringify_elem v ++ r) = Some (json_of_recent v, r).

Lemma elems_join (l : list (js string)) (m : nat) (r : list ascii) :
  l <> [] -> length l <= m ->
  elems_with pv m (join_elems l ++ "]"%char :: r) = Some (map json_of_recent l, r).
Proof.
  induction l as [|v [|w l] IH] in m |- *; intros Hl Hm; [done| |];
    destruct m as [|m]; cbn [length] in Hm; try lia.
  - cbn [join_elems elems_with]. rewrite pv_elem. reflexivity.
  - change (join_elems (v :: w :: l)) with (stringify_elem v ++ ","%char :: join_elems (w :: l)).
    rewrite <- app_assoc. cbn [elems_with]. rewrite pv_elem. cbn.
    rewrite IH by (done || cbn [length]; lia). reflexivity.
Qed.

End Elems.

Lemma parse_array (n : nat) (l : list (js string)) (r : list ascii) :
  length l <= n ->
  parse_value (S n) ("["%char :: join_elems l ++ "]"%char :: r) = Some (JArray (map json_of_recent l), r).
Proof.
  intros Hn. destruct l as [|v l]; [reflexivity|]. destruct n as [|n]; [simpl in Hn; lia|].
  destruct (join_elems_head v l) as (c & t & Hj & Hws & Hb).
  cbn [parse_value]. rewrite skip_ws_nonws by reflexivity. cbv iota.
  change (Ascii.eqb "[" dq) with false. change (Ascii.eqb "[" "[") with true. cbv iota.
  rewrite Hj, <- app_comm_cons, skip_ws_nonws, Hb by exact Hws. cbv iota.
  replace (c :: t ++ "]"%char :: r) with (join_elems (v :: l) ++ "]"%char :: r) by (by rewrite Hj).
  rewrite elems_join; [reflexivity | intros w r'; exact (parse_elem n w r') | done | done].
Qed.

(** The text of an array of recent cities parses back to the array. *)
Lemma json_parse_join (l : list (js string)) :
  json_parse (string_of_list_ascii ("["%char :: join_elems l ++ ["]"%char])) =
  Some (JArray (map json_of_recent l)).
Proof.
  unfold json_parse. rewrite list_ascii_of_string_of_list_ascii.
  cbn [length]. rewrite length_app. pose proof (join_elems_length l).
  rewrite parse_array by (cbn [length]; lia). reflexivity.
Qed.

Lemma quote_cons (s : string) (r : list ascii) :
  quote s ++ r = dq :: flat_map escape_char (list_ascii_of_string s) ++ dq :: r.
Proof. unfold quote. cbn [app]. by rewrite <- app_assoc. Qed.

Lemma string_body_quote (s : string) (r : list ascii) :
  string_body (length (flat_map escape_char (list_ascii_of_string s) ++ dq :: r))
    (flat_map escape_char (list_ascii_of_string s) ++ dq :: r) = Some (list_ascii_of_string s, r).
Proof.
  apply string_body_escape. rewrite length_app.
  pose proof (flat_map_escape_length (list_ascii_of_string s)). simpl. lia.
Qed.

Lemma member_text_length (kv : string * string) : 1 <= length (member_text kv).
Proof. unfold member_text, quote. simpl. lia. Qed.

Lemma join_members_length (kvs : list (string * string)) : length kvs <= length (join_members kvs).
Proof.
  induction kvs as [|kv [|kv' kvs] IH]; [simpl; lia | simpl; pose proof (member_text_length kv); lia|].
  change (join_members (kv :: kv' :: kvs)) with (member_text kv ++ ","%char :: join_members (kv' :: kvs)).
  rewrite length_app. cbn [length] in *. pose proof (member_text_length kv). lia.
Qed.

Section Members.
Context (pv : list ascii -> option (json * list ascii)).
Hypothesis pv_quote : forall s r, pv (quote s ++ r) = Some (JString s, r).

(** One member, then the separator [d] that follows it. *)
Lemma members_with_member (k v : string) (m : nat) (d : ascii) (rest : list ascii) :
  is_ws d = false ->
  members_with pv (S m) (member_text (k, v) ++ d :: rest) =
  if Ascii.eqb d "," then '(kvs, r') ← members_with pv m rest; Some ((k, JString v) :: kvs, r')
  else if Ascii.eqb d "}" then Some ([(k, JString v)], rest) else None.
Proof.
  intros Hd. unfold member_text. cbn [fst snd].
  rewrite <- app_assoc, quote_cons. cbn [members_with app]. rewrite skip_ws_nonws by reflexivity.
  change (Ascii.eqb dq dq) with true. cbv iota.
  rewrite string_body_quote. cbn [mbind option_bind].
  rewrite skip_ws_nonws by reflexivity. cbv iota. change (Ascii.eqb ":" ":") with true. cbv iota.
  rewrite pv_quote. cbn [mbind option_bind]. rewrite skip_ws_nonws by exact Hd.
  rewrite string_of_list_ascii_of_string. reflexivity.
Qed.

Lemma members_join (kvs : list (string * string)) (m : nat) (r : list ascii) :
  kvs <> [] -> length kvs <= m ->
  members_with pv m (join_members kvs ++ "}"%char :: r) = Some (json_of_members kvs, r).
Proof.
  induction kvs as [|[k v] [|kv' kvs] IH] in m |- *; intros Hl Hm; [done| |];
    destruct m as [|m]; cbn [length] in Hm; try lia.
  - cbn [join_members]. by rewrite (members_with_member k v m "}"%char r).
  - change (join_members ((k, v) :: kv' :: kvs))
      with (member_text (k, v) ++ ","%char :: join_members (kv' :: kvs)).
    rewrite <- app_assoc, <- app_comm_cons, (members_with_member k v m ","%char) by reflexivity.
    cbv iota.
    rewrite IH by (done || cbn [length]; lia). reflexivity.
Qed.

End Members.

Lemma join_members_head (kv : string * string) (kvs : list (string * string)) :
  exists t, join_members (kv :: kvs) = dq :: t.
Proof. destruct kvs; eexists; reflexivity. Qed.

Lemma parse_object (n : nat) (kvs : list (string * string)) (r : list ascii) :
  length kvs <= n ->
  parse_value (S n) ("{"%char :: join_members kvs ++ "}"%char :: r) = Some (JObject (json_of_members kvs), r).
Proof.
  intros Hn. destruct kvs as [|kv kvs]; [reflexivity|]. destruct n as [|n]; [simpl in Hn; lia|].
  destruct (join_members_head kv kvs) as (t & Hj).
  cbn [parse_value]. rewrite skip_ws_nonws by reflexivity. cbv iota.
  change (Ascii.eqb "{" dq) with false. change (Ascii.eqb "{" "[") with false.
  change (Ascii.eqb "{" "{") with true. cbv iota.
  rewrite Hj, <- app_comm_cons, skip_ws_nonws by reflexivity. cbv iota.
  change (Ascii.eqb dq "}") with false. cbv iota.
  replace (dq :: t ++ "}"%char :: r) with (join_members (kv :: kvs) ++ "}"%char :: r) by (by rewrite Hj).
  rewrite members_join; [reflexivity | intros s r'; exact (parse_quote n s r') | done | done].
Qed.

Lemma stringify_object_nonempty (kvs : list (string * string)) :
  String.eqb (stringify_object kvs) "" = false.
Proof. reflexivity. Qed.

(** The text of a string-valued object parses back to the object. *)
Lemma json_parse_object (kvs : list (string * string)) :
  json_parse (stringify_object kvs) = Some (JObject (json_of_members kvs)).
Proof.
  unfold json_parse, stringify_object. rewrite list_ascii_of_string_of_list_ascii.
  cbn [length]. rewrite length_app. pose proof (join_members_length kvs).
  rewrite parse_object by (cbn [length]; lia). reflexivity.
Qed.

End Json.
