(* ===== verification/Forecast.v ===== *)
(** The forecast payload and its normalisation, the core of
    [src/src/frontend/Dashboard.js]: lines 126-157 of [getWeather] read
    [weatherRes.data.current_weather], [.hourly] and [.daily], compute the
    index [idx] of the current observation in [hourly.time], and build the
    object passed to [setWeather].

    Each payload part is a record of JavaScript values that may be
    missing; reading a property of a missing part throws a [TypeError]
    (caught by the [catch] of [getWeather]), so [normalize] returns a
    [result].  The statements are modelled in the order of the source, with
    the short-circuits of [??] and [?.]: [hourly.temperature_2m] is only
    read when [current.temperature] is nullish, and likewise
    [hourly.windspeed_10m]. *)

From Stdlib Require Import QArith ZArith String Ascii.
From stdpp Require Import base list strings gmap.
From S2P Require Import Spec2Rocq WeatherCode.

Module Forecast.

(** [weatherRes.data.current_weather] *)
Module Current.
Record t : Type := mk {
  temperature : js Q;
  windspeed : js Q;
  weathercode : js Q;
  time : js string }.
End Current.

(** [weatherRes.data.hourly]: parallel arrays, requested with
    [hourly: "temperature_2m,apparent_temperature,relative_humidity_2m,
    pressure_msl,precipitation,windspeed_10m"]. *)
Module Hourly.
Record t : Type := mk {
  time : js (list (js string));
  temperature_2m : js (list (js Q));
  apparent_temperature : js (list (js Q));
  relative_humidity_2m : js (list (js Q));
  pressure_msl : js (list (js Q));
  precipitation : js (list (js Q));
  windspeed_10m : js (list (js Q)) }.
End Hourly.

(** [weatherRes.data.daily], requested with
    [daily: "sunrise,sunset,temperature_2m_max,temperature_2m_min"]. *)
Module Daily.
Record t : Type := mk {
  sunrise : js (list (js string));
  sunset : js (list (js string));
  temperature_2m_max : js (list (js Q));
  temperature_2m_min : js (list (js Q)) }.
End Daily.

(** [weatherRes.data] *)
Module Data.
Record t : Type := mk {
  current_weather : js Current.t;
  hourly : js Hourly.t;
  daily : js Daily.t }.
End Data.

(** The object passed to [setWeather] (lines 143-157). *)
Record weather : Type := mkWeather {
  city : js string;
  country : js string;
  temperature : js Q;
  feelsLike : js Q;
  windspeed : js Q;
  description : js string;
  icon : js string;
  humidity : js Q;
  precipitation : js Q;
  pressure : js Q;
  sunrise : js string;
  sunset : js string;
  time : js string }.

(** [s?.split("T")[1]] *)
Definition time_part (s : js string) : js string :=
  chain s (fun str => at_ (map Val (split_on "T" str)) 1).

(** [hourly.<field>[idx]]: reads the property of [hourly], then indexes it. *)
Definition hourly_at (hourly : js Hourly.t) (f : Hourly.t -> js (list (js Q)))
    (idx : js Z) : result (js Q) :=
  arr ← prop hourly f; index arr idx.

(** [daily.<field>[0]?.split("T")[1]] *)
Definition daily_time (daily : js Daily.t) (f : Daily.t -> js (list (js string)))
    : result (js string) :=
  arr ← prop daily f; first ← index arr (Val 0%Z); mret (time_part first).

(** [const idx = hourly.time.indexOf(current.time) ?? 0] *)
Definition find_idx (hourly : js Hourly.t) (current : js Current.t) : result (js Z) :=
  times ← prop hourly Hourly.time;
  times ← prop times id;
  ctime ← prop current Current.time;
  mret (Val (index_of times ctime) ?? Val 0%Z).

(** [a ?? b] where [b] is a computation that may throw. *)
Definition coalesce_r {A} (a : js A) (b : result (js A)) : result (js A) :=
  match a with Val _ => mret a | _ => b end.

(** Lines 126-157, from the geocoded [name] and [country] and the forecast
    payload [data]. *)
Definition normalize (name country : js string) (data : Data.t) : result weather :=
  let current := Data.current_weather data in
  let hourly := Data.hourly data in
  let daily := Data.daily data in
  idx ← find_idx hourly current;
  ctemp ← prop current Current.temperature;
  temperature ← coalesce_r ctemp (hourly_at hourly Hourly.temperature_2m idx);
  apparent ← hourly_at hourly Hourly.apparent_temperature idx;
  ctemp' ← prop current Current.temperature;
  let feelsLike := apparent ?? ctemp' in
  cwind ← prop current Current.windspeed;
  windspeed ← coalesce_r cwind (hourly_at hourly Hourly.windspeed_10m idx);
  code ← prop current Current.weathercode;
  code' ← prop current Current.weathercode;
  humidity ← hourly_at hourly Hourly.relative_humidity_2m idx;
  precipitation ← hourly_at hourly Hourly.precipitation idx;
  pressure ← hourly_at hourly Hourly.pressure_msl idx;
  sunrise ← daily_time daily Daily.sunrise;
  sunset ← daily_time daily Daily.sunset;
  ctime ← prop current Current.time;
  mret {| city := name; country := country;
          temperature := temperature; feelsLike := feelsLike; windspeed := windspeed;
          description := WeatherCode.description code;
          icon := WeatherCode.icon_of code';
          humidity := humidity; precipitation := precipitation; pressure := pressure;
          sunrise := sunrise; sunset := sunset; time := ctime |}.

(** ** Reading the payload

    Pure reads of an array field, used to state what [normalize] returns. *)
Definition read {R A} (r : R) (f : R -> js (list (js A))) (i : js Z) : js A :=
  match f r with Val l => at_js l i | _ => Undefined end.

(** Which parts of the payload [normalize] reads: a missing one throws. *)
Definition complete (data : Data.t) : bool :=
  match Data.current_weather data, Data.hourly data, Data.daily data with
  | Val c, Val h, Val d =>
      negb (nullish (Hourly.time h)) &&
      (negb (nullish (Current.temperature c)) || negb (nullish (Hourly.temperature_2m h))) &&
      negb (nullish (Hourly.apparent_temperature h)) &&
      (negb (nullish (Current.windspeed c)) || negb (nullish (Hourly.windspeed_10m h))) &&
      negb (nullish (Hourly.relative_humidity_2m h)) &&
      negb (nullish (Hourly.precipitation h)) &&
      negb (nullish (Hourly.pressure_msl h)) &&
      negb (nullish (Daily.sunrise d)) &&
      negb (nullish (Daily.sunset d))
  | _, _, _ => false
  end.

(** Sample payloads (the shape of an Open-Meteo reply), used by the
    witnesses below. *)
Local Open Scope Q_scope.
Definition sample_hourly (times : list string) : Hourly.t :=
  Hourly.mk (Val (map Val times))
    (Val [Val 5; Val 6]) (Val [Val 3; Val 4]) (Val [Val 80; Val 81])
    (Val [Val 1012; Val 1013]) (Val [Val 0; Val (1#5)]) (Val [Val 10; Val 12]).

Definition sample_current (time : string) : Current.t :=
  Current.mk (Val (11#2)) (Val 9) (Val 61) (Val time).

Definition sample_daily : Daily.t :=
  Daily.mk (Val [Val "2024-01-01T07:58"]) (Val [Val "2024-01-01T16:05"])
    (Val [Val 7]) (Val [Val 2]).

Definition sample_data (times : list string) (time : string) : Data.t :=
  Data.mk (Val (sample_current time)) (Val (sample_hourly times)) (Val sample_daily).
Local Close Scope Q_scope.

(** ** Lemmas *)

Lemma hourly_at_Ok_inv (hourly : js Hourly.t) f idx v :
  hourly_at hourly f idx = Ok v ->
  exists h l, hourly = Val h /\ f h = Val l /\ v = at_js l idx.
Proof. unfold hourly_at. intros H. inv_ok. subst. eauto. Qed.

Lemma daily_time_Ok_inv (daily : js Daily.t) f v :
  daily_time daily f = Ok v ->
  exists d l, daily = Val d /\ f d = Val l /\ v = time_part (at_ l 0).
Proof. unfold daily_time. intros H. inv_ok. subst. eauto. Qed.

Lemma find_idx_Ok_inv (hourly : js Hourly.t) (current : js Current.t) v :
  find_idx hourly current = Ok v ->
  exists h c times, hourly = Val h /\ current = Val c /\ Hourly.time h = Val times /\
    v = Val (index_of times (Current.time c)).
Proof. unfold find_idx. intros H. inv_ok. subst. eauto 10. Qed.

Lemma coalesce_r_Ok_inv {A} (a : js A) (b : result (js A)) v :
  coalesce_r a b = Ok v -> (nullish a = false /\ v = a) \/ (nullish a = true /\ b = Ok v).
Proof. destruct a; simpl; auto. intros [= ->]. auto. Qed.

(** Inverts every step of a successful [normalize]. *)
Ltac inv_normalize :=
  repeat match goal with
  | H : hourly_at _ _ _ = Ok _ |- _ =>
      let h' := fresh "h" in let l := fresh "l" in let E := fresh "E" in
      apply hourly_at_Ok_inv in H as (h' & l & [= <-] & E & ->)
  | H : daily_time _ _ = Ok _ |- _ =>
      let d' := fresh "d" in let l := fresh "l" in let E := fresh "E" in
      let Ed := fresh "Ed" in
      apply daily_time_Ok_inv in H as (d' & l & Ed & E & ->); subst
  | H : coalesce_r _ _ = Ok _ |- _ =>
      let Hn := fresh "Hn" in apply coalesce_r_Ok_inv in H as [[Hn ->] | [Hn H]]
  | H : Val _ = Val _ |- _ => injection H as H; subst
  | H : ?x = Val _ |- _ => is_var x; subst x
  end.

(** What a successful [normalize] returns, field by field, in terms of
    the payload: the functional description every property below uses. *)
Lemma normalize_fields (nm cn : js string) (data : Data.t) (w : weather) :
  normalize nm cn data = Ok w ->
  exists c h d times,
    data = Data.mk (Val c) (Val h) (Val d) /\ Hourly.time h = Val times /\
    let idx := Val (index_of times (Current.time c)) in
    city w = nm /\ country w = cn /\
    temperature w = (Current.temperature c ?? read h Hourly.temperature_2m idx) /\
    feelsLike w = (read h Hourly.apparent_temperature idx ?? Current.temperature c) /\
    windspeed w = (Current.windspeed c ?? read h Hourly.windspeed_10m idx) /\
    description w = WeatherCode.description (Current.weathercode c) /\
    icon w = WeatherCode.icon_of (Current.weathercode c) /\
    humidity w = read h Hourly.relative_humidity_2m idx /\
    precipitation w = read h Hourly.precipitation idx /\
    pressure w = read h Hourly.pressure_msl idx /\
    sunrise w = time_part (read d Daily.sunrise (Val 0%Z)) /\
    sunset w = time_part (read d Daily.sunset (Val 0%Z)) /\
    time w = Current.time c.
Proof.
  destruct data as [current hourly daily]. unfold normalize. simpl. intros H.
  inv_ok. subst.
  apply find_idx_Ok_inv in Ha as (h & c & times & Eh & Ec & Ht & ->).
  inv_normalize;
    do 4 eexists; (split; [reflexivity|]); (split; [eassumption|]); cbn zeta; unfold read;
    repeat match goal with E : _ = Val _ |- _ => rewrite E; clear E end;
    repeat split; simpl; rewrite ?coalesce_present, ?coalesce_nullish by done; done.
Qed.
Lemma normalize_Ok_complete (nm cn : js string) (data : Data.t) (w : weather) :
  normalize nm cn data = Ok w -> complete data = true.
Proof.
  destruct data as [current hourly daily]. unfold normalize. simpl. intros H.
  inv_ok. subst.
  apply find_idx_Ok_inv in Ha as (h & c & times & Eh & Ec & Ht & ->).
  inv_normalize; unfold complete; simpl;
    repeat match goal with E : _ = Val _ |- _ => rewrite E; clear E end;
    simpl; rewrite ?Hn, ?Hn0; simpl; by rewrite ?orb_true_r.
Qed.

(** Every exception [normalize] raises is a [TypeError]: it makes no
    network call. *)
Lemma normalize_exn (nm cn : js string) (data : Data.t) (e : exn) :
  normalize nm cn data = Throw e -> e = TypeError.
Proof.
  unfold normalize. intros H.
  repeat match goal with
  | H : mbind _ _ = Throw _ |- _ =>
      apply bind_Throw_inv in H as [H | (? & ? & H)]; cbn beta in H
  | H : prop _ _ = Throw _ |- _ => by apply prop_Throw in H as [_ ->]
  | H : index _ _ = Throw _ |- _ => by apply index_Throw in H as [_ ->]
  | H : mret _ = Throw _ |- _ => discriminate H
  | H : hourly_at _ _ _ = Throw _ |- _ => unfold hourly_at in H
  | H : daily_time _ _ = Throw _ |- _ => unfold daily_time in H
  | H : find_idx _ _ = Throw _ |- _ => unfold find_idx in H
  | H : coalesce_r ?a _ = Throw _ |- _ => destruct a; simpl in H; [| | discriminate H]
  end.
Qed.

(** ** Properties *)

(** C1 (functional, total): on a payload whose parts are all present,
    [normalize] returns a weather object: the code throws no TypeError. *)
Theorem normalize_total (nm cn : js string) (data : Data.t) :
  complete data = true -> exists w, normalize nm cn data = Ok w.
Proof.
  destruct data as [[| |[ct cw cc ctm]] [| |[ht h2 ha hh hp hpr hw]] [| |[ds dss dmx dmn]]];
    try discriminate; unfold complete; simpl; intros H.
  repeat match goal with
  | H : _ && _ = true |- _ => apply andb_true_iff in H as [? ?]
  | H : _ || _ = true |- _ => apply orb_true_iff in H as [? | ?]
  end;
  repeat match goal with
  | H : negb (nullish ?x) = true |- _ => destruct x; [discriminate | discriminate | clear H]
  end;
  unfold normalize, find_idx, hourly_at, daily_time, coalesce_r; simpl;
  repeat match goal with |- context [match ?x with Val _ => _ | _ => _ end] =>
    is_var x; destruct x end;
  eexists; reflexivity.
Qed.

Lemma normalize_total_witness :
  complete (sample_data ["2024-01-01T00:00"; "2024-01-01T01:00"] "2024-01-01T01:00") = true /\
  exists w, normalize (Val "Paris") (Val "France")
              (sample_data ["2024-01-01T00:00"; "2024-01-01T01:00"] "2024-01-01T01:00") = Ok w.
Proof. split; [reflexivity|]. apply normalize_total. reflexivity. Defined.

(** C2 (error): a payload with a part missing that the code reads
    ([current_weather], [hourly], [hourly.time], an hourly array read at
    [idx], or [daily.sunrise]/[daily.sunset]) makes [normalize] throw a
    [TypeError], which [getWeather] reports as a network issue. *)
Theorem normalize_error (nm cn : js string) (data : Data.t) :
  complete data = false -> normalize nm cn data = Throw TypeError.
Proof.
  intros Hc. destruct (normalize nm cn data) as [w|e] eqn:E.
  - apply normalize_Ok_complete in E. congruence.
  - by rewrite (normalize_exn nm cn data e E).
Qed.

Lemma normalize_error_witness :
  complete (Data.mk (Val (sample_current "2024-01-01T01:00")) Null (Val sample_daily)) = false /\
  normalize (Val "Paris") (Val "France")
    (Data.mk (Val (sample_current "2024-01-01T01:00")) Null (Val sample_daily)) = Throw TypeError.
Proof. split; [reflexivity|]. apply normalize_error. reflexivity. Defined.

(** C3 (functional): when the current observation's time occurs in
    [hourly.time], every hourly value is read at the first index [i] whose
    time equals it, so the snapshot's hourly values are time-aligned with
    the current observation. *)
Theorem normalize_aligned (nm cn : js string) (c : Current.t) (h : Hourly.t) (d : Daily.t)
    (times : list (js string)) (w : weather) :
  normalize nm cn (Data.mk (Val c) (Val h) (Val d)) = Ok w ->
  Hourly.time h = Val times ->
  Current.time c ∈ times ->
  exists i : nat, times !! i = Some (Current.time c) /\
    (forall j, (j < i)%nat -> times !! j <> Some (Current.time c)) /\
    let idx := Val (Z.of_nat i) in
    humidity w = read h Hourly.relative_humidity_2m idx /\
    precipitation w = read h Hourly.precipitation idx /\
    pressure w = read h Hourly.pressure_msl idx /\
    feelsLike w = (read h Hourly.apparent_temperature idx ?? Current.temperature c) /\
    temperature w = (Current.temperature c ?? read h Hourly.temperature_2m idx) /\
    windspeed w = (Current.windspeed c ?? read h Hourly.windspeed_10m idx).
Proof.
  intros H Ht Hin. apply normalize_fields in H as (c' & h' & d' & times' & Hd & Ht' & Hw).
  injection Hd as <- <- <-. rewrite Ht in Ht'. injection Ht' as <-.
  destruct (index_of_nat_elem times (Current.time c) Hin) as [i Hi].
  unfold index_of in Hw. rewrite Hi in Hw.
  destruct (index_of_nat_Some _ _ _ Hi) as [Hti Hmin].
  exists i. split; [done|]. split; [done|]. cbn zeta in *. naive_solver.
Qed.

Lemma normalize_aligned_witness :
  normalize (Val "Paris") (Val "France")
    (sample_data ["2024-01-01T00:00"; "2024-01-01T01:00"] "2024-01-01T01:00")
  = Ok (mkWeather (Val "Paris") (Val "France") (Val (11#2)%Q) (Val 4%Q) (Val 9%Q)
          (Val "Rain") (Val "🌧️") (Val 81%Q) (Val (1#5)%Q) (Val 1013%Q)
          (Val "07:58") (Val "16:05") (Val "2024-01-01T01:00")) /\
  exists i : nat, (map Val ["2024-01-01T00:00"; "2024-01-01T01:00"]) !! i
                   = Some (Val "2024-01-01T01:00") /\ i = 1%nat.
Proof.
  split; [reflexivity|].
  destruct (normalize_aligned (Val "Paris") (Val "France")
              (sample_current "2024-01-01T01:00")
              (sample_hourly ["2024-01-01T00:00"; "2024-01-01T01:00"]) sample_daily
              (map Val ["2024-01-01T00:00"; "2024-01-01T01:00"])
              (mkWeather (Val "Paris") (Val "France") (Val (11#2)%Q) (Val 4%Q) (Val 9%Q)
                 (Val "Rain") (Val "🌧️") (Val 81%Q) (Val (1#5)%Q) (Val 1013%Q)
                 (Val "07:58") (Val "16:05") (Val "2024-01-01T01:00")))
    as (i & Hi & Hmin & _); [reflexivity | reflexivity | apply list_elem_of_In; simpl; auto |].
  exists i. split; [exact Hi|].
  destruct i as [|[|i]]; [discriminate Hi | reflexivity |].
  exfalso. apply (Hmin 1%nat); [lia | reflexivity].
Defined.

(** C4 (divergence from the spec): when the current observation's time is
    absent from [hourly.time], [indexOf] returns -1 and [?? 0] does not
    replace it (-1 is not nullish).  The hourly reads at index -1 are
    [undefined]: humidity, precipitation and pressure are [undefined],
    [feelsLike] falls back to [current.temperature], and temperature and
    windspeed are the current values or [undefined].  The spec says the
    index falls back to 0 and the values at index 0 are used. *)
Theorem normalize_time_absent (nm cn : js string) (c : Current.t) (h : Hourly.t) (d : Daily.t)
    (times : list (js string)) (w : weather) :
  normalize nm cn (Data.mk (Val c) (Val h) (Val d)) = Ok w ->
  Hourly.time h = Val times ->
  Current.time c ∉ times ->
  humidity w = Undefined /\ precipitation w = Undefined /\ pressure w = Undefined /\
  feelsLike w = Current.temperature c /\
  temperature w = (Current.temperature c ?? Undefined) /\
  windspeed w = (Current.windspeed c ?? Undefined).
Proof.
  intros H Ht Hnin. apply normalize_fields in H as (c' & h' & d' & times' & Hd & Ht' & Hw).
  injection Hd as <- <- <-. rewrite Ht in Ht'. injection Ht' as <-.
  rewrite (index_of_absent times _ Hnin) in Hw. cbn zeta in Hw.
  assert (forall f : Hourly.t -> js (list (js Q)), read h f (Val (-1)%Z) = Undefined) as Hr.
  { intros f. unfold read. destruct (f h); [done | done |]. by apply at_neg. }
  rewrite !Hr in Hw. naive_solver.
Qed.

(** The spec's own example: [hourly.time] is ["2024-01-01T00:00",
    "2024-01-01T01:00"] and [current.time] is ["2024-01-01T05:00"]; the
    spec expects the values at index 0 (humidity 80), the code gives
    [undefined]. *)
Lemma normalize_time_absent_witness :
  exists w, normalize (Val "Paris") (Val "France")
              (sample_data ["2024-01-01T00:00"; "2024-01-01T01:00"] "2024-01-01T05:00") = Ok w /\
            humidity w = Undefined /\ feelsLike w = Val (11#2)%Q /\
            read (sample_hourly ["2024-01-01T00:00"; "2024-01-01T01:00"])
                 Hourly.relative_humidity_2m (Val 0%Z) = Val 80%Q.
Proof.
  eexists. split; [reflexivity|].
  match goal with |- humidity ?w = _ /\ _ =>
    destruct (normalize_time_absent (Val "Paris") (Val "France") (sample_current "2024-01-01T05:00")
                (sample_hourly ["2024-01-01T00:00"; "2024-01-01T01:00"]) sample_daily
                (map Val ["2024-01-01T00:00"; "2024-01-01T01:00"]) w)
      as (Hh & _ & _ & Hf & _);
      [reflexivity | reflexivity | rewrite list_elem_of_In; simpl; naive_solver |]
  end.
  split; [exact Hh|]. split; [exact Hf | reflexivity].
Defined.

(** C6 (round trip): [daily.sunrise[0]?.split("T")[1]] recovers the
    time-of-day of an ISO date-time ["<date>T<time>"] (neither part
    containing ["T"]); likewise for [sunset]. *)
Theorem normalize_sun_times (nm cn : js string) (c : Current.t) (h : Hourly.t) (d : Daily.t)
    (w : weather) (rise_date rise_time set_date set_time : string) (rs ss : list (js string)) :
  normalize nm cn (Data.mk (Val c) (Val h) (Val d)) = Ok w ->
  Daily.sunrise d = Val (Val (rise_date +:+ String "T" rise_time) :: rs) ->
  Daily.sunset d = Val (Val (set_date +:+ String "T" set_time) :: ss) ->
  sep_free "T" rise_date -> sep_free "T" rise_time ->
  sep_free "T" set_date -> sep_free "T" set_time ->
  sunrise w = Val rise_time /\ sunset w = Val set_time.
Proof.
  intros H Hr Hs Hrd Hrt Hsd Hst.
  apply normalize_fields in H as (c' & h' & d' & times' & Hd & _ & Hw).
  injection Hd as <- <- <-. cbn zeta in Hw. unfold read in Hw. rewrite Hr, Hs in Hw.
  unfold time_part in Hw. simpl in Hw.
  rewrite !split_on_app, !split_on_sep_free in Hw by done. naive_solver.
Qed.

Lemma normalize_sun_times_witness :
  exists w, normalize (Val "Paris") (Val "France")
              (sample_data ["2024-01-01T00:00"] "2024-01-01T00:00") = Ok w /\
            sunrise w = Val "07:58" /\ sunset w = Val "16:05".
Proof.
  eexists. split; [reflexivity|].
  match goal with |- sunrise ?w = _ /\ _ =>
    apply (normalize_sun_times (Val "Paris") (Val "France") (sample_current "2024-01-01T00:00")
             (sample_hourly ["2024-01-01T00:00"]) sample_daily
             w "2024-01-01" "07:58" "2024-01-01" "16:05" [] []);
      first [reflexivity | apply sep_free_check; vm_compute; reflexivity]
  end.
Defined.

(** C5 (type): the snapshot's description and icon are always strings,
    never [undefined] or [null], taken from the fixed code table or the
    fallback ["Unknown"]/["❔"]. *)
Theorem normalize_description (nm cn : js string) (data : Data.t) (w : weather) :
  normalize nm cn data = Ok w ->
  exists ds ic, description w = Val ds /\ icon w = Val ic /\
    ((ds = "Unknown" /\ ic = "❔") \/
     exists k e, WeatherCode.codeMap !! k = Some e /\ ds = WeatherCode.desc e /\ ic = WeatherCode.icon e).
Proof.
  intros H. apply normalize_fields in H as (c & h & d & times & _ & _ & Hw). cbn zeta in Hw.
  destruct (WeatherCode.description_spec (Current.weathercode c)) as (ds & ic & Hd & Hi & Hc).
  destruct Hw as (_ & _ & _ & _ & _ & Hdw & Hiw & _).
  exists ds, ic. rewrite Hdw, Hiw. auto.
Qed.

Lemma normalize_description_witness :
  exists w, normalize (Val "Paris") (Val "France")
              (sample_data ["2024-01-01T00:00"] "2024-01-01T00:00") = Ok w /\
    exists ds ic, description w = Val ds /\ icon w = Val ic.
Proof.
  eexists. split; [reflexivity|].
  match goal with |- exists ds ic, description ?w = _ /\ _ =>
    destruct (normalize_description (Val "Paris") (Val "France")
                (sample_data ["2024-01-01T00:00"] "2024-01-01T00:00") w eq_refl)
      as (ds & ic & Hd & Hi & _)
  end.
  eauto.
Defined.
End Forecast.
