(* ===== verification/Geocoder.v ===== *)
(** The geocoding replies of [src/src/frontend/Dashboard.js] and how the
    code reads them: the forward search [/v1/search] in [getWeather]
    (lines 97-108: [if (!geoRes.data?.results?.length)] reports "City not
    found", otherwise the first result is destructured), and the reverse
    lookup [/v1/reverse] of the mount effect (lines 57-61:
    [geoRes.data?.results?.[0]?.name || "Your Location"]). *)

From Stdlib Require Import QArith ZArith String.
From stdpp Require Import base list strings.
From S2P Require Import Spec2Rocq.

Module Geocoder.

(** One candidate of [results]. *)
Module Place.
Record t : Type := mk {
  latitude : js Q;
  longitude : js Q;
  name : js string;
  country : js string }.
End Place.

(** [geoRes.data] *)
Module GeoData.
Record t : Type := mk { results : js (list (js Place.t)) }.
End GeoData.

(** What the forward search gives [getWeather]. *)
Inductive lookup : Type :=
| NotFound
| Found (p : Place.t).

(** [geoRes.data?.results?.length] *)
Definition results_length (data : js GeoData.t) : js Z :=
  chain data (fun d => chain (GeoData.results d) (fun rs => Val (Z.of_nat (length rs)))).

(** Lines 102-108: [if (!geoRes.data?.results?.length) ... return;]
    then [const { latitude, longitude, name, country } =
    geoRes.data.results[0]], which throws on a [null] first result. *)
Definition search (data : js GeoData.t) : result lookup :=
  if negb (truthy (results_length data)) then mret NotFound
  else d ← prop data id;
       rs ← prop (GeoData.results d) id;
       p ← prop (at_ rs 0) id;
       mret (Found p).

(** Line 61: [geoRes.data?.results?.[0]?.name || "Your Location"] *)
Definition reverse_name (data : js GeoData.t) : js string :=
  js_or (chain data (fun d => chain (GeoData.results d) (fun rs => chain (at_ rs 0) Place.name)))
        (Val "Your Location").

(** ** Lemmas *)

Lemma results_length_cases (data : js GeoData.t) :
  (exists rs, data = Val (GeoData.mk (Val rs)) /\ results_length data = Val (Z.of_nat (length rs))) \/
  results_length data = Undefined.
Proof.
  destruct data as [| |[[| |rs]]]; simpl; auto. left. eauto.
Qed.

Lemma truthy_length (n : nat) : truthy (Val (Z.of_nat n)) = negb (Nat.eqb n 0).
Proof. destruct n; reflexivity. Qed.

Lemma search_no_results (data : js GeoData.t) :
  (forall rs, data = Val (GeoData.mk (Val rs)) -> rs = []) -> search data = Ok NotFound.
Proof.
  intros H. unfold search.
  destruct (results_length_cases data) as [(rs & -> & ->) | ->]; [|done].
  rewrite (H rs eq_refl). reflexivity.
Qed.

Lemma reverse_name_spec (data : js GeoData.t) :
  exists n, reverse_name data = Val n /\ n <> "" /\
    (n = "Your Location" \/
     exists rs p, data = Val (GeoData.mk (Val (Val p :: rs))) /\ Place.name p = Val n).
Proof.
  unfold reverse_name.
  destruct (truthy (chain data (fun d => chain (GeoData.results d)
                     (fun rs => chain (at_ rs 0) Place.name)))) eqn:E.
  - rewrite js_or_truthy by done.
    destruct data as [| |[[| |[|[| |p] rs]]]]; simpl in *; try discriminate.
    destruct (Place.name p) as [| |n] eqn:En; try discriminate.
    apply truthy_string in E. exists n. split; [done|]. split; [done|]. right. eauto.
  - rewrite js_or_not_truthy by done. exists "Your Location". split; [done|].
    split; [discriminate | by left].
Qed.

(** ** Properties *)

(** A reply with no [results] property, or an empty one,
    is "not found"; nothing is destructured and the caller issues no
    forecast request. *)
Theorem search_not_found (data : js GeoData.t) :
  (forall rs, data = Val (GeoData.mk (Val rs)) -> rs = []) -> search data = Ok NotFound.
Proof. apply search_no_results. Qed.

Lemma search_not_found_witness :
  search (Val (GeoData.mk (Val []))) = Ok NotFound /\ search (Val (GeoData.mk Undefined)) = Ok NotFound.
Proof.
  split; apply search_not_found; intros rs Hrs; [by injection Hrs | discriminate].
Defined.

(** A non-empty result list gives its first candidate,
    and a [null] first candidate throws the [TypeError] of destructuring. *)
Theorem search_first (rs : list (js Place.t)) (first : js Place.t) :
  search (Val (GeoData.mk (Val (first :: rs)))) =
  match first with Val p => Ok (Found p) | _ => Throw TypeError end.
Proof. by destruct first. Qed.

(** The reverse lookup always yields a non-empty name: the
    first candidate's name when it is a non-empty string, and
    ["Your Location"] otherwise (missing data, no candidate, [null]
    candidate, missing or empty name). *)
Theorem reverse_name_total (data : js GeoData.t) :
  exists n, reverse_name data = Val n /\ n <> "" /\
    (n = "Your Location" \/
     exists rs p, data = Val (GeoData.mk (Val (Val p :: rs))) /\ Place.name p = Val n).
Proof. apply reverse_name_spec. Qed.

End Geocoder.
