(* ===== verification/Dashboard.v ===== *)
(** The [Dashboard] component of [src/src/frontend/Dashboard.js] as a
    state machine.

    State: the [useState] hooks ([city], [weather], [error], [loading],
    [recentCities], [unit]), the two local-storage keys it uses ([token],
    [recentCities]), the route [navigate] moves to, and the continuations
    suspended at an [await] ([pending], each with a request id).

    Events: the mount effects, the geolocation callback, the input and the
    buttons of the JSX (lines 222-243), and the reply to a pending request,
    delivered in any order: [Reply id r] resumes the continuation [id] with
    the network's answer [r] (a payload, or a rejected promise).

    [getWeather] (lines 84-171) is split at its two [await]s.
    [getWeather] runs up to the geocoding request.  [resume_query] runs on
    from the geocoding reply up to the forecast request, and from the
    forecast reply to the end.  The mount effect (lines 36-66) is split
    the same way ([on_position], [resume_mount]). *)

From Stdlib Require Import QArith ZArith String.
From stdpp Require Import base list strings.
From S2P Require Import Spec2Rocq Recents Forecast Geocoder.

Module Dashboard.

(** A continuation suspended at an [await axios.get]. *)
Inductive request : Type :=
| GeoSearch (cityName : string)                               (* line 97 *)
| ForecastFetch (name country : js string) (latitude longitude : js Q)  (* line 111 *)
| MountForecast (latitude longitude : Q)                      (* line 41 *)
| MountReverse (latitude longitude : Q).                      (* line 57 *)

(** What the network answers. *)
Inductive reply : Type :=
| Rejected
| GeoReply (data : js Geocoder.GeoData.t)
| ForecastReply (data : Forecast.Data.t).

Inductive event : Type :=
| Mount (has_geolocation : bool)      (* the effects of the first render *)
| Position (latitude longitude : Q)   (* the getCurrentPosition callback *)
| Input (value : string)              (* onChange of the input *)
| GetClick                            (* "Get" button, or Enter: getWeather() *)
| RefreshClick                        (* "Refresh": getWeather(city) *)
| RecentClick (c : js string)         (* a recent-city button: getWeather(c) *)
| ToggleUnit                          (* "Toggle °C/°F" *)
| Logout                              (* handleLogout *)
| Reply (id : nat) (r : reply).

Record state : Type := mkState {
  city : string;
  weather : option Forecast.weather;
  error : string;
  loading : bool;
  recentCities : list (js string);
  unit : string;
  token : option string;                 (* localStorage "token" *)
  stored_recent : list (js string);      (* localStorage "recentCities" *)
  route : string;
  geo_pending : bool;                    (* getCurrentPosition awaiting its callback *)
  pending : list (nat * request);
  next_id : nat }.

Definition msg_empty : string := "Please enter a city name".
Definition msg_not_found : string := "City not found. Try a different name.".
Definition msg_network : string := "Network issue. Please try again.".

(** The first render (lines 7-19): [recentCities] is read from local
    storage ([saved ? JSON.parse(saved) : []], [] when parsing fails). *)
Definition init (saved : list (js string)) (tok : option string) : state :=
  mkState "" None "" false saved "C" tok saved "/dashboard" false [] 0.

(** ** State setters *)

Definition set_city (v : string) (s : state) : state :=
  mkState v (weather s) (error s) (loading s) (recentCities s) (unit s) (token s)
    (stored_recent s) (route s) (geo_pending s) (pending s) (next_id s).
Definition set_weather (w : option Forecast.weather) (s : state) : state :=
  mkState (city s) w (error s) (loading s) (recentCities s) (unit s) (token s)
    (stored_recent s) (route s) (geo_pending s) (pending s) (next_id s).
Definition set_error (m : string) (s : state) : state :=
  mkState (city s) (weather s) m (loading s) (recentCities s) (unit s) (token s)
    (stored_recent s) (route s) (geo_pending s) (pending s) (next_id s).
Definition set_loading (b : bool) (s : state) : state :=
  mkState (city s) (weather s) (error s) b (recentCities s) (unit s) (token s)
    (stored_recent s) (route s) (geo_pending s) (pending s) (next_id s).
(** [setRecentCities], followed by the persisting effect (lines 29-33). *)
Definition set_recents (l : list (js string)) (s : state) : state :=
  mkState (city s) (weather s) (error s) (loading s) l (unit s) (token s)
    l (route s) (geo_pending s) (pending s) (next_id s).
Definition set_unit (u : string) (s : state) : state :=
  mkState (city s) (weather s) (error s) (loading s) (recentCities s) u (token s)
    (stored_recent s) (route s) (geo_pending s) (pending s) (next_id s).
Definition set_token (t : option string) (s : state) : state :=
  mkState (city s) (weather s) (error s) (loading s) (recentCities s) (unit s) t
    (stored_recent s) (route s) (geo_pending s) (pending s) (next_id s).
Definition navigate (r : string) (s : state) : state :=
  mkState (city s) (weather s) (error s) (loading s) (recentCities s) (unit s) (token s)
    (stored_recent s) r (geo_pending s) (pending s) (next_id s).
Definition set_geo_pending (b : bool) (s : state) : state :=
  mkState (city s) (weather s) (error s) (loading s) (recentCities s) (unit s) (token s)
    (stored_recent s) (route s) b (pending s) (next_id s).

(** [await axios.get(...)]: suspends a continuation under a fresh id. *)
Definition issue (r : request) (s : state) : state :=
  mkState (city s) (weather s) (error s) (loading s) (recentCities s) (unit s) (token s)
    (stored_recent s) (route s) (geo_pending s) (pending s ++ [(next_id s, r)]) (S (next_id s)).

(** The continuation [id] is resumed: it leaves the pending set. *)
Definition take_pending (id : nat) (s : state) : state :=
  mkState (city s) (weather s) (error s) (loading s) (recentCities s) (unit s) (token s)
    (stored_recent s) (route s) (geo_pending s)
    (filter (fun p => p.1 <> id) (pending s)) (next_id s).

Fixpoint find_pending (id : nat) (l : list (nat * request)) : option request :=
  match l with
  | [] => None
  | (i, r) :: l' => if decide (i = id) then Some r else find_pending id l'
  end.

(** ** [getWeather] and its continuations *)

(** The [catch] block (lines 166-170). *)
Definition fail_query (s : state) : state := set_loading false (set_error msg_network s).

(** Lines 84-100, up to the first [await]. *)
Definition getWeather (selectedCity : js string) (s : state) : state :=
  let cityName := js_or selectedCity (Val (city s)) in
  if negb (truthy cityName) then set_error msg_empty s
  else match cityName with
       | Val n => issue (GeoSearch n) (set_loading true (set_weather None (set_error "" s)))
       | _ => s
       end.

(** Requests of a user query, as opposed to those of the mount effect. *)
Definition is_query (r : request) : bool :=
  match r with GeoSearch _ | ForecastFetch _ _ _ _ => true | _ => false end.

(** Lines 102-170: [getWeather] resumed at one of its [await]s. *)
Definition resume_query (req : request) (r : reply) (s : state) : state :=
  match req, r with
  (* lines 102-111 *)
  | GeoSearch _, Rejected => fail_query s
  | GeoSearch _, GeoReply data =>
      match Geocoder.search data with
      | Ok Geocoder.NotFound => set_loading false (set_error msg_not_found s)
      | Ok (Geocoder.Found p) =>
          issue (ForecastFetch (Geocoder.Place.name p) (Geocoder.Place.country p)
                   (Geocoder.Place.latitude p) (Geocoder.Place.longitude p)) s
      | Throw _ => fail_query s
      end
  (* lines 126-165 *)
  | ForecastFetch _ _ _ _, Rejected => fail_query s
  | ForecastFetch nm cn _ _, ForecastReply data =>
      match Forecast.normalize nm cn data with
      | Ok w => set_loading false (set_recents (Recents.update nm (recentCities s))
                                                (set_weather (Some w) s))
      | Throw _ => fail_query s
      end
  | _, _ => s
  end.

(** Lines 41-63: the geolocation callback resumed at one of its
    [await]s; errors are swallowed by [catch {}]. *)
Definition resume_mount (req : request) (r : reply) (s : state) : state :=
  match req, r with
  | MountForecast _ _, Rejected => s
  | MountForecast lat lon, ForecastReply _ => issue (MountReverse lat lon) s
  | MountReverse _ _, Rejected => s
  | MountReverse _ _, GeoReply data => getWeather (Geocoder.reverse_name data) s
  | _, _ => s
  end.

(** Resuming a continuation with the network's reply. *)
Definition resume (req : request) (r : reply) (s : state) : state :=
  if is_query req then resume_query req r s else resume_mount req r s.

(** A reply of the shape of the endpoint the request went to: the network
    answers the geocoding endpoints with geocoding data and the forecast
    endpoint with forecast data. *)
Definition fits (req : request) (r : reply) : bool :=
  match req, r with
  | _, Rejected => true
  | (GeoSearch _ | MountReverse _ _), GeoReply _ => true
  | (ForecastFetch _ _ _ _ | MountForecast _ _), ForecastReply _ => true
  | _, _ => false
  end.

(** [!token] on the stored token. *)
Definition has_token (s : state) : bool :=
  match token s with Some t => truthy (Val t) | None => false end.

(** Lines 23-26: without a stored token, go to the login page. *)
Definition check_token (s : state) : state :=
  if has_token s then s else navigate "/login" s.

(** Lines 36-38: [if (navigator.geolocation)
    navigator.geolocation.getCurrentPosition(...)]. *)
Definition request_position (has_geolocation : bool) (s : state) : state :=
  if has_geolocation then set_geo_pending true s else s.

(** Lines 38-41: the position callback runs once and awaits the forecast
    for the device's coordinates. *)
Definition on_position (lat lon : Q) (s : state) : state :=
  if geo_pending s then issue (MountForecast lat lon) (set_geo_pending false s) else s.

(** Lines 68-72. *)
Definition handleLogout (s : state) : state := navigate "/login" (set_token None s).

(** Line 231: [setUnit(u => u === "C" ? "F" : "C")]. *)
Definition toggle_unit (s : state) : state :=
  set_unit (if String.eqb (unit s) "C" then "F" else "C") s.

(** One event: the handlers the JSX wires (lines 222-240) and the
    resumption of a pending continuation. *)
Definition dispatch (s : state) (e : event) : state :=
  match e with
  | Mount geo => request_position geo (check_token s)
  | Position lat lon => on_position lat lon s
  | Input v => set_city v s
  | GetClick => getWeather Undefined s
  | RefreshClick => getWeather (Val (city s)) s
  | RecentClick c => getWeather c s
  | ToggleUnit => toggle_unit s
  | Logout => handleLogout s
  | Reply id r =>
      match find_pending id (pending s) with
      | Some req => if fits req r then resume req r (take_pending id s) else s
      | None => s
      end
  end.

(** A sequence of events, oldest first. *)
Definition run (s : state) (es : list event) : state := foldl dispatch s es.

(** States reachable from the first render. *)
Inductive reachable (saved : list (js string)) (tok : option string) : state -> Prop :=
| reachable_init : reachable saved tok (init saved tok)
| reachable_step s e : reachable saved tok s -> reachable saved tok (dispatch s e).

Definition query_in_flight (s : state) : Prop := Exists (fun p => is_query p.2 = true) (pending s).

(** Request ids are distinct and below the next fresh id. *)
Definition ids_ok (s : state) : Prop :=
  NoDup (map fst (pending s)) /\ Forall (fun p => p.1 < next_id s)%nat (pending s).

(** Sample replies used by the witnesses. *)
Definition paris_place : Geocoder.Place.t :=
  Geocoder.Place.mk (Val (4885#100)%Q) (Val (235#100)%Q) (Val "Paris") (Val "France").

Definition tokyo_place : Geocoder.Place.t :=
  Geocoder.Place.mk (Val (3568#100)%Q) (Val (13969#100)%Q) (Val "Tokyo") (Val "Japan").

Definition geo_reply (p : Geocoder.Place.t) : js Geocoder.GeoData.t :=
  Val (Geocoder.GeoData.mk (Val [Val p])).

Definition forecast_at (t : string) : Forecast.Data.t :=
  Forecast.sample_data ["2024-01-01T00:00"; t] t.

(** The loading flag is only set while a query is in flight. *)
Definition loading_inv (s : state) : Prop := loading s = true -> query_in_flight s.

(** The recent list is well formed and persisted. *)
Definition recents_inv (s : state) : Prop :=
  Recents.wf (recentCities s) /\ stored_recent s = recentCities s.

(** ** Lemmas *)

(** The dashboard's proofs treat the normalisation as a black box, given by
    its equations in [Forecast]. *)
#[local] Arguments Forecast.normalize : simpl never.
#[local] Arguments resume : simpl never.

Ltac unfold_handlers :=
  unfold check_token, request_position, on_position, handleLogout, toggle_unit in *.

Ltac unfold_resume := unfold resume, resume_query, resume_mount in *.

Ltac unfold_setters :=
  unfold issue, take_pending, set_loading, set_weather, set_error, set_recents, set_city,
    set_unit, set_token, navigate, set_geo_pending, fail_query in *.

Ltac dash_step :=
  first [progress unfold_setters | progress unfold_resume | progress simpl | rewrite decide_True by done
        | rewrite decide_False by lia | rewrite filter_cons_False by (simpl; lia)
        | rewrite filter_cons_True by (simpl; lia) | rewrite filter_nil].

Lemma find_pending_last (id : nat) (r : request) (l : list (nat * request)) :
  Forall (fun p => p.1 <> id) l -> find_pending id (l ++ [(id, r)]) = Some r.
Proof.
  induction l as [|[i r'] l IH]; simpl; intros Hl.
  - by rewrite decide_True.
  - apply Forall_cons in Hl as [Hi Hl]. simpl in Hi. rewrite decide_False by done. auto.
Qed.

Lemma filter_pending_last (id : nat) (r : request) (l : list (nat * request)) :
  Forall (fun p => p.1 <> id) l ->
  filter (fun p : nat * request => p.1 <> id) (l ++ [(id, r)]) = l.
Proof.
  intros Hl. rewrite filter_app, filter_cons_False by (simpl; lia).
  rewrite filter_nil, app_nil_r. apply Recents.filter_all_id.
  intros p Hp. by eapply Forall_forall in Hl.
Qed.

Lemma truthy_city (s : state) : truthy (js_or Undefined (Val (city s))) = negb (String.eqb (city s) "").
Proof. reflexivity. Qed.

Lemma find_pending_elem (id : nat) (l : list (nat * request)) (r : request) :
  find_pending id l = Some r -> (id, r) ∈ l.
Proof.
  induction l as [|[i r'] l IH]; simpl; [done|]. rewrite elem_of_cons.
  case_decide; [intros [= <-]; subst; by left | intros; right; auto].
Qed.

Lemma NoDup_fst_unique (l : list (nat * request)) (i : nat) (r1 r2 : request) :
  NoDup (map fst l) -> (i, r1) ∈ l -> (i, r2) ∈ l -> r1 = r2.
Proof.
  induction l as [|[j r] l IH]; simpl; intros Hnd H1 H2; [by apply not_elem_of_nil in H1|].
  apply NoDup_cons in Hnd as [Hj Hnd]. rewrite elem_of_cons in H1, H2.
  destruct H1 as [H1|H1], H2 as [H2|H2]; simplify_eq; auto.
  all: exfalso; apply Hj; apply list_elem_of_fmap; eexists; (split; [|eassumption]); done.
Qed.

Lemma ids_ok_issue (r : request) (s : state) : ids_ok s -> ids_ok (issue r s).
Proof.
  intros [Hnd Hlt]. unfold ids_ok, issue. simpl. rewrite map_app. split.
  - apply NoDup_app. split; [done|]. split; [|apply NoDup_singleton].
    intros x Hx Hx'. simpl in Hx'. apply list_elem_of_singleton in Hx'. subst x.
    apply list_elem_of_fmap in Hx as ([i r'] & Heq & Hin). simpl in Heq.
    eapply Forall_forall in Hlt; [|exact Hin]. simpl in Hlt. lia.
  - apply Forall_app. split; [|by constructor; simpl; [lia|]].
    eapply Forall_impl; [exact Hlt|]. simpl. lia.
Qed.

Lemma ids_ok_take (id : nat) (s : state) : ids_ok s -> ids_ok (take_pending id s).
Proof.
  intros [Hnd Hlt]. unfold ids_ok, take_pending. simpl. split.
  - eapply sublist_NoDup; [exact Hnd|]. apply (fmap_sublist fst), sublist_filter.
  - apply Forall_forall. intros p [_ Hp]%list_elem_of_filter. by eapply Forall_forall in Hlt.
Qed.

Lemma getWeather_cases (sel : js string) (s : state) :
  getWeather sel s = set_error msg_empty s \/ getWeather sel s = s \/
  exists n, getWeather sel s = issue (GeoSearch n) (set_loading true (set_weather None (set_error "" s))).
Proof.
  unfold getWeather. destruct (truthy (js_or sel (Val (city s)))); simpl; [|by left].
  destruct (js_or sel (Val (city s))); eauto.
Qed.

Lemma getWeather_query (sel : js string) (s : state) (n : string) :
  js_or sel (Val (city s)) = Val n -> n <> "" ->
  getWeather sel s = issue (GeoSearch n) (set_loading true (set_weather None (set_error "" s))).
Proof. intros H Hn. unfold getWeather. rewrite H. apply truthy_string in Hn. by rewrite Hn. Qed.

Lemma dispatch_reply (s : state) (id : nat) (req : request) (r : reply) :
  find_pending id (pending s) = Some req -> fits req r = true ->
  dispatch s (Reply id r) = resume req r (take_pending id s).
Proof. intros Hf Hr. simpl. by rewrite Hf, Hr. Qed.

Lemma find_pending_single (id : nat) (req : request) : find_pending id [(id, req)] = Some req.
Proof. simpl. by rewrite decide_True. Qed.

(** Computes the pending set of a concrete sequence of requests. *)
Ltac pending_simpl :=
  repeat first [rewrite app_nil_l | rewrite filter_nil | rewrite find_pending_single
               | rewrite filter_cons_False by (simpl; lia)].

Ltac pending_solve Hp := first [reflexivity | simpl; rewrite Hp; pending_simpl; reflexivity].

Lemma in_flight_issue (r : request) (s : state) :
  is_query r = true \/ query_in_flight s -> query_in_flight (issue r s).
Proof.
  unfold query_in_flight, issue. simpl. intros [Hq|Hq]; apply Exists_app; [right | by left].
  by constructor.
Qed.

Lemma in_flight_take (id : nat) (req : request) (s : state) :
  ids_ok s -> find_pending id (pending s) = Some req -> is_query req = false ->
  query_in_flight s -> query_in_flight (take_pending id s).
Proof.
  intros [Hnd _] Hf Hq Hin. apply find_pending_elem in Hf.
  unfold query_in_flight, take_pending in *. simpl. apply Exists_exists in Hin as ([i r] & Hin & Hr).
  apply Exists_exists. exists (i, r). split; [|done]. apply list_elem_of_filter. split; [|done].
  simpl. intros ->. rewrite (NoDup_fst_unique _ _ _ _ Hnd Hin Hf) in Hr. simpl in Hr. congruence.
Qed.

Lemma loading_inv_getWeather (sel : js string) (s : state) :
  loading_inv s -> loading_inv (getWeather sel s).
Proof.
  intros H. destruct (getWeather_cases sel s) as [->|[->|[n ->]]]; [exact H | exact H |].
  intros _. apply in_flight_issue. by left.
Qed.

Lemma ids_ok_getWeather (sel : js string) (s : state) : ids_ok s -> ids_ok (getWeather sel s).
Proof.
  intros H. destruct (getWeather_cases sel s) as [->|[->|[n ->]]]; [exact H | exact H |].
  by apply ids_ok_issue.
Qed.

Lemma ids_ok_resume (req : request) (r : reply) (s : state) : ids_ok s -> ids_ok (resume req r s).
Proof.
  intros H. destruct req, r; unfold_resume; simpl; try exact H;
    repeat case_match; try apply ids_ok_issue; try apply ids_ok_getWeather; exact H.
Qed.

Lemma ids_ok_dispatch (s : state) (e : event) : ids_ok s -> ids_ok (dispatch s e).
Proof.
  intros H. destruct e; simpl; unfold_handlers; try exact H.
  - by destruct has_token, has_geolocation.
  - case_match; [by apply ids_ok_issue | exact H].
  - by apply ids_ok_getWeather.
  - by apply ids_ok_getWeather.
  - by apply ids_ok_getWeather.
  - repeat case_match; try exact H. by apply ids_ok_resume, ids_ok_take.
Qed.

Lemma loading_inv_take (id : nat) (req : request) (s : state) :
  ids_ok s -> find_pending id (pending s) = Some req -> is_query req = false ->
  loading_inv s -> loading_inv (take_pending id s).
Proof. intros Hids Hf Hq H Hl. eapply in_flight_take; eauto. Qed.

Lemma loading_inv_dispatch (s : state) (e : event) :
  ids_ok s -> loading_inv s -> loading_inv (dispatch s e).
Proof.
  intros Hids H. destruct e; simpl; unfold_handlers; try exact H.
  - by destruct has_token, has_geolocation.
  - case_match; [|exact H]. intros Hl. apply in_flight_issue. right. by apply H.
  - by apply loading_inv_getWeather.
  - by apply loading_inv_getWeather.
  - by apply loading_inv_getWeather.
  - destruct (find_pending id (pending s)) as [req|] eqn:Hf; [|exact H].
    destruct (fits req r) eqn:Hfit; [|exact H].
    pose proof (loading_inv_take id req s Hids Hf) as Ht.
    destruct req, r; try discriminate Hfit; unfold_resume; simpl.
    + done.
    + repeat case_match; try done. intros _. apply in_flight_issue. by left.
    + done.
    + case_match; [done | done].
    + by apply Ht.
    + intros Hl. apply in_flight_issue. right. by apply Ht.
    + by apply Ht.
    + apply loading_inv_getWeather. by apply Ht.
Qed.

(** A relation [P] between the recent list and its stored copy that
    holds of every list [Recents.update] returns, persisted, holds of every
    state after [dispatch] if it holds before. *)
Section RecentsPred.
Context (P : list (js string) -> list (js string) -> Prop).
Hypothesis P_update : forall nm l, P l l -> P (Recents.update nm l) (Recents.update nm l).

Lemma recents_pred_getWeather (sel : js string) (s : state) :
  recentCities s = stored_recent s -> P (recentCities s) (stored_recent s) ->
  recentCities (getWeather sel s) = stored_recent (getWeather sel s) /\
  P (recentCities (getWeather sel s)) (stored_recent (getWeather sel s)).
Proof. intros Hs H. by destruct (getWeather_cases sel s) as [->|[->|[n ->]]]. Qed.

Lemma recents_pred_dispatch (s : state) (e : event) :
  recentCities s = stored_recent s -> P (recentCities s) (stored_recent s) ->
  recentCities (dispatch s e) = stored_recent (dispatch s e) /\
  P (recentCities (dispatch s e)) (stored_recent (dispatch s e)).
Proof.
  intros Hs H. destruct e; simpl; unfold_handlers; try (split; [exact Hs | exact H]);
    try by apply recents_pred_getWeather.
  - by destruct has_token, has_geolocation.
  - by case_match.
  - destruct (find_pending id (pending s)) as [req|]; [|by split].
    destruct (fits req r); [|by split].
    assert (recentCities (take_pending id s) = stored_recent (take_pending id s) /\
            P (recentCities (take_pending id s)) (stored_recent (take_pending id s))) as Ht by done.
    destruct req, r; unfold_resume; simpl; try exact Ht; try by apply recents_pred_getWeather.
    all: repeat case_match; try exact Ht.
    split; [done|]. apply P_update. rewrite Hs in H |- *. exact H.
Qed.

End RecentsPred.

Lemma recents_inv_dispatch (s : state) (e : event) : recents_inv s -> recents_inv (dispatch s e).
Proof.
  intros [Hw Hs]. destruct (recents_pred_dispatch (fun l _ => Recents.wf l)) with (s := s) (e := e)
    as [Hs' Hw']; [intros nm l [Hl _]; by apply Recents.update_wf | done | done | done].
Qed.

Lemma reachable_ids_ok (saved : list (js string)) (tok : option string) (s : state) :
  reachable saved tok s -> ids_ok s.
Proof.
  induction 1 as [|s e _ IH]; [split; [constructor | constructor] | by apply ids_ok_dispatch].
Qed.

Lemma reachable_loading_inv (saved : list (js string)) (tok : option string) (s : state) :
  reachable saved tok s -> loading_inv s.
Proof.
  induction 1 as [|s e Hr IH]; [discriminate|].
  apply loading_inv_dispatch; [by eapply reachable_ids_ok | exact IH].
Qed.

Lemma unit_getWeather (sel : js string) (s : state) : unit (getWeather sel s) = unit s.
Proof. by destruct (getWeather_cases sel s) as [->|[->|[n ->]]]. Qed.

Lemma unit_resume (req : request) (r : reply) (s : state) : unit (resume req r s) = unit s.
Proof.
  destruct req, r; unfold_resume; simpl; repeat case_match; simpl;
    rewrite ?unit_getWeather; reflexivity.
Qed.

(** Only the toggle button changes the unit. *)
Lemma unit_dispatch (s : state) (e : event) :
  unit (dispatch s e) =
  match e with ToggleUnit => if String.eqb (unit s) "C" then "F" else "C" | _ => unit s end.
Proof.
  destruct e; simpl; unfold_handlers; rewrite ?unit_getWeather; try reflexivity.
  - by destruct has_token, has_geolocation.
  - by case_match.
  - repeat case_match; rewrite ?unit_resume; reflexivity.
Qed.

Lemma reachable_unit (saved : list (js string)) (tok : option string) (s : state) :
  reachable saved tok s -> unit s = "C" \/ unit s = "F".
Proof.
  induction 1 as [|s e _ IH]; [by left|]. rewrite unit_dispatch.
  destruct e; try exact IH. destruct (String.eqb (unit s) "C"); auto.
Qed.

(** ** Properties *)

(** With an empty input, "Get" shows "Please enter a city
    name" and issues no request; the snapshot, the loading flag and the
    recent list are untouched. *)
Theorem get_empty_city (s : state) :
  city s = "" ->
  let s' := dispatch s GetClick in
  error s' = msg_empty /\ pending s' = pending s /\ weather s' = weather s /\
  loading s' = loading s /\ recentCities s' = recentCities s.
Proof. intros Hc. simpl. unfold getWeather. rewrite truthy_city, Hc. done. Qed.

Lemma get_empty_city_witness :
  city (init [] None) = "" /\ error (dispatch (init [] None) GetClick) = msg_empty.
Proof. split; [reflexivity|]. apply (get_empty_city (init [] None)). reflexivity. Defined.

(** "Get" with a non-empty city clears the error and the
    snapshot, sets [loading], and issues exactly one geocoding request for
    that name. *)
Theorem get_starts_query (s : state) :
  city s <> "" ->
  let s' := dispatch s GetClick in
  error s' = "" /\ weather s' = None /\ loading s' = true /\
  pending s' = pending s ++ [(next_id s, GeoSearch (city s))] /\ next_id s' = S (next_id s).
Proof.
  intros Hc. simpl. unfold getWeather. rewrite truthy_city.
  rewrite (proj2 (String.eqb_neq _ _) Hc). done.
Qed.

Lemma get_starts_query_witness :
  city (set_city "Paris" (init [] None)) <> "" /\
  pending (dispatch (set_city "Paris" (init [] None)) GetClick) = [(0%nat, GeoSearch "Paris")].
Proof.
  split; [discriminate|]. apply (get_starts_query (set_city "Paris" (init [] None))). discriminate.
Defined.

(** C16 (error): a geocoding reply with no candidate shows "City not
    found" and clears [loading], and no forecast request is issued. *)
Theorem search_reply_not_found (s : state) (id : nat) (n : string) (data : js Geocoder.GeoData.t) :
  find_pending id (pending s) = Some (GeoSearch n) ->
  (forall rs, data = Val (Geocoder.GeoData.mk (Val rs)) -> rs = []) ->
  let s' := dispatch s (Reply id (GeoReply data)) in
  error s' = msg_not_found /\ loading s' = false /\ weather s' = weather s /\
  pending s' = filter (fun p => p.1 <> id) (pending s) /\ next_id s' = next_id s.
Proof.
  intros Hp Hnf. simpl. rewrite Hp. unfold_resume. simpl.
  by rewrite (Geocoder.search_no_results data Hnf).
Qed.

Lemma search_reply_not_found_witness :
  let s := dispatch (set_city "Atlantis" (init [] None)) GetClick in
  find_pending 0 (pending s) = Some (GeoSearch "Atlantis") /\
  error (dispatch s (Reply 0 (GeoReply (Val (Geocoder.GeoData.mk (Val [])))))) = msg_not_found.
Proof.
  cbv zeta. split; [reflexivity|].
  apply (search_reply_not_found _ 0 "Atlantis"); [reflexivity|].
  intros rs Hrs. by injection Hrs.
Defined.

(** C7 (functional, end to end): from a state with nothing in flight,
    "Get" followed by a geocoding reply whose first candidate is [p] and a
    forecast reply that normalises to [w] displays [w], clears the error
    and [loading], puts [p]'s name at the front of the recent list and
    persists it. *)
Theorem query_success (s : state) (data : js Geocoder.GeoData.t) (p : Geocoder.Place.t)
    (fd : Forecast.Data.t) (w : Forecast.weather) :
  pending s = [] -> city s <> "" ->
  Geocoder.search data = Ok (Geocoder.Found p) ->
  Forecast.normalize (Geocoder.Place.name p) (Geocoder.Place.country p) fd = Ok w ->
  let s' := run s [GetClick; Reply (next_id s) (GeoReply data);
                   Reply (S (next_id s)) (ForecastReply fd)] in
  weather s' = Some w /\ error s' = "" /\ loading s' = false /\
  recentCities s' = Recents.update (Geocoder.Place.name p) (recentCities s) /\
  stored_recent s' = recentCities s' /\ pending s' = [].
Proof.
  intros Hp Hc Hs Hn. unfold run. cbn [foldl].
  change (dispatch s GetClick) with (getWeather Undefined s).
  rewrite (getWeather_query Undefined s (city s)) by done.
  rewrite (dispatch_reply _ (next_id s) (GeoSearch (city s)) (GeoReply data)) by pending_solve Hp.
  unfold resume, resume_query. cbn [is_query]. rewrite Hs. cbn iota.
  rewrite (dispatch_reply _ (S (next_id s)) (ForecastFetch (Geocoder.Place.name p) (Geocoder.Place.country p)
            (Geocoder.Place.latitude p) (Geocoder.Place.longitude p)) (ForecastReply fd))
    by pending_solve Hp.
  unfold resume, resume_query. cbn [is_query]. rewrite Hn. cbn iota.
  repeat split; simpl; try done. rewrite Hp. by pending_simpl.
Qed.

(** C8 (ordering): a forecast reply that normalises sets the snapshot,
    whatever else is in flight: the last reply to arrive wins, not the
    last query issued. *)
Theorem forecast_reply_overwrites (s : state) (id : nat) (nm cn : js string) (la lo : js Q)
    (fd : Forecast.Data.t) (w : Forecast.weather) :
  find_pending id (pending s) = Some (ForecastFetch nm cn la lo) ->
  Forecast.normalize nm cn fd = Ok w ->
  let s' := dispatch s (Reply id (ForecastReply fd)) in
  weather s' = Some w /\ loading s' = false /\ head (recentCities s') = Some nm.
Proof. intros Hp Hn. simpl. rewrite Hp. unfold_resume. simpl. by rewrite Hn. Qed.


Lemma query_success_witness :
  let s := set_city "Paris" (init [] (Some "jwt")) in
  weather (run s [GetClick; Reply 0 (GeoReply (geo_reply paris_place));
                  Reply 1 (ForecastReply (forecast_at "2024-01-01T01:00"))]) <> None /\
  recentCities (run s [GetClick; Reply 0 (GeoReply (geo_reply paris_place));
                  Reply 1 (ForecastReply (forecast_at "2024-01-01T01:00"))]) = [Val "Paris"].
Proof.
  cbv zeta.
  assert (exists w, Forecast.normalize (Val "Paris") (Val "France")
                      (forecast_at "2024-01-01T01:00") = Ok w) as [w Hw]
    by (eexists; reflexivity).
  destruct (query_success (set_city "Paris" (init [] (Some "jwt"))) (geo_reply paris_place)
              paris_place (forecast_at "2024-01-01T01:00") w)
    as (Hw' & _ & _ & Hr & _); [reflexivity | discriminate | reflexivity | exact Hw |].
  change (next_id (set_city "Paris" (init [] (Some "jwt")))) with 0%nat in Hw', Hr.
  split; [by rewrite Hw' | exact Hr].
Defined.

Lemma forecast_reply_overwrites_witness :
  let s := run (set_city "Paris" (init [] None)) [GetClick; Reply 0 (GeoReply (geo_reply paris_place))] in
  find_pending 1 (pending s) =
    Some (ForecastFetch (Val "Paris") (Val "France") (Val (4885#100)%Q) (Val (235#100)%Q)) /\
  head (recentCities (dispatch s (Reply 1 (ForecastReply (forecast_at "2024-01-01T01:00")))))
    = Some (Val "Paris").
Proof.
  cbv zeta.
  assert (exists w, Forecast.normalize (Val "Paris") (Val "France")
                      (forecast_at "2024-01-01T01:00") = Ok w) as [w Hw]
    by (eexists; reflexivity).
  assert (find_pending 1 (pending (run (set_city "Paris" (init [] None))
            [GetClick; Reply 0 (GeoReply (geo_reply paris_place))])) =
          Some (ForecastFetch (Val "Paris") (Val "France") (Val (4885#100)%Q) (Val (235#100)%Q)))
    as Hf by reflexivity.
  split; [exact Hf|].
  destruct (forecast_reply_overwrites _ 1 _ _ _ _ _ w Hf Hw) as (_ & _ & Hh). exact Hh.
Defined.

(** C9 (invariant): in every reachable state, the loading indicator is
    only shown while a query (a geocoding or forecast request of
    [getWeather]) is in flight. *)
Theorem loading_only_while_querying (saved : list (js string)) (tok : option string) (s : state) :
  reachable saved tok s -> loading s = true -> query_in_flight s.
Proof. apply reachable_loading_inv. Qed.

Lemma loading_only_while_querying_witness :
  let s := dispatch (dispatch (init [] None) (Input "Paris")) GetClick in
  reachable [] None s /\ loading s = true /\ query_in_flight s.
Proof.
  cbv zeta. assert (reachable [] None (dispatch (dispatch (init [] None) (Input "Paris")) GetClick))
    as Hr by (repeat constructor).
  split; [exact Hr|]. split; [reflexivity|].
  apply (loading_only_while_querying [] None _ Hr). reflexivity.
Defined.

(** C12 (invariant): starting from a well-formed stored list (distinct
    names, at most 3), the recent list stays well formed in every reachable
    state and is always the persisted one. *)
Theorem recents_always_wf (saved : list (js string)) (tok : option string) (s : state) :
  Recents.wf saved -> reachable saved tok s -> Recents.wf (recentCities s) /\ stored_recent s = recentCities s.
Proof.
  intros Hw Hr. change (recents_inv s). induction Hr as [|s e _ IH]; [by split|].
  by apply recents_inv_dispatch.
Qed.

Lemma recents_always_wf_witness :
  let s := run (set_city "Paris" (init [Val "Oslo"] None))
             [GetClick; Reply 0 (GeoReply (geo_reply paris_place));
              Reply 1 (ForecastReply (forecast_at "2024-01-01T01:00"))] in
  recentCities s = [Val "Paris"; Val "Oslo"] /\ Recents.wf (recentCities s).
Proof.
  cbv zeta. split; [reflexivity|].
  apply (recents_always_wf [Val "Oslo"] None); [split; [apply NoDup_singleton | simpl; unfold Recents.capacity; lia]|].
  apply reachable_step, reachable_step, reachable_step.
  change (set_city "Paris" (init [Val "Oslo"] None)) with (dispatch (init [Val "Oslo"] None) (Input "Paris")).
  apply reachable_step, reachable_init.
Defined.

(** C17 (divergence from the spec): the mount effect drops the device's
    coordinates.  When the reverse lookup answers, the dashboard issues a
    forward search for the name it found (["Your Location"] when it found
    none) and the forecast is later fetched for whatever place that name
    geocodes to; the forecast fetched for the coordinates is discarded. *)
Theorem mount_reverse_searches_name (s : state) (id : nat) (la lo : Q) (data : js Geocoder.GeoData.t) :
  find_pending id (pending s) = Some (MountReverse la lo) ->
  exists n, Geocoder.reverse_name data = Val n /\
    pending (dispatch s (Reply id (GeoReply data))) =
      filter (fun p => p.1 <> id) (pending s) ++ [(next_id s, GeoSearch n)] /\
    loading (dispatch s (Reply id (GeoReply data))) = true.
Proof.
  intros Hf. destruct (Geocoder.reverse_name_spec data) as (n & Hn & Hne & _).
  assert (truthy (Val n) = true) as Ht by (by apply truthy_string).
  exists n. split; [done|]. simpl. rewrite Hf. unfold_resume. simpl. unfold getWeather.
  rewrite Hn, (js_or_truthy _ _ Ht), Ht. done.
Qed.

(** The reverse lookup finds no place: the forward search is for
    ["Your Location"], and when that name is not found either, the
    coordinate path ends in "City not found" (the spec: the coordinate
    path never raises NotFound). *)
Lemma mount_reverse_searches_name_witness :
  let s := run (init [] (Some "jwt"))
             [Mount true; Position (4885#100) (235#100);
              Reply 0 (ForecastReply (forecast_at "2024-01-01T01:00"))] in
  find_pending 1 (pending s) = Some (MountReverse (4885#100) (235#100)) /\
  pending (dispatch s (Reply 1 (GeoReply (Val (Geocoder.GeoData.mk (Val []))))))
    = [(2%nat, GeoSearch "Your Location")] /\
  error (run s [Reply 1 (GeoReply (Val (Geocoder.GeoData.mk (Val []))));
                Reply 2 (GeoReply (Val (Geocoder.GeoData.mk (Val []))))]) = msg_not_found.
Proof.
  cbv zeta. split; [reflexivity|]. split; [|vm_compute; reflexivity].
  destruct (mount_reverse_searches_name
              (run (init [] (Some "jwt")) [Mount true; Position (4885#100) (235#100);
                 Reply 0 (ForecastReply (forecast_at "2024-01-01T01:00"))])
              1 (4885#100) (235#100) (Val (Geocoder.GeoData.mk (Val []))))
    as (n & Hn & Hp & _); [reflexivity|].
  rewrite Hp. vm_compute in Hn. injection Hn as <-. reflexivity.
Defined.
(** C18 (invariant): in every reachable state the unit is ["C"] or ["F"],
    so pressing "Toggle °C/°F" twice gives back exactly the same state. *)
Theorem toggle_twice (saved : list (js string)) (tok : option string) (s : state) :
  reachable saved tok s -> run s [ToggleUnit; ToggleUnit] = s.
Proof.
  intros Hr. unfold run. simpl. unfold toggle_unit, set_unit. simpl.
  destruct (reachable_unit _ _ _ Hr) as [Hu|Hu]; rewrite Hu; simpl;
    destruct s; simpl in *; by subst.
Qed.

Lemma toggle_twice_witness :
  let s := run (init [] None) [Input "Paris"; GetClick; ToggleUnit] in
  reachable [] None s /\ run s [ToggleUnit; ToggleUnit] = s.
Proof.
  cbv zeta. assert (Hr : reachable [] None (run (init [] None) [Input "Paris"; GetClick; ToggleUnit]))
    by (repeat constructor).
  split; [exact Hr | exact (toggle_twice _ _ _ Hr)].
Defined.
End Dashboard.
