(* ===== verification/Storage.v ===== *)
(** The recent cities across page loads: what [src/src/frontend/Dashboard.js]
    writes to local storage (lines 29-33) and what the next page load reads
    back from it (lines 11-18).

    - [Dashboard.stored_recent] is the list the persisting effect last
      wrote.  The text in storage is its [Json.stringify_recents].
    - [initial_recents] is the [useState] initialiser:
      [saved ? JSON.parse(saved) : []], with [[]] when parsing throws.  It
      returns the JSON value, since [JSON.parse] returns whatever the text
      holds.
    - [recents_of_json] reads that value as the state's list.  It is
      [None] for a value that is not an array of strings and [null]s (text
      someone else stored under the key): the page holds a value of
      another type, which the model's state cannot hold.
    - [reload] is a new page load over the storage a state leaves: the
      first render of [Dashboard] with the stored list and the stored
      token. *)

From Stdlib Require Import QArith String.
From stdpp Require Import base list strings.
From S2P Require Import Spec2Rocq Recents Json Geocoder Dashboard.

Module Storage.
Import Json Dashboard.

(** Lines 11-18: [useState(() => ...)] for [recentCities]. *)
Definition initial_recents (saved : option string) : json :=
  match saved with
  | Some text =>
      if truthy (Val text) then
        match json_parse text with Some v => v | None => JArray [] end
      else JArray []
  | None => JArray []
  end.

(** An element of the parsed array as the state holds it. *)
Definition recent_of_json (v : json) : option (js string) :=
  match v with
  | JString s => Some (Val s)
  | JNull => Some Null
  | _ => None
  end.

Definition recents_of_json (v : json) : option (list (js string)) :=
  match v with
  | JArray vs => mapM recent_of_json vs
  | _ => None
  end.

(** Lines 29-33: the text the persisting effect leaves under
    "recentCities". *)
Definition persisted (s : state) : string := stringify_recents (stored_recent s).

(** A new page load over the storage [s] leaves. *)
Definition reload (s : state) : option state :=
  l ← recents_of_json (initial_recents (Some (persisted s)));
  Some (init l (token s)).

(** What a list becomes through [JSON.stringify] and [JSON.parse]. *)
Definition nullify (v : js string) : js string :=
  match v with Val s => Val s | _ => Null end.

(** A place the geocoder returns without a name. *)
Definition nameless_place : Geocoder.Place.t :=
  Geocoder.Place.mk (Val (4885#100)%Q) (Val (235#100)%Q) Undefined (Val "France").

(** A search for "Nowhere" that the geocoder answers with [nameless_place],
    with request ids [i] and [S i]. *)
Definition nameless_query (i : nat) (s : state) : state :=
  run (set_city "Nowhere" s)
    [GetClick; Reply i (GeoReply (geo_reply nameless_place));
     Reply (S i) (ForecastReply (forecast_at "2024-01-01T01:00"))].

(** ** Lemmas *)

Lemma stringify_truthy (l : list (js string)) : truthy (Val (stringify_recents l)) = true.
Proof. reflexivity. Qed.

Lemma recents_of_json_map (l : list (js string)) :
  recents_of_json (JArray (map json_of_recent l)) = Some (map nullify l).
Proof.
  unfold recents_of_json. induction l as [|v l IH]; [reflexivity|].
  cbn [map mapM]. rewrite IH. by destruct v.
Qed.

(** In every reachable state, the stored list is the state's list. *)
Lemma reachable_stored (saved : list (js string)) (tok : option string) (s : state) :
  reachable saved tok s -> stored_recent s = recentCities s.
Proof.
  induction 1 as [|s e _ IH]; [reflexivity|].
  symmetry. apply (recents_pred_dispatch (fun _ _ => True)); [done | by symmetry | done].
Qed.

(** ** Properties *)

(** C13 (round trip, with [Json] and [Dashboard]): a page load over the
    storage any reachable state leaves starts with that state's recent
    list, except that [undefined] entries come back as [null], and with
    its token.  Lines 29-33 write what lines 11-18 read. *)
Theorem reload_restores_recents (saved : list (js string)) (tok : option string) (s : state) :
  reachable saved tok s -> reload s = Some (init (map nullify (recentCities s)) (token s)).
Proof.
  intros Hr. unfold reload, initial_recents, persisted.
  rewrite stringify_truthy. unfold stringify_recents. rewrite json_parse_join, (reachable_stored saved tok s Hr).
  cbn [mbind option_bind]. by rewrite recents_of_json_map.
Qed.

Lemma reload_restores_recents_witness :
  let s := nameless_query 0 (init [Val "Paris"] (Some "jwt")) in
  reachable [Val "Paris"] (Some "jwt") s /\
  reload s = Some (init [Null; Val "Paris"] (Some "jwt")).
Proof.
  cbv zeta. unfold nameless_query, run. cbn [foldl].
  assert (reachable [Val "Paris"] (Some "jwt") (set_city "Nowhere" (init [Val "Paris"] (Some "jwt"))))
    as H0 by exact (reachable_step _ _ _ (Input "Nowhere") (reachable_init _ _)).
  assert (Hr : reachable [Val "Paris"] (Some "jwt")
    (dispatch (dispatch (dispatch (set_city "Nowhere" (init [Val "Paris"] (Some "jwt"))) GetClick)
       (Reply 0 (GeoReply (geo_reply nameless_place))))
       (Reply 1 (ForecastReply (forecast_at "2024-01-01T01:00"))))).
  { do 3 apply reachable_step. exact H0. }
  split; [exact Hr|]. rewrite (reload_restores_recents _ _ _ Hr). vm_compute. reflexivity.
Defined.

End Storage.
