(* ===== verification/Async.v ===== *)
(** The asynchronous behaviour of the [Dashboard] of
    [src/src/frontend/Dashboard.js] when the user does nothing.  The
    network's replies are the only events.

    - [reply_step] is one reply that resumes a pending continuation, with
      any answer of the right shape or a rejection.
    - [pending_weight] bounds how many [await]s the continuation can still
      reach.  [getWeather] reaches at most two: the geocoding request, then
      the forecast request.  The mount callback of lines 38-63 reaches at
      most four: forecast, reverse lookup, then [getWeather]'s two.
    - Termination: every run of replies is finite, since each reply lowers
      the total weight of the pending requests.
    - Liveness: every maximal run of replies from a reachable state ends
      with nothing in flight and the loading indicator off. *)

From Stdlib Require Import QArith ZArith String Wellfounded.
From stdpp Require Import base list strings relations.
From S2P Require Import Spec2Rocq Recents Forecast Geocoder Dashboard.

Module Async.
Import Dashboard.

(** How many more requests a continuation can issue, itself included. *)
Definition weight (r : request) : nat :=
  match r with
  | GeoSearch _ => 2
  | ForecastFetch _ _ _ _ => 1
  | MountForecast _ _ => 4
  | MountReverse _ _ => 3
  end.

Definition pending_weight (s : state) : nat := sum_list_with (weight ∘ snd) (pending s).

(** One network reply that resumes a pending continuation. *)
Definition reply_step (s s' : state) : Prop :=
  exists id r req, find_pending id (pending s) = Some req /\ fits req r = true /\
    s' = dispatch s (Reply id r).

(** Every path of replies from [s] ends in a quiescent state. *)
Inductive settles : state -> Prop :=
| settles_done s : pending s = [] -> loading s = false -> settles s
| settles_step s :
    (exists s', reply_step s s') -> (forall s', reply_step s s' -> settles s') -> settles s.

(** ** Lemmas *)

Lemma sum_filter_le {A} (f : A -> nat) (P : A -> Prop) `{forall x, Decision (P x)} (l : list A) :
  sum_list_with f (filter P l) <= sum_list_with f l.
Proof. induction l as [|x l IH]; simpl; [done|]. rewrite filter_cons. case_decide; simpl; lia. Qed.

Lemma weight_filter_le (id : nat) (req : request) (l : list (nat * request)) :
  find_pending id l = Some req ->
  sum_list_with (weight ∘ snd) (filter (fun p => p.1 <> id) l) + weight req
    <= sum_list_with (weight ∘ snd) l.
Proof.
  induction l as [|[i r] l IH]; simpl; [done|]. rewrite filter_cons. simpl.
  pose proof (sum_filter_le (weight ∘ snd) (fun p : nat * request => p.1 <> id) l).
  case_decide; case_decide; simpl in *; intros Hf; try congruence;
    first [injection Hf as ->; lia | specialize (IH Hf); lia].
Qed.

Lemma pending_weight_issue (r : request) (s : state) :
  pending_weight (issue r s) = pending_weight s + weight r.
Proof. unfold pending_weight, issue. simpl. rewrite sum_list_with_app. unfold compose. simpl. lia. Qed.

Lemma pending_weight_getWeather (sel : js string) (s : state) :
  pending_weight (getWeather sel s) <= pending_weight s + 2.
Proof.
  destruct (getWeather_cases sel s) as [->|[->|[n ->]]]; rewrite ?pending_weight_issue;
    unfold pending_weight; simpl; lia.
Qed.

Lemma pending_weight_resume (req : request) (r : reply) (s : state) :
  pending_weight (resume req r s) < pending_weight s + weight req.
Proof.
  destruct req, r; unfold resume, resume_query, resume_mount; simpl; try lia;
    repeat case_match; rewrite ?pending_weight_issue; simpl; try lia;
    try (unfold fail_query, pending_weight; simpl; lia).
  pose proof (pending_weight_getWeather (Geocoder.reverse_name data) s). lia.
Qed.

Lemma pending_weight_step (s s' : state) : reply_step s s' -> pending_weight s' < pending_weight s.
Proof.
  intros (id & r & req & Hf & Hfit & ->). simpl. rewrite Hf, Hfit.
  pose proof (pending_weight_resume req r (take_pending id s)).
  pose proof (weight_filter_le id req (pending s) Hf).
  unfold pending_weight, take_pending in *. simpl in *. lia.
Qed.

Lemma reply_step_reachable (saved : list (js string)) (tok : option string) (s s' : state) :
  reachable saved tok s -> reply_step s s' -> reachable saved tok s'.
Proof. intros Hr (id & r & req & _ & _ & ->). by constructor. Qed.

(** A pending request can always be answered, if only by a rejection. *)
Lemma reply_step_exists (s : state) (id : nat) (req : request) (l : list (nat * request)) :
  pending s = (id, req) :: l -> exists s', reply_step s s'.
Proof.
  intros Hp. exists (dispatch s (Reply id Rejected)). exists id, Rejected, req.
  rewrite Hp. simpl. rewrite decide_True by done. by destruct req.
Qed.

Lemma pending_weight_le (s : state) : pending_weight s <= 4 * length (pending s).
Proof.
  unfold pending_weight. induction (pending s) as [|[i r] l IH]; simpl; [lia|].
  unfold compose in *. simpl. destruct r; simpl; lia.
Qed.

Lemma nsteps_weight (n : nat) (s s' : state) :
  nsteps reply_step n s s' -> n + pending_weight s' <= pending_weight s.
Proof.
  induction 1 as [|n s1 s2 s3 Hs _ IH]; [lia|].
  pose proof (pending_weight_step _ _ Hs). lia.
Qed.

(** ** Properties *)

(** C11 (termination): without user input, the asynchronous chains of
    [getWeather] and of the mount callback terminate.  Any run of network
    replies from a state has at most four replies per pending request,
    whatever the replies are. *)
Theorem replies_terminate (n : nat) (s s' : state) :
  nsteps reply_step n s s' -> n <= 4 * length (pending s).
Proof.
  intros Hn. pose proof (nsteps_weight _ _ _ Hn). pose proof (pending_weight_le s). lia.
Qed.

Lemma replies_terminate_witness :
  let s := dispatch (set_city "Paris" (init [] None)) GetClick in
  let s1 := dispatch s (Reply 0 (GeoReply (geo_reply paris_place))) in
  let s2 := dispatch s1 (Reply 1 (ForecastReply (forecast_at "2024-01-01T01:00"))) in
  nsteps reply_step 2 s s2 /\ 2 <= 4 * length (pending s).
Proof.
  cbv zeta. match goal with |- nsteps _ _ ?a ?b /\ _ => assert (H : nsteps reply_step 2 a b) end.
  { eapply nsteps_l.
    { exists 0%nat, (GeoReply (geo_reply paris_place)), (GeoSearch "Paris").
      split; [reflexivity | split; reflexivity]. }
    eapply nsteps_l; [|apply nsteps_O].
    exists 1%nat, (ForecastReply (forecast_at "2024-01-01T01:00")),
      (ForecastFetch (Val "Paris") (Val "France") (Val (4885#100)%Q) (Val (235#100)%Q)).
    split; [reflexivity | split; reflexivity]. }
  split; [exact H | exact (replies_terminate _ _ _ H)].
Defined.

(** C10 (liveness): from every reachable state, every maximal run of
    network replies is finite and ends with no request in flight and the
    loading indicator off, whatever the network answers and in whatever
    order. *)
Theorem replies_settle (saved : list (js string)) (tok : option string) (s : state) :
  reachable saved tok s -> settles s.
Proof.
  remember (pending_weight s) as w eqn:Hw. revert s Hw.
  induction w as [w IH] using lt_wf_ind. intros s -> Hr.
  destruct (pending s) as [|[id req] l] eqn:Hp.
  - apply settles_done; [done|]. destruct (loading s) eqn:Hl; [|done].
    pose proof (reachable_loading_inv _ _ _ Hr Hl) as Hq.
    unfold query_in_flight in Hq. rewrite Hp in Hq. inversion Hq.
  - apply settles_step; [by eapply reply_step_exists|]. intros s' Hs.
    eapply IH; [by apply pending_weight_step | done | by eapply reply_step_reachable].
Qed.

Lemma replies_settle_witness :
  let s := dispatch (dispatch (init [] None) (Input "Paris")) GetClick in
  reachable [] None s /\ settles s.
Proof.
  cbv zeta.
  assert (Hr : reachable [] None (dispatch (dispatch (init [] None) (Input "Paris")) GetClick))
    by (repeat constructor).
  split; [exact Hr | exact (replies_settle _ _ _ Hr)].
Defined.

End Async.
