(* ===== verification/View.v ===== *)
(** What the [Dashboard] of [src/src/frontend/Dashboard.js] renders: the
    JSX of lines 212-266 as a function [render] from the component's state
    to the list of elements that carry content or behaviour.  The style
    sheet (lines 175-210) and the inline styles are left out.

    - A text child [{v}] renders a string as itself.  [undefined], [null]
      and the booleans render as nothing.  A number is spelled by
      JavaScript's number-to-string conversion, which is the parameter
      [num_string].
    - [new Date(t).toLocaleTimeString()] depends on the browser's locale
      and time zone, and is the parameter [local_time].
    - An element whose handler dispatches an event of [Dashboard] carries
      that event: the input (typing gives [Input], Enter gives [GetClick])
      and the buttons. *)

From Stdlib Require Import QArith ZArith String.
From stdpp Require Import base list strings.
From S2P Require Import Spec2Rocq Units Recents Forecast Geocoder Dashboard Storage.

Module View.
Import Dashboard.

(** The rendered elements. *)
Inductive node : Type :=
| Text (tag : string) (content : string)
| InputBox (placeholder : string) (value : string)
| Button (label : string) (onClick : event).

Section Render.
Context (num_string : Q -> string) (local_time : js string -> string).

(** [{v}] for a string value. *)
Definition str_child (v : js string) : string :=
  match v with Val x => x | _ => "" end.

(** [{v}] for a number value. *)
Definition num_child (v : js Q) : string :=
  match v with Val q => num_string q | _ => "" end.

(** Lines 239-241: one button per recent city, labelled with it. *)
Definition recent_buttons (l : list (js string)) : list node :=
  map (fun c => Button (str_child c) (RecentClick c)) l.

(** Lines 215-247: the left column. *)
Definition left_panel (s : state) : list node :=
  [Text "h1" "🌦 Weather Now"; Text "h2" "Welcome, Jamie 👋";
   Text "p" "Check live weather conditions with ease.";
   InputBox "Enter city" (city s);
   Button "Get" GetClick; Button "Refresh" RefreshClick;
   Button "Toggle °C/°F" ToggleUnit; Button "Logout" Logout] ++
  (if decide (0 < length (recentCities s))%nat
   then Text "strong" "Recent:" :: Text "" " " :: recent_buttons (recentCities s) else []) ++
  (if truthy (Val (error s)) then [Text "p" (error s)] else []) ++
  (if loading s then [Text "p" "⏳ Loading..."] else []).

(** Lines 252-262: the summary of a snapshot. *)
Definition weather_panel (u : string) (w : Forecast.weather) : list node :=
  [Text "h3" (str_child (Forecast.icon w) +:+ " " +:+ str_child (Forecast.city w) +:+ ", " +:+
              str_child (Forecast.country w));
   Text "p" (str_child (Forecast.description w));
   Text "p" ("🌡 " +:+ Units.formatTemp u (Forecast.temperature w) +:+ " (Feels like " +:+
             Units.formatTemp u (Forecast.feelsLike w) +:+ ")");
   Text "p" ("💨 " +:+ num_child (Forecast.windspeed w) +:+ " km/h");
   Text "p" ("💧 " +:+ num_child (Forecast.humidity w) +:+ "% humidity");
   Text "p" ("🌧 " +:+ num_child (Forecast.precipitation w) +:+ " mm rain");
   Text "p" ("📈 " +:+ num_child (Forecast.pressure w) +:+ " hPa");
   Text "p" ("🌅 " +:+ str_child (Forecast.sunrise w) +:+ " | 🌇 " +:+ str_child (Forecast.sunset w));
   Text "small" ("Last updated: " +:+ local_time (Forecast.time w))].

(** Lines 212-266. *)
Definition render (s : state) : list node :=
  left_panel s ++
  match weather s with
  | Some w => weather_panel (unit s) w
  | None => [Text "p" "Search for a city to view weather details."]
  end.

(** The events the rendered buttons dispatch, in order. *)
Definition button_events (ns : list node) : list event :=
  omap (fun n => match n with Button _ e => Some e | _ => None end) ns.

(** ** Lemmas *)

Lemma button_events_app (l1 l2 : list node) :
  button_events (l1 ++ l2) = button_events l1 ++ button_events l2.
Proof. apply omap_app. Qed.

Lemma button_events_recent (l : list (js string)) :
  button_events (recent_buttons l) = map RecentClick l.
Proof. induction l as [|c l IH]; simpl; [done | by rewrite IH]. Qed.

Lemma button_events_weather (u : string) (w : Forecast.weather) :
  button_events (weather_panel u w) = [].
Proof. reflexivity. Qed.

Lemma formatTemp_F (c : Q) : Units.formatTemp "F" (Val c) = (Units.number_string (Units.toF c) +:+ "°F")%string.
Proof. reflexivity. Qed.

Lemma recent_button_in (s : state) (c : js string) :
  c ∈ recentCities s -> Button (str_child c) (RecentClick c) ∈ render s.
Proof.
  intros Hc. unfold render, left_panel. apply elem_of_app. left.
  apply elem_of_app. right. apply elem_of_app. left.
  rewrite decide_True by (destruct (recentCities s); [by apply not_elem_of_nil in Hc | simpl; lia]).
  do 2 apply elem_of_cons; right; right. unfold recent_buttons.
  apply list_elem_of_fmap. by exists c.
Qed.

(** ** Properties *)

(** C19 (functional): the page offers exactly these actions, in order:
    Get, Refresh, Toggle, Logout, then one button per recent city that
    queries that city.  The snapshot panel has no buttons. *)
Theorem render_buttons (s : state) :
  button_events (render s) = [GetClick; RefreshClick; ToggleUnit; Logout] ++ map RecentClick (recentCities s).
Proof.
  unfold render, left_panel. rewrite !button_events_app.
  assert (button_events (match weather s with Some w => weather_panel (unit s) w
            | None => [Text "p" "Search for a city to view weather details."] end) = []) as ->
    by (by destruct (weather s)).
  assert (button_events (if decide (0 < length (recentCities s))%nat
            then Text "strong" "Recent:" :: Text "" " " :: recent_buttons (recentCities s) else [])
          = map RecentClick (recentCities s)) as ->.
  { case_decide as Hl; [apply button_events_recent|].
    destruct (recentCities s); [done | simpl in Hl; lia]. }
  destruct (truthy (Val (error s))), (loading s); simpl; by rewrite ?app_nil_r.
Qed.

(** C20 (functional, with [Units]): after "Toggle °C/°F" on a Celsius
    display, the temperature line shows [toF] of the temperature and of
    the felt temperature, with "°F". *)
Theorem toggle_shows_fahrenheit (s : state) (w : Forecast.weather) (c f : Q) :
  unit s = "C" -> weather s = Some w ->
  Forecast.temperature w = Val c -> Forecast.feelsLike w = Val f ->
  Text "p" ("🌡 " +:+ Units.number_string (Units.toF c) +:+ "°F (Feels like " +:+
            Units.number_string (Units.toF f) +:+ "°F)")
    ∈ render (dispatch s ToggleUnit).
Proof.
  intros Hu Hw Hc Hf.
  assert (unit (dispatch s ToggleUnit) = "F") as Hu'
    by (rewrite unit_dispatch, Hu; reflexivity).
  assert (weather (dispatch s ToggleUnit) = Some w) as Hw' by exact Hw.
  unfold render. rewrite Hw', Hu'. apply elem_of_app. right.
  unfold weather_panel. rewrite Hc, Hf, !formatTemp_F.
  do 2 (apply elem_of_cons; right). apply elem_of_cons. left. f_equal.
  rewrite ?string_app_assoc. reflexivity.
Qed.

(** C34 (functional, divergence from the spec): a recent entry that is
    [null] or [undefined] renders as a button with an empty label.  Such
    an entry comes from a place the geocoder returned without a name,
    before or after a page load.  Clicking the button runs
    [getWeather(c)] with a falsy [c], so [selectedCity || city] queries
    the input box's text, exactly as "Get" does, and not the entry. *)
Theorem blank_recent_queries_input (s : state) (c : js string) :
  c ∈ recentCities s -> c = Null \/ c = Undefined ->
  Button "" (RecentClick c) ∈ render s /\ dispatch s (RecentClick c) = dispatch s GetClick.
Proof.
  intros Hc Hn. split.
  - replace "" with (str_child c) by (by destruct Hn as [-> | ->]). by apply recent_button_in.
  - by destruct Hn as [-> | ->].
Qed.

End Render.

Lemma toggle_shows_fahrenheit_witness :
  let s := run (set_city "Paris" (init [] None))
             [GetClick; Reply 0 (GeoReply (geo_reply paris_place));
              Reply 1 (ForecastReply (forecast_at "2024-01-01T01:00"))] in
  unit s = "C" /\
  Text "p" "🌡 41.9°F (Feels like 39.2°F)"
    ∈ render Units.number_string (fun _ => "12:00") (dispatch s ToggleUnit).
Proof.
  cbv zeta. split; [reflexivity|].
  match goal with |- _ ∈ render _ _ (dispatch ?s _) =>
    destruct (weather s) as [w|] eqn:Hw; [|discriminate Hw];
    pose proof Hw as Hw'; vm_compute in Hw'; injection Hw' as <-;
    pose proof (toggle_shows_fahrenheit Units.number_string (fun _ => "12:00") s _ (11#2) 4
                  eq_refl Hw eq_refl eq_refl) as H
  end.
  exact H.
Defined.

Lemma blank_recent_queries_input_witness :
  Storage.reload (Storage.nameless_query 0 (init [] (Some "jwt"))) = Some (init [Null] (Some "jwt")) /\
  Button "" (RecentClick Null) ∈ render Units.number_string (fun _ => "12:00")
                                   (set_city "Paris" (init [Null] (Some "jwt"))) /\
  pending (dispatch (set_city "Paris" (init [Null] (Some "jwt"))) (RecentClick Null))
    = [(0%nat, GeoSearch "Paris")].
Proof.
  split; [vm_compute; reflexivity|].
  destruct (blank_recent_queries_input Units.number_string (fun _ => "12:00")
              (set_city "Paris" (init [Null] (Some "jwt"))) Null) as [Hb Hd];
    [by left | by left|].
  split; [exact Hb|]. rewrite Hd. reflexivity.
Defined.

End View.
