(* ===== verification/AuthServer.v ===== *)
(** The Express server of [src/src/backend/server.js]: the [User] model
    (lines 22-26: [email] required and unique, [password] required), and
    the handlers [/register] (lines 34-47), [/login] (lines 49-63) and
    [/protected] (lines 65-78).

    The collection is a list of documents in insertion order, with the
    unique index on [email] enforced by [save] (a duplicate key makes
    [save] throw, as MongoDB's E11000 error does).  [bcrypt] and
    [jsonwebtoken] are not re-implemented: the handlers are written
    against the interfaces [Hasher] and [Signer], whose laws are what the
    handlers rely on ([compare] accepts the hashed password and, as an
    idealisation of bcrypt, no other).  The salt [bcrypt.hash] draws at
    random is a parameter of the request.

    [register] is also modelled with its three [await]s as separate steps
    ([findOne], [bcrypt.hash], [save]), so that concurrent requests can
    interleave ([step]). *)

From Stdlib Require Import ZArith String.
From stdpp Require Import base list strings pretty.
From S2P Require Import Spec2Rocq.

Module AuthServer.

(** [bcrypt.hash(password, 10)] and [bcrypt.compare].  [compare_other]
    idealises bcrypt: the real function reads only the first 72 bytes of
    the password, so two passwords that agree on them are both
    accepted. *)
Class Hasher : Type := {
  hash : string -> nat -> string;
  compare : string -> string -> bool;
  compare_hash : forall p salt, compare p (hash p salt) = true;
  compare_other : forall p q salt, p <> q -> compare q (hash p salt) = false;
  hash_nonempty : forall p salt, hash p salt <> "" }.

(** [jwt.sign({ id: user._id }, SECRET, { expiresIn: "1h" })]: a JWT is
    never the empty string. *)
Class Signer : Type := {
  sign : nat -> string;
  sign_nonempty : forall id, sign id <> "" }.

(** A document of the [users] collection. *)
Record user : Type := mkUser { _id : nat; email : string; password : string }.

Record db : Type := mkDb { users : list user; next_oid : nat }.

Inductive body : Type :=
| Msg (msg : string)
| TokenBody (token : string).

Record response : Type := mkResp { status : Z; resp_body : body }.

Definition server_error : response := mkResp 500 (Msg "Server error").

(** [User.findOne({ email })] *)
Definition findOne (e : string) (d : db) : option user :=
  List.find (fun u => String.eqb (email u) e) (users d).

(** [new User(...).save()].  Mongoose validates the document first: a
    [required] string path rejects the empty string (lines 23-24).  Then
    the unique index on [email] rejects a duplicate key. *)
Definition save (e h : string) (d : db) : result db :=
  if String.eqb e "" || String.eqb h "" then Throw ValidationError
  else match findOne e d with
       | Some _ => Throw MongoServerError
       | None => Ok (mkDb (users d ++ [mkUser (next_oid d) e h]) (S (next_oid d)))
       end.

Section Handlers.
Context `{Hasher} `{Signer}.

(** [/register]: lines 34-47. *)
Definition register (salt : nat) (e p : string) (d : db) : db * response :=
  match findOne e d with
  | Some _ => (d, mkResp 400 (Msg "User already exists"))
  | None =>
      match save e (hash p salt) d with
      | Ok d' => (d', mkResp 200 (Msg "User registered successfully"))
      | Throw _ => (d, server_error)
      end
  end.

(** [/login]: lines 49-63. *)
Definition login (e p : string) (d : db) : response :=
  match findOne e d with
  | None => mkResp 400 (Msg "User not found")
  | Some u =>
      if compare p (password u) then mkResp 200 (TokenBody (sign (_id u)))
      else mkResp 400 (Msg "Invalid credentials")
  end.
End Handlers.

(** [/protected]: lines 65-78.  The handler answers and returns before
    reading the [Authorization] header; the token check after the [return]
    is unreachable. *)
Definition protected (authorization : js string) : response := mkResp 200 (Msg "Server error").

(** ** Concurrent registrations

    A [register] request in flight, at one of its [await]s. *)
Inductive reg_stage : Type :=
| Received (salt : nat) (e p : string)      (* before [await User.findOne] *)
| Checked (salt : nat) (e p : string)       (* [findOne] found nobody; before [await bcrypt.hash] *)
| Hashed (e h : string)                     (* before [await user.save()] *)
| Replied (r : response).

Section Concurrent.
Context `{Hasher}.

(** One handler resumes after its [await]. *)
Definition advance (st : reg_stage) (d : db) : reg_stage * db :=
  match st with
  | Received salt e p =>
      match findOne e d with
      | Some _ => (Replied (mkResp 400 (Msg "User already exists")), d)
      | None => (Checked salt e p, d)
      end
  | Checked salt e p => (Hashed e (hash p salt), d)
  | Hashed e h =>
      match save e h d with
      | Ok d' => (Replied (mkResp 200 (Msg "User registered successfully")), d')
      | Throw _ => (Replied server_error, d)
      end
  | Replied r => (Replied r, d)
  end.

(** The server: the database and the handlers in flight. *)
Inductive step : db * list reg_stage -> db * list reg_stage -> Prop :=
| step_advance d hs i st st' d' :
    hs !! i = Some st -> advance st d = (st', d') ->
    step (d, hs) (d', <[i := st']> hs).

Inductive steps : db * list reg_stage -> db * list reg_stage -> Prop :=
| steps_refl c : steps c c
| steps_cons c1 c2 c3 : step c1 c2 -> steps c2 c3 -> steps c1 c3.
End Concurrent.

Definition empty_db : db := mkDb [] 0.

(** Unique emails in the collection. *)
Definition unique_emails (d : db) : Prop := NoDup (map email (users d)).

(** Every document satisfies the schema of lines 22-25: its [email] and
    [password] are present, and the emails are unique. *)
Definition db_valid (d : db) : Prop :=
  unique_emails d /\ Forall (fun u => email u <> "" /\ password u <> "") (users d).

(** A bcrypt stand-in for the witnesses: the salt is ignored and the hash
    is the password itself. *)
#[export] Program Instance plain_hasher : Hasher := {
  hash p _ := ("$2b$" +:+ p)%string;
  compare q h := String.eqb ("$2b$" +:+ q) h }.
Next Obligation. intros p salt. apply String.eqb_refl. Qed.
Next Obligation. intros p q salt Hne. apply String.eqb_neq. intros Heq. injection Heq as Heq. change (q = p) in Heq. congruence. Qed.
Next Obligation. intros p salt. discriminate. Qed.

#[export] Program Instance id_signer : Signer := { sign id := ("token-" +:+ pretty (N.of_nat id))%string }.
Next Obligation. intros id. discriminate. Qed.

(** ** Registrations racing for one email *)

(** The answer of a successful registration (line 43). *)
Definition reg_ok : response := mkResp 200 (Msg "User registered successfully").

#[export] Instance body_eq_dec : EqDecision body.
Proof. solve_decision. Defined.
#[export] Instance response_eq_dec : EqDecision response.
Proof. solve_decision. Defined.
#[export] Instance reg_stage_eq_dec : EqDecision reg_stage.
Proof. solve_decision. Defined.

(** The number of handlers that answered 200. *)
Definition ok_count (hs : list reg_stage) : nat := length (filter (fun st => st = Replied reg_ok) hs).

(** A handler registering [e] that has passed [findOne]: waiting for
    bcrypt, waiting for [save] with a non-empty hash, or answered 200 or
    500. *)
Definition race_stage (e : string) (st : reg_stage) : Prop :=
  (exists salt p, st = Checked salt e p) \/ (exists h, h <> "" /\ st = Hashed e h) \/
  st = Replied reg_ok \/ st = Replied server_error.

(** While no handler has answered 200, [e] is not stored and no handler
    has answered 500; afterwards exactly one has answered 200 and [e] is
    stored. *)
Definition race_inv (e : string) (c : db * list reg_stage) : Prop :=
  Forall (race_stage e) c.2 /\
  ((ok_count c.2 = 0 /\ findOne e c.1 = None /\ Replied server_error ∉ c.2) \/
   (ok_count c.2 = 1 /\ findOne e c.1 <> None)).

(** ** Lemmas *)

Lemma find_app {A} (f : A -> bool) (l1 l2 : list A) :
  List.find f (l1 ++ l2) = match List.find f l1 with Some x => Some x | None => List.find f l2 end.
Proof. induction l1 as [|x l1 IH]; simpl; [done|]. by destruct (f x). Qed.

Lemma findOne_None (e : string) (d : db) :
  findOne e d = None -> e ∉ map email (users d).
Proof.
  unfold findOne. intros Hf Hin. apply list_elem_of_fmap in Hin as (u & -> & Hu).
  apply list_elem_of_In in Hu. pose proof (find_none _ _ Hf u Hu) as Hne. simpl in Hne.
  by rewrite String.eqb_refl in Hne.
Qed.

Lemma findOne_Some (e : string) (d : db) (u : user) :
  findOne e d = Some u -> email u = e /\ u ∈ users d.
Proof.
  unfold findOne. intros Hf. apply find_some in Hf as [Hin He].
  apply String.eqb_eq in He. split; [done | by apply list_elem_of_In].
Qed.

Lemma findOne_snoc_new (e : string) (d : db) (u : user) (n : nat) :
  findOne e d = None -> email u = e -> findOne e (mkDb (users d ++ [u]) n) = Some u.
Proof.
  unfold findOne. simpl. intros Hf Hu. rewrite find_app, Hf. simpl.
  by rewrite Hu, String.eqb_refl.
Qed.

Lemma save_Ok_inv (e h : string) (d d' : db) :
  save e h d = Ok d' ->
  e <> "" /\ h <> "" /\ findOne e d = None /\
  d' = mkDb (users d ++ [mkUser (next_oid d) e h]) (S (next_oid d)).
Proof.
  unfold save. destruct (String.eqb e "") eqn:He, (String.eqb h "") eqn:Hh; try discriminate.
  apply String.eqb_neq in He, Hh. destruct (findOne e d); [discriminate|]. by intros [= <-].
Qed.

Lemma save_ok (e h : string) (d : db) :
  e <> "" -> h <> "" -> findOne e d = None ->
  save e h d = Ok (mkDb (users d ++ [mkUser (next_oid d) e h]) (S (next_oid d))).
Proof.
  intros He Hh Hf. unfold save. apply String.eqb_neq in He, Hh. by rewrite He, Hh, Hf.
Qed.

Lemma save_unique (e h : string) (d d' : db) :
  unique_emails d -> save e h d = Ok d' -> unique_emails d'.
Proof.
  unfold unique_emails. intros Hnd (_ & _ & Hf & ->)%save_Ok_inv. simpl.
  rewrite map_app. apply NoDup_app. split; [done|].
  split; [|apply NoDup_singleton]. intros x Hx Hx'. simpl in Hx'.
  apply list_elem_of_singleton in Hx'. subst x. by apply (findOne_None e d).
Qed.

Lemma findOne_empty (d : db) :
  Forall (fun u => email u <> "" /\ password u <> "") (users d) -> findOne "" d = None.
Proof.
  unfold findOne. induction (users d) as [|u l IH]; intros Hr; [done|].
  apply Forall_cons in Hr as [[He _] Hr]. simpl.
  by rewrite (proj2 (String.eqb_neq _ _) He), IH.
Qed.

Lemma save_valid (e h : string) (d d' : db) :
  db_valid d -> save e h d = Ok d' -> db_valid d'.
Proof.
  intros [Hu Hr] Hs. split; [by eapply save_unique|].
  apply save_Ok_inv in Hs as (He & Hh & _ & ->). simpl. apply Forall_app. by split; [|constructor].
Qed.

Lemma advance_valid `{Hasher} (st st' : reg_stage) (d d' : db) :
  db_valid d -> advance st d = (st', d') -> db_valid d'.
Proof.
  intros Hu. destruct st; simpl; repeat case_match; intros [= <- <-]; try done.
  by eapply save_valid.
Qed.

Lemma ok_count_cons (st : reg_stage) (hs : list reg_stage) :
  ok_count (st :: hs) = (if decide (st = Replied reg_ok) then 1 else 0) + ok_count hs.
Proof. unfold ok_count. rewrite filter_cons. by case_decide. Qed.

Lemma ok_count_one (st : reg_stage) : ok_count [st] = if decide (st = Replied reg_ok) then 1 else 0.
Proof. rewrite ok_count_cons. unfold ok_count. simpl. lia. Qed.

Lemma ok_count_ok : ok_count [Replied reg_ok] = 1.
Proof. by rewrite ok_count_one, decide_True. Qed.

Lemma ok_count_other (st : reg_stage) : st <> Replied reg_ok -> ok_count [st] = 0.
Proof. intros Hst. by rewrite ok_count_one, decide_False. Qed.

Lemma ok_count_none (hs : list reg_stage) :
  Forall (fun st => st <> Replied reg_ok) hs -> ok_count hs = 0.
Proof.
  induction 1 as [|st hs Hst _ IH]; [done|]. by rewrite ok_count_cons, decide_False, IH.
Qed.

Lemma ok_count_insert (hs : list reg_stage) (i : nat) (st st' : reg_stage) :
  hs !! i = Some st -> ok_count (<[i := st']> hs) + ok_count [st] = ok_count hs + ok_count [st'].
Proof.
  induction hs as [|x hs IH] in i |- *; intros Hi; [done|].
  destruct i as [|i]; simpl in Hi.
  - injection Hi as ->. change (<[0 := st']> (st :: hs)) with (st' :: hs).
    rewrite !ok_count_cons. change (ok_count []) with 0. lia.
  - change (<[S i := st']> (x :: hs)) with (x :: <[i := st']> hs).
    rewrite !(ok_count_cons x). specialize (IH i Hi). lia.
Qed.

Lemma ok_count_zero (hs : list reg_stage) (st : reg_stage) :
  ok_count hs = 0 -> st ∈ hs -> st <> Replied reg_ok.
Proof.
  unfold ok_count. intros H Hin ->. apply length_zero_iff_nil in H.
  assert (Replied reg_ok ∈ filter (fun st => st = Replied reg_ok) hs) as Hf
    by (by apply list_elem_of_filter).
  rewrite H in Hf. by apply not_elem_of_nil in Hf.
Qed.

Lemma save_taken (e h : string) (d : db) (u : user) :
  findOne e d = Some u -> exists x, save e h d = Throw x.
Proof. unfold save. intros Hf. rewrite Hf. case_match; eauto. Qed.

Lemma findOne_saved (e h : string) (d d' : db) : save e h d = Ok d' -> findOne e d' <> None.
Proof.
  intros (_ & _ & Hf & ->)%save_Ok_inv. by rewrite (findOne_snoc_new e d (mkUser (next_oid d) e h)).
Qed.

Lemma race_step `{Hasher} (e : string) (c c' : db * list reg_stage) :
  e <> "" -> race_inv e c -> step c c' -> race_inv e c'.
Proof.
  intros He Hinv Hstep. destruct Hstep as [d hs i st st' d' Hi Ha]. destruct Hinv as [Hs Hc].
  simpl in *. unfold race_inv. cbn [fst snd].
  pose proof (ok_count_insert hs i st st' Hi) as Hn.
  pose proof (Forall_lookup_1 _ _ _ _ Hs Hi) as Hst.
  assert (st ∈ hs) as Hin by (by eapply list_elem_of_lookup_2).
  destruct Hst as [(salt & p & ->)|[(h & Hh & ->)|[-> | ->]]]; simpl in Ha.
  - injection Ha as <- <-. split.
    + apply Forall_insert; [done|]. right; left. exists (hash p salt). split; [apply hash_nonempty | done].
    + rewrite !ok_count_other in Hn by discriminate.
      destruct Hc as [(H0 & Hf & Hse)|(H1 & Hf)]; [left | right]; (split; [lia|]); [split; [done|] | done].
      intros Hx. apply list_elem_of_lookup in Hx as [j Hj]. destruct (decide (i = j)) as [<-|Hij].
      * rewrite list_lookup_insert_eq in Hj by (by eapply lookup_lt_Some). discriminate Hj.
      * rewrite list_lookup_insert_ne in Hj by done. apply Hse. by eapply list_elem_of_lookup_2.
  - destruct Hc as [(H0 & Hf & Hse)|(H1 & Hf)].
    + rewrite (save_ok e h d He Hh Hf) in Ha. injection Ha as <- <-. split.
      * apply Forall_insert; [done|]. by do 2 right; left.
      * right. change (mkResp 200 (Msg "User registered successfully")) with reg_ok in Hn |- *.
        rewrite ok_count_ok, (ok_count_other (Hashed e h)) in Hn by discriminate.
        split; [lia|]. by eapply findOne_saved, save_ok.
    + destruct (findOne e d) as [u|] eqn:Hu; [|done].
      destruct (save_taken e h d u Hu) as [x Hx]. rewrite Hx in Ha. injection Ha as <- <-. split.
      * apply Forall_insert; [done|]. by do 3 right.
      * right. rewrite !ok_count_other in Hn by (unfold server_error, reg_ok; congruence).
        split; [lia | by rewrite Hu].
  - injection Ha as <- <-. by rewrite list_insert_id.
  - injection Ha as <- <-. by rewrite list_insert_id.
Qed.

Lemma race_steps `{Hasher} (e : string) (c c' : db * list reg_stage) :
  e <> "" -> steps c c' -> race_inv e c -> race_inv e c' /\ length c'.2 = length c.2.
Proof.
  intros He. induction 1 as [c|c1 c2 c3 Hs _ IH]; [done|]. intros Hi.
  destruct IH as [Hi' Hl]; [by eapply race_step|]. split; [done|]. rewrite Hl.
  destruct Hs. simpl. apply length_insert.
Qed.

Section Registered.
Context `{Hasher} `{Signer}.

(** The document a successful registration appends. *)
Lemma register_new (salt : nat) (e p : string) (d : db) :
  e <> "" -> findOne e d = None ->
  register salt e p d =
    (mkDb (users d ++ [mkUser (next_oid d) e (hash p salt)]) (S (next_oid d)),
     mkResp 200 (Msg "User registered successfully")).
Proof. intros He Hf. unfold register. by rewrite Hf, save_ok by auto using hash_nonempty. Qed.

Lemma login_after_register (salt : nat) (e p : string) (d : db) :
  findOne e d = None ->
  login e p (mkDb (users d ++ [mkUser (next_oid d) e (hash p salt)]) (S (next_oid d)))
  = mkResp 200 (TokenBody (sign (next_oid d))).
Proof.
  intros Hf. unfold login.
  rewrite (findOne_snoc_new e d (mkUser (next_oid d) e (hash p salt))) by done.
  simpl. by rewrite compare_hash.
Qed.
End Registered.

(** ** Properties *)

Section Properties.
Context `{Hasher} `{Signer}.

(** C24 (round trip): registering a new email and then logging in with
    the same password yields a token for the new document. *)
Theorem register_then_login (salt : nat) (e p : string) (d : db) :
  e <> "" -> findOne e d = None ->
  let '(d', r) := register salt e p d in
  r = mkResp 200 (Msg "User registered successfully") /\
  login e p d' = mkResp 200 (TokenBody (sign (next_oid d))).
Proof.
  intros He Hf. rewrite register_new by done. split; [done|]. by apply login_after_register.
Qed.

(** C25 (error): registering an email that is taken answers 400 and
    leaves the collection unchanged. *)
Theorem register_duplicate (salt : nat) (e p : string) (d : db) (u : user) :
  findOne e d = Some u -> register salt e p d = (d, mkResp 400 (Msg "User already exists")).
Proof. intros Hf. unfold register. by rewrite Hf. Qed.

(** C26 (error): a registration with an empty email finds nobody, then
    Mongoose's [required] validator rejects the save.  The client gets 500
    "Server error" rather than a validation message, and the collection is
    unchanged. *)
Theorem register_empty_email (salt : nat) (p : string) (d : db) :
  db_valid d -> register salt "" p d = (d, server_error).
Proof. intros [_ Hr]. unfold register. by rewrite findOne_empty. Qed.

(** C27 (error, divergence from the spec): a login with an unknown email
    answers "User not found" and one with a wrong password "Invalid
    credentials": the two failures are told apart (the spec has a
    single invalid-credentials error). *)
Theorem login_failures (salt : nat) (e p q e' : string) (d : db) :
  e <> "" -> findOne e d = None -> p <> q -> findOne e' d = None -> e' <> e ->
  let d' := fst (register salt e p d) in
  login e q d' = mkResp 400 (Msg "Invalid credentials") /\
  login e' q d' = mkResp 400 (Msg "User not found").
Proof.
  intros He Hf Hpq Hf' Hne. rewrite register_new by done. simpl. unfold login.
  rewrite (findOne_snoc_new e d (mkUser (next_oid d) e (hash p salt))) by done.
  simpl. rewrite compare_other by done. split; [done|].
  unfold findOne in *. simpl. rewrite find_app, Hf'. simpl.
  by rewrite (proj2 (String.eqb_neq e e') (not_eq_sym Hne)).
Qed.

(** Sequential registrations keep emails unique. *)
Theorem register_unique (salt : nat) (e p : string) (d : db) :
  unique_emails d -> unique_emails (fst (register salt e p d)).
Proof.
  intros Hu. unfold register. destruct (findOne e d) eqn:Hf; [done|].
  destruct (save e (hash p salt) d) eqn:Hs; [|done]. by eapply save_unique.
Qed.
End Properties.

(** C28 (invariant, concurrency): however concurrent registrations
    interleave, every stored document satisfies the schema: the unique
    index keeps emails unique, and the [required] validators keep empty
    emails and passwords out. *)
Theorem steps_valid `{Hasher} (c c' : db * list reg_stage) :
  steps c c' -> db_valid c.1 -> db_valid c'.1.
Proof.
  induction 1 as [c|c1 c2 c3 Hs _ IH]; [done|]. intros Hu. apply IH.
  destruct Hs as [d hs i st st' d' _ Ha]. by eapply advance_valid.
Qed.

(** C29 (concurrency): any number of concurrent registrations of the
    same new email that have all passed [findOne] (each found nobody)
    before any of them saved: whatever the interleaving of their
    remaining [await]s, once all have answered, exactly one answered 200
    and every other one 500 "Server error", because the unique index
    rejects its save, not 400 "User already exists".  The email is then
    stored. *)
Theorem register_race `{Hasher} (d d' : db) (e : string) (hs hs' : list reg_stage) :
  e <> "" -> findOne e d = None -> hs <> [] ->
  Forall (fun st => exists salt p, st = Checked salt e p) hs ->
  steps (d, hs) (d', hs') -> Forall (fun st => exists r, st = Replied r) hs' ->
  ok_count hs' = 1 /\ Forall (fun st => st = Replied reg_ok \/ st = Replied server_error) hs' /\
  findOne e d' <> None.
Proof.
  intros He Hf Hne Hc Hs Hr.
  destruct (race_steps e _ _ He Hs) as [[Hst Hinv] Hl].
  { split; [|left; split_and!; [|done|]].
    - eapply Forall_impl; [exact Hc|]. intros st (salt & p & ->). left. by exists salt, p.
    - apply ok_count_none. eapply Forall_impl; [exact Hc|]. by intros st (salt & p & ->).
    - intros Hin. eapply Forall_forall in Hc as (? & ? & ?); [|exact Hin]. discriminate. }
  simpl in *.
  assert (Forall (fun st => st = Replied reg_ok \/ st = Replied server_error) hs') as Hend.
  { apply Forall_forall. intros st Hin.
    destruct (proj1 (Forall_forall _ _) Hr st Hin) as [r ->].
    destruct (proj1 (Forall_forall _ _) Hst _ Hin) as [(? & ? & ?)|[(? & ? & ?)|[Hx|Hx]]];
      [discriminate | discriminate | by left | by right]. }
  destruct Hinv as [(H0 & _ & Hse)|(H1 & Hf')]; [|done].
  exfalso. destruct hs' as [|st hs'']; [destruct hs; simpl in Hl; [done | lia]|].
  apply Forall_cons in Hend as [[-> | ->] _].
  - by apply (ok_count_zero _ _ H0 (list_elem_of_here _ _)).
  - apply Hse. apply list_elem_of_here.
Qed.

Lemma register_race_witness :
  let hs := [Checked 0 "a@b.c" "pw1"; Checked 1 "a@b.c" "pw2"] in
  let d' := mkDb [mkUser 0 "a@b.c" "$2b$pw1"] 1 in
  steps (empty_db, hs) (d', [Replied reg_ok; Replied server_error]) /\
  ok_count [Replied reg_ok; Replied server_error] = 1 /\ findOne "a@b.c" d' <> None.
Proof.
  cbv zeta.
  assert (Hs : steps (empty_db, [Checked 0 "a@b.c" "pw1"; Checked 1 "a@b.c" "pw2"])
                 (mkDb [mkUser 0 "a@b.c" "$2b$pw1"] 1, [Replied reg_ok; Replied server_error])).
  { eapply steps_cons; [eapply (step_advance _ _ 0); reflexivity|]. simpl.
    eapply steps_cons; [eapply (step_advance _ _ 1); reflexivity|]. simpl.
    eapply steps_cons; [eapply (step_advance _ _ 0); reflexivity|]. simpl.
    eapply steps_cons; [eapply (step_advance _ _ 1); reflexivity|]. simpl.
    apply steps_refl. }
  destruct (register_race empty_db _ "a@b.c" [Checked 0 "a@b.c" "pw1"; Checked 1 "a@b.c" "pw2"] _
              ltac:(discriminate) eq_refl ltac:(discriminate)
              ltac:(repeat constructor; eauto) Hs ltac:(repeat constructor; eauto)) as (Hc & _ & Hf).
  split; [exact Hs|]. split; [exact Hc | exact Hf].
Defined.

Lemma register_then_login_witness :
  "jamie@example.com" <> "" /\ findOne "jamie@example.com" empty_db = None /\
  login "jamie@example.com" "s3cret" (fst (register 7 "jamie@example.com" "s3cret" empty_db))
  = mkResp 200 (TokenBody "token-0").
Proof.
  split; [discriminate|]. split; [reflexivity|].
  pose proof (register_then_login 7 "jamie@example.com" "s3cret" empty_db ltac:(discriminate) eq_refl) as H.
  vm_compute in H. destruct H as [_ H]. vm_compute. exact H.
Defined.

Lemma register_duplicate_witness :
  let d := fst (register 7 "jamie@example.com" "s3cret" empty_db) in
  findOne "jamie@example.com" d = Some (mkUser 0 "jamie@example.com" "$2b$s3cret") /\
  register 8 "jamie@example.com" "other" d = (d, mkResp 400 (Msg "User already exists")).
Proof.
  cbv zeta. split; [reflexivity|]. apply (register_duplicate _ _ _ _ (mkUser 0 "jamie@example.com" "$2b$s3cret")).
  reflexivity.
Defined.

Lemma register_empty_email_witness :
  db_valid empty_db /\ register 7 "" "s3cret" empty_db = (empty_db, server_error).
Proof.
  assert (Hv : db_valid empty_db) by (split; constructor).
  split; [exact Hv | exact (register_empty_email 7 "s3cret" empty_db Hv)].
Defined.

Lemma login_failures_witness :
  let d' := fst (register 7 "jamie@example.com" "s3cret" empty_db) in
  login "jamie@example.com" "guess" d' = mkResp 400 (Msg "Invalid credentials") /\
  login "sam@example.com" "guess" d' = mkResp 400 (Msg "User not found").
Proof.
  apply login_failures; [discriminate | reflexivity | discriminate | reflexivity | discriminate].
Defined.

Lemma register_unique_witness :
  unique_emails (fst (register 8 "sam@example.com" "pw" (fst (register 7 "jamie@example.com" "s3cret" empty_db)))).
Proof. apply register_unique, register_unique. constructor. Defined.

Lemma steps_valid_witness :
  db_valid (mkDb [mkUser 0 "a@b.c" "$2b$pw1"] 1).
Proof.
  apply (steps_valid (mkDb [] 0, [Checked 0 "a@b.c" "pw1"])
           (mkDb [mkUser 0 "a@b.c" "$2b$pw1"] 1,
            [Replied (mkResp 200 (Msg "User registered successfully"))])).
  - eapply steps_cons; [eapply (step_advance _ _ 0); reflexivity|]. simpl.
    eapply steps_cons; [eapply (step_advance _ _ 0); reflexivity|]. simpl.
    apply steps_refl.
  - split; constructor.
Defined.

(** The token check of [/protected] is dead code: every request, with or
    without a valid token, gets the same answer. *)
Lemma protected_ignores_token (a b : js string) : protected a = protected b.
Proof. reflexivity. Qed.

End AuthServer.
