(* ===== verification/AuthClient.v ===== *)
(** The two forms of the client: [handleSubmit] of
    [src/src/frontend/Login.js] (lines 12-34) and of
    [src/src/frontend/Register.js] (lines 11-31).

    The forms talk to the backend through [AuthApi], the interface of the
    two POST endpoints as [axios] presents them: a 2xx answer resolves with
    its body, any other status rejects with [err.response] set, and a
    network failure rejects without it.  The forms' theorems are proved
    against the interface; [server_api] implements it with the handlers of
    [AuthServer], and the composition theorem at the end runs the forms
    against that server and then mounts the [Dashboard]. *)

From Stdlib Require Import ZArith String.
From stdpp Require Import base list strings.
From S2P Require Import Spec2Rocq AuthServer Dashboard.

Module AuthClient.

Import AuthServer.

(** What [await axios.post(...)] does. *)
Inductive outcome : Type :=
| Resolved (data : body)
| RejectedWith (response : option AuthServer.response).

(** The backend as the forms see it; [S] is the backend's state. *)
Class AuthApi (S : Type) : Type := {
  post_login : string -> string -> S -> S * outcome;
  post_register : string -> string -> S -> S * outcome }.

(** [res.data.token]: [undefined] when the body has no token;
    [localStorage.setItem("token", undefined)] stores the string
    ["undefined"]. *)
Definition stored_token (b : body) : string :=
  match b with TokenBody t => t | Msg _ => "undefined" end.

(** [res.data.msg] *)
Definition body_msg (b : body) : js string :=
  match b with Msg m => Val m | TokenBody _ => Undefined end.

(** [err.response?.data?.msg] *)
Definition err_msg (r : option AuthServer.response) : js string :=
  match r with Some resp => body_msg (resp_body resp) | None => Undefined end.

(** The Login form's state and the part of the browser it touches. *)
Record login_form : Type := mkLogin {
  l_email : string;
  l_password : string;
  l_error : string;
  l_token : option string;       (* localStorage "token" *)
  l_route : string }.

(** The Register form's state. *)
Record register_form : Type := mkRegister {
  r_email : string;
  r_password : string;
  r_error : string;
  r_success : js string }.

Definition msg_required : string := "All fields are required!".

Section Forms.
Context {S : Type} `{AuthApi S}.

(** [Login.js] lines 12-34. *)
Definition login_submit (f : login_form) (srv : S) : login_form * S :=
  if negb (truthy (Val (l_email f))) || negb (truthy (Val (l_password f))) then
    (mkLogin (l_email f) (l_password f) msg_required (l_token f) (l_route f), srv)
  else
    let '(srv', out) := post_login (l_email f) (l_password f) srv in
    match out with
    | Resolved data =>
        (mkLogin (l_email f) (l_password f) "" (Some (stored_token data)) "/dashboard", srv')
    | RejectedWith r =>
        match js_or (err_msg r) (Val "Invalid email or password") with
        | Val m => (mkLogin (l_email f) (l_password f) m (l_token f) (l_route f), srv')
        | _ => (f, srv')
        end
    end.

(** [Register.js] lines 11-31. *)
Definition register_submit (f : register_form) (srv : S) : register_form * S :=
  if negb (truthy (Val (r_email f))) || negb (truthy (Val (r_password f))) then
    (mkRegister (r_email f) (r_password f) msg_required (r_success f), srv)
  else
    let '(srv', out) := post_register (r_email f) (r_password f) srv in
    match out with
    | Resolved data => (mkRegister (r_email f) (r_password f) "" (body_msg data), srv')
    | RejectedWith r =>
        match js_or (err_msg r) (Val "Error registering user") with
        | Val m => (mkRegister (r_email f) (r_password f) m (Val ""), srv')
        | _ => (f, srv')
        end
    end.
End Forms.

(** axios: a status outside 2xx rejects. *)
Definition to_outcome (r : AuthServer.response) : outcome :=
  if decide (200 <= status r < 300)%Z then Resolved (resp_body r) else RejectedWith (Some r).

(** The server as the forms' backend: its database and the salts
    [bcrypt.hash] will draw. *)
#[export] Instance server_api `{Hasher} `{Signer} : AuthApi (db * nat) := {
  post_login e p srv := (srv, to_outcome (login e p srv.1));
  post_register e p srv :=
    let '(d', r) := register srv.2 e p srv.1 in ((d', S srv.2), to_outcome r) }.

Definition empty_login : login_form := mkLogin "" "" "" None "/login".
Definition empty_register : register_form := mkRegister "" "" "" (Val "").

(** ** Lemmas *)

Lemma fields_filled (e p : string) :
  e <> "" -> p <> "" -> negb (truthy (Val e)) || negb (truthy (Val p)) = false.
Proof. intros He Hp. by rewrite (proj2 (truthy_string e) He), (proj2 (truthy_string p) Hp). Qed.

Lemma fields_missing (e p : string) :
  e = "" \/ p = "" -> negb (truthy (Val e)) || negb (truthy (Val p)) = true.
Proof. intros [->| ->]; [done | by rewrite orb_true_r]. Qed.

Lemma js_or_message (m d : string) : m <> "" -> js_or (Val m) (Val d) = Val m.
Proof. intros Hm. apply js_or_truthy. by apply truthy_string. Qed.

(** ** Properties: the forms against any backend *)

Section AgainstInterface.
Context {S : Type} `{AuthApi S}.

(** A login with an empty field shows "All fields are
    required!" and sends no request (the backend state is untouched). *)
Theorem login_requires_fields (f : login_form) (srv : S) :
  l_email f = "" \/ l_password f = "" ->
  login_submit f srv = (mkLogin (l_email f) (l_password f) msg_required (l_token f) (l_route f), srv).
Proof. intros Hf. unfold login_submit. by rewrite fields_missing. Qed.

End AgainstInterface.

(** ** Properties: the forms against the server *)

Section AgainstServer.
Context `{Hasher} `{Signer}.

(** C33 (composition): a new user signs up with the Register form, logs
    in with the Login form against the same server, and the Dashboard
    mounted with the stored token does not redirect to the login page. *)
Theorem signup_login_dashboard (e p : string) (d : db) (salt : nat)
    (saved : list (js string)) (geo : bool) :
  e <> "" -> p <> "" -> findOne e d = None ->
  let '(rf, srv1) := register_submit (mkRegister e p "" (Val "")) (d, salt) in
  let '(lf, _) := login_submit (mkLogin e p "" None "/login") srv1 in
  r_success rf = Val "User registered successfully" /\
  l_token lf = Some (sign (next_oid d)) /\ l_route lf = "/dashboard" /\
  Dashboard.route (Dashboard.dispatch (Dashboard.init saved (l_token lf)) (Dashboard.Mount geo))
    = "/dashboard".
Proof.
  intros He Hp Hf. unfold register_submit. cbn [r_email r_password].
  rewrite fields_filled by done. simpl. rewrite register_new by done. simpl.
  unfold login_submit. cbn [l_email l_password]. rewrite fields_filled by done. simpl.
  rewrite login_after_register by done. simpl. split; [done|]. split; [done|]. split; [done|].
  pose proof (sign_nonempty (next_oid d)) as Hs. apply String.eqb_neq in Hs.
  unfold Dashboard.check_token, Dashboard.request_position, Dashboard.has_token, truthy, falsy,
    string_falsy. simpl. rewrite Hs. by destruct geo.
Qed.

(** Signing up with a taken email shows the server's "User
    already exists" and clears the success message. *)
Theorem signup_duplicate (e p : string) (d : db) (salt : nat) (u : user) :
  e <> "" -> p <> "" -> findOne e d = Some u ->
  fst (register_submit (mkRegister e p "" (Val "")) (d, salt))
    = mkRegister e p "User already exists" (Val "").
Proof.
  intros He Hp Hf. unfold register_submit. cbn [r_email r_password].
  rewrite fields_filled by done. simpl. unfold register. rewrite Hf. done.
Qed.
End AgainstServer.

Lemma signup_login_dashboard_witness :
  let '(rf, srv1) := register_submit (mkRegister "jamie@example.com" "s3cret" "" (Val ""))
                       (empty_db, 7%nat) in
  let '(lf, _) := login_submit (mkLogin "jamie@example.com" "s3cret" "" None "/login") srv1 in
  r_success rf = Val "User registered successfully" /\
  l_token lf = Some "token-0" /\ l_route lf = "/dashboard" /\
  Dashboard.route (Dashboard.dispatch (Dashboard.init [] (l_token lf)) (Dashboard.Mount true))
    = "/dashboard".
Proof.
  pose proof (signup_login_dashboard "jamie@example.com" "s3cret" empty_db 7 [] true
                ltac:(discriminate) ltac:(discriminate) eq_refl) as H.
  vm_compute in H. vm_compute. exact H.
Defined.

Lemma signup_duplicate_witness :
  let d := fst (register 7 "jamie@example.com" "s3cret" empty_db) in
  fst (register_submit (mkRegister "jamie@example.com" "other" "" (Val "")) (d, 8%nat))
    = mkRegister "jamie@example.com" "other" "User already exists" (Val "").
Proof.
  apply (signup_duplicate _ _ _ _ (mkUser 0 "jamie@example.com" "$2b$s3cret"));
    [discriminate | discriminate | reflexivity].
Defined.

Lemma login_requires_fields_witness :
  login_submit (mkLogin "jamie@example.com" "" "" None "/login") (empty_db, 0%nat)
  = (mkLogin "jamie@example.com" "" msg_required None "/login", (empty_db, 0%nat)).
Proof. apply login_requires_fields. by right. Defined.

End AuthClient.
