(* ===== verification/Routes.v ===== *)
(** The two POST routes of [src/src/backend/server.js] on any request
    body, as the server receives it from any client, not only from the
    forms.
    - [express.json()] (line 12) parses the body text ([express_json]).
      A text that is not a JSON object or array is answered 400 by the
      body parser before a route runs ([BodyRejected]).
    - [const { email, password } = req.body] (lines 36, 51) reads two
      members.  Each is a string, missing ([undefined]) or [null], or an
      object [{ "$ne": v }] ([field]).  Nothing checks their type, so
      such an object reaches [User.findOne] as a query operator.
    - The handlers then run with those fields ([register_req],
      [login_req]).  A missing field changes what the library calls do:
      - [User.findOne({ email })] matches no document, or with
        [{ "$ne": v }] the first document whose email is not [v];
      - [bcrypt.hash] and [bcrypt.compare] reject with "data and salt
        arguments required";
      - the [required] validator of the schema rejects the [save].
      On string fields these handlers are [AuthServer.register] and
      [AuthServer.login] ([register_req_str], [login_req_str]).

    A member of another JSON type (a number or a boolean, which Mongoose
    casts to its text, an array, or an object with other operators such
    as [$gt] or [$regex]) is not modelled: [body_fields] gives [None] for
    it. *)

From Stdlib Require Import ZArith String Ascii.
From stdpp Require Import base list strings.
From S2P Require Import Spec2Rocq Json AuthServer.

Module Routes.
Import Json AuthServer.

(** ** Request bodies *)

(** [express.json()] (line 12), in its default strict mode: an empty
    body is [{}]; a text that is not JSON, or whose value is not an
    object or an array, is rejected with the parser's 400 ([None]). *)
Definition express_json (text : string) : option json :=
  if String.eqb text "" then Some (JObject [])
  else match json_parse text with
       | Some (JObject kvs) => Some (JObject kvs)
       | Some (JArray vs) => Some (JArray vs)
       | _ => None
       end.

(** [v.k] on a parsed value: [JSON.parse] keeps the last of members
    with the same name. *)
Definition member (k : string) (v : json) : js json :=
  match v with
  | JObject kvs =>
      match List.find (fun kv => String.eqb kv.1 k) (rev kvs) with
      | Some kv => Val kv.2
      | None => Undefined
      end
  | _ => Undefined
  end.

(** A destructured request field: a string, [undefined] or [null], or
    an object [{ "$ne": v }] with a string or [null] operand, which
    Mongoose passes to MongoDB as the query operator "not equal". *)
Inductive field : Type :=
| FStr (s : string)
| FNullish
| FNe (operand : option string).

Definition field_of (v : js json) : option field :=
  match v with
  | Val (JString s) => Some (FStr s)
  | Val JNull | Null | Undefined => Some FNullish
  | Val (JObject [(k, JString s)]) => if String.eqb k "$ne" then Some (FNe (Some s)) else None
  | Val (JObject [(k, JNull)]) => if String.eqb k "$ne" then Some (FNe None) else None
  | Val _ => None
  end.

(** [const { email, password } = req.body] (lines 36, 51). *)
Definition body_fields (b : json) : option (field * field) :=
  e ← field_of (member "email" b);
  p ← field_of (member "password" b);
  Some (e, p).

(** ** The library calls on a field *)

(** [User.findOne({ email })] (lines 37, 52).  Mongoose leaves a nullish
    value uncast, and the driver sends it as [null].  The filter
    [{ email: null }] matches only documents without an email, and the
    schema keeps none ([AuthServer.db_valid]).  With [{ $ne: v }] the
    filter matches the first document whose email is not [v]; every
    stored email is a string, so [{ $ne: null }] matches the first
    document. *)
Definition findOne_field (e : field) (d : db) : option user :=
  match e with
  | FStr x => findOne x d
  | FNullish => None
  | FNe (Some x) => List.find (fun u => negb (String.eqb (email u) x)) (users d)
  | FNe None => head (users d)
  end.

Section Calls.
Context `{Hasher}.

(** [bcrypt.hash(password, 10)] (line 40) rejects a password that is not
    a string: "data and salt arguments required" for a nullish one, "data
    must be a string" for an object. *)
Definition hash_field (p : field) (salt : nat) : result string :=
  match p with FStr x => Ok (hash x salt) | _ => Throw BcryptError end.

(** [bcrypt.compare(password, user.password)] (line 55) rejects a
    password that is not a string. *)
Definition compare_field (p : field) (h : string) : result bool :=
  match p with FStr x => Ok (compare x h) | _ => Throw BcryptError end.

End Calls.

(** [new User({ email, password: hashedPassword }).save()] (lines 41-42):
    the [required] validator of [email] rejects a nullish one, and an
    object does not cast to the [String] path. *)
Definition save_field (e : field) (h : string) (d : db) : result db :=
  match e with FStr x => save x h d | _ => Throw ValidationError end.

(** ** The routes *)

Section Handlers.
Context `{Hasher} `{Signer}.

(** [/register], lines 34-47, on any fields. *)
Definition register_req (salt : nat) (e p : field) (d : db) : db * response :=
  match findOne_field e d with
  | Some _ => (d, mkResp 400 (Msg "User already exists"))
  | None =>
      match hash_field p salt with
      | Throw _ => (d, server_error)
      | Ok h =>
          match save_field e h d with
          | Ok d' => (d', mkResp 200 (Msg "User registered successfully"))
          | Throw _ => (d, server_error)
          end
      end
  end.

(** [/login], lines 49-63, on any fields. *)
Definition login_req (e p : field) (d : db) : response :=
  match findOne_field e d with
  | None => mkResp 400 (Msg "User not found")
  | Some u =>
      match compare_field p (password u) with
      | Throw _ => server_error
      | Ok true => mkResp 200 (TokenBody (sign (_id u)))
      | Ok false => mkResp 400 (Msg "Invalid credentials")
      end
  end.

(** What a POST request gets: the route's answer and the new collection,
    or the body parser's 400 before any route runs. *)
Inductive served : Type :=
| Served (d : db) (r : response)
| BodyRejected.

Definition route_register (salt : nat) (text : string) (d : db) : option served :=
  match express_json text with
  | None => Some BodyRejected
  | Some b => '(e, p) ← body_fields b; let '(d', r) := register_req salt e p d in Some (Served d' r)
  end.

Definition route_login (text : string) (d : db) : option served :=
  match express_json text with
  | None => Some BodyRejected
  | Some b => '(e, p) ← body_fields b; Some (Served d (login_req e p d))
  end.

End Handlers.

(** The text [{"email":{"$ne":null},"password":"s3cret"}]. *)
Definition ne_login_text : string :=
  string_of_list_ascii
    (["{"%char] ++ quote "email" ++ [":"%char; "{"%char] ++ quote "$ne" ++
     list_ascii_of_string ":null}," ++ quote "password" ++ [":"%char] ++ quote "s3cret" ++ ["}"%char]).

(** ** Lemmas *)

Section Lemmas.
Context `{Hasher} `{Signer}.

(** On string fields the routes are the handlers of [AuthServer]. *)
Lemma register_req_str (salt : nat) (e p : string) (d : db) :
  register_req salt (FStr e) (FStr p) d = register salt e p d.
Proof. reflexivity. Qed.

Lemma login_req_str (e p : string) (d : db) : login_req (FStr e) (FStr p) d = login e p d.
Proof. unfold login_req, login. cbn. by destruct (findOne e d). Qed.

Lemma register_req_nullish_email (salt : nat) (p : field) (d : db) :
  register_req salt FNullish p d = (d, server_error).
Proof. by destruct p. Qed.

End Lemmas.

(** ** Properties *)

(** C15 (error, unspecified by the spec): a [/register] request whose
    email or password is missing or [null] never creates an account.  It
    answers 500 "Server error", because bcrypt rejects the missing
    password or Mongoose's validator the missing email.  The exception is
    a taken email, which still answers 400 "User already exists" first. *)
Theorem register_missing_field `{Hasher} `{Signer} (salt : nat) (e p : field) (d : db) :
  e = FNullish \/ p = FNullish ->
  register_req salt e p d = (d, server_error) \/
  (exists u, findOne_field e d = Some u /\
     register_req salt e p d = (d, mkResp 400 (Msg "User already exists"))).
Proof.
  intros [-> | ->]; [left; apply register_req_nullish_email|].
  unfold register_req. destruct (findOne_field e d) as [u|] eqn:Hf; [right; by exists u|].
  left. reflexivity.
Qed.

(** C21 (safety): for every request body in the model (members that are
    strings, missing, [null] or [{ "$ne": v }]), [/login] issues a token
    only when the password member is a string that bcrypt accepts for the
    user that the email member selects, i.e. the first user the filter
    [{ email }] matches.  The token is that user's, and the collection is
    unchanged.  The email need not be that user's: [login_ne_injection]. *)
Theorem login_token_requires `{Hasher} `{Signer} (text : string) (d d' : db) (t : string) :
  route_login text d = Some (Served d' (mkResp 200 (TokenBody t))) ->
  exists b e p u, express_json text = Some b /\ body_fields b = Some (e, FStr p) /\
    findOne_field e d = Some u /\ compare p (password u) = true /\ t = sign (_id u) /\ d' = d.
Proof.
  unfold route_login. destruct (express_json text) as [b|]; [|discriminate].
  destruct (body_fields b) as [[e p]|] eqn:Hb; cbn; [|discriminate]. intros [= <- Hr].
  unfold login_req in Hr. destruct (findOne_field e d) as [u|] eqn:Hf; [|discriminate].
  destruct p as [q| |o]; cbn in Hr; [|discriminate|discriminate].
  destruct (compare q (password u)) eqn:Hc; [|discriminate]. injection Hr as <-.
  by exists b, e, q, u.
Qed.

(** C22 (safety, counterexample): operator injection.  [/login] does not
    check that [email] is a string, so a body whose email member is
    [{ "$ne": null }] logs in as the first stored user, for any
    collection and with that user's password only: the client never
    names the account. *)
Theorem login_ne_injection `{Hasher} `{Signer} (text p : string) (d : db) (u : user) (rest : list user) :
  express_json text = Some (JObject [("email", JObject [("$ne", JNull)]); ("password", JString p)]) ->
  users d = u :: rest -> compare p (password u) = true ->
  route_login text d = Some (Served d (mkResp 200 (TokenBody (sign (_id u))))).
Proof.
  intros Hb Hu Hc. unfold route_login. rewrite Hb. cbn.
  unfold login_req. cbn. rewrite Hu. cbn. by rewrite Hc.
Qed.

Lemma register_missing_field_witness :
  route_register 3 (stringify_object [("email", "jamie@example.com")]) empty_db
    = Some (Served empty_db server_error) /\
  register_req 3 (FStr "jamie@example.com") FNullish empty_db = (empty_db, server_error).
Proof.
  split; [vm_compute; reflexivity|].
  destruct (register_missing_field 3 (FStr "jamie@example.com") FNullish empty_db (or_intror eq_refl))
    as [Hr | (u & Hf & _)]; [exact Hr | discriminate Hf].
Defined.

Lemma login_token_requires_witness :
  let d := fst (register 7 "jamie@example.com" "s3cret" empty_db) in
  let text := stringify_object [("email", "jamie@example.com"); ("password", "s3cret")] in
  route_login text d = Some (Served d (mkResp 200 (TokenBody "token-0"))) /\
  exists b e p u, express_json text = Some b /\ body_fields b = Some (e, FStr p) /\
    findOne_field e d = Some u /\ compare p (password u) = true /\ "token-0"%string = sign (_id u) /\ d = d.
Proof.
  cbv zeta. assert (Hr : route_login (stringify_object [("email", "jamie@example.com"); ("password", "s3cret")])
    (fst (register 7 "jamie@example.com" "s3cret" empty_db))
    = Some (Served (fst (register 7 "jamie@example.com" "s3cret" empty_db)) (mkResp 200 (TokenBody "token-0"))))
    by (vm_compute; reflexivity).
  split; [exact Hr | exact (login_token_requires _ _ _ _ Hr)].
Defined.

Lemma login_ne_injection_witness :
  let d := fst (register 8 "bob@example.com" "x" (fst (register 7 "jamie@example.com" "s3cret" empty_db))) in
  express_json ne_login_text
    = Some (JObject [("email", JObject [("$ne", JNull)]); ("password", JString "s3cret")]) /\
  route_login ne_login_text d = Some (Served d (mkResp 200 (TokenBody "token-0"))).
Proof.
  cbv zeta. assert (Hb : express_json ne_login_text
    = Some (JObject [("email", JObject [("$ne", JNull)]); ("password", JString "s3cret")]))
    by (vm_compute; reflexivity).
  split; [exact Hb|].
  exact (login_ne_injection ne_login_text "s3cret"
           (fst (register 8 "bob@example.com" "x" (fst (register 7 "jamie@example.com" "s3cret" empty_db))))
           (mkUser 0 "jamie@example.com" "$2b$s3cret")
           [mkUser 1 "bob@example.com" "$2b$x"] Hb eq_refl eq_refl).
Defined.

End Routes.
