(* ===== verification/Http.v ===== *)
(** The HTTP exchanges between the forms and the server, as the JSON
    texts that cross the network.
    - [Login.js] line 22 and [Register.js] line 21:
      [axios.post(url, { email, password })] sends
      [JSON.stringify({ email, password })] ([request_body]).
    - On the server, [Routes.route_login] and [Routes.route_register]
      parse the body with [express.json()] and destructure [req.body].
    - The handlers answer with [res.json({ msg })] or
      [res.json({ token })] ([response_text]).  axios parses the text
      back into [res.data] or [err.response.data], where the forms read
      [token] and [msg] ([read_body]).

    [http_api] is the backend of [AuthClient] reached this way.  The main
    theorem is that the forms behave over it exactly as over [server_api],
    which calls the handlers directly.  Content types other than JSON are
    not modelled. *)

From Stdlib Require Import ZArith String Ascii.
From stdpp Require Import base list strings.
From S2P Require Import Spec2Rocq Json AuthServer AuthClient Routes.

Module Http.
Import Json AuthServer AuthClient Routes.

(** [axios.post(url, { email, password })]: the request's JSON text. *)
Definition request_body (e p : string) : string := stringify_object [("email", e); ("password", p)].

(** [res.json(...)]: the text of a response body. *)
Definition response_text (b : body) : string :=
  match b with
  | Msg m => stringify_object [("msg", m)]
  | TokenBody t => stringify_object [("token", t)]
  end.

(** axios parses a JSON response into [res.data] (or
    [err.response.data]); the forms read its [token] and [msg]. *)
Definition read_body (text : string) : option body :=
  v ← json_parse text;
  match member "token" v, member "msg" v with
  | Val (JString t), _ => Some (TokenBody t)
  | _, Val (JString m) => Some (Msg m)
  | _, _ => None
  end.

(** A response as it crosses the network: status and text. *)
Definition transmit (r : response) : option response :=
  b ← read_body (response_text (resp_body r)); Some (mkResp (status r) b).

Section Wire.
Context `{Hasher} `{Signer}.

(** [POST /login] as the client sends it and the server receives it. *)
Definition wire_login (e p : string) (d : db) : option response :=
  match route_login (request_body e p) d with
  | Some (Served _ r) => transmit r
  | _ => None
  end.

Definition wire_register (salt : nat) (e p : string) (d : db) : option (db * response) :=
  match route_register salt (request_body e p) d with
  | Some (Served d' r) => r' ← transmit r; Some (d', r')
  | _ => None
  end.

(** The backend reached over HTTP.  A request or response that does
    not get through the JSON layers rejects without a response. *)
#[export] Instance http_api : AuthApi (db * nat) := {
  post_login e p srv :=
    match wire_login e p srv.1 with
    | Some r => (srv, to_outcome r)
    | None => (srv, RejectedWith None)
    end;
  post_register e p srv :=
    match wire_register srv.2 e p srv.1 with
    | Some (d', r) => ((d', S srv.2), to_outcome r)
    | None => (srv, RejectedWith None)
    end }.

End Wire.

(** ** Lemmas *)

Lemma body_fields_request (e p : string) :
  body_fields (JObject [("email", JString e); ("password", JString p)]) = Some (FStr e, FStr p).
Proof. reflexivity. Qed.

Lemma body_request (e p : string) :
  express_json (request_body e p) = Some (JObject [("email", JString e); ("password", JString p)]).
Proof.
  unfold express_json, request_body. rewrite stringify_object_nonempty, json_parse_object. reflexivity.
Qed.

Lemma route_login_request `{Hasher} `{Signer} (e p : string) (d : db) :
  route_login (request_body e p) d = Some (Served d (login e p d)).
Proof.
  unfold route_login. rewrite body_request, body_fields_request. cbn [mbind option_bind].
  by rewrite login_req_str.
Qed.

Lemma route_register_request `{Hasher} `{Signer} (salt : nat) (e p : string) (d : db) :
  route_register salt (request_body e p) d =
  Some (let '(d', r) := register salt e p d in Served d' r).
Proof.
  unfold route_register. rewrite body_request, body_fields_request. cbn [mbind option_bind].
  rewrite register_req_str. by destruct (register salt e p d).
Qed.

Lemma transmit_response (r : response) : transmit r = Some r.
Proof.
  destruct r as [st [m|t]]; unfold transmit, read_body, response_text; cbn [resp_body];
    rewrite json_parse_object; reflexivity.
Qed.

Lemma wire_login_direct `{Hasher} `{Signer} (e p : string) (d : db) : wire_login e p d = Some (login e p d).
Proof. unfold wire_login. rewrite route_login_request. apply transmit_response. Qed.

Lemma wire_register_direct `{Hasher} `{Signer} (salt : nat) (e p : string) (d : db) :
  wire_register salt e p d = Some (register salt e p d).
Proof.
  unfold wire_register. rewrite route_register_request.
  destruct (register salt e p d) as [d' r]. by rewrite transmit_response.
Qed.

(** ** Properties *)

(** C30 (refinement): over HTTP the Login and Register forms behave
    exactly as against the handlers called directly.  The server reads
    back the email and password the form sent, whatever characters they
    hold, and the form reads back the server's message or token, through
    [JSON.stringify], [express.json()] and axios's [JSON.parse]. *)
Theorem http_forms_agree `{Hasher} `{Signer} (f : login_form) (g : register_form) (srv : db * nat) :
  login_submit (H := http_api) f srv = login_submit (H := server_api) f srv /\
  register_submit (H := http_api) g srv = register_submit (H := server_api) g srv.
Proof.
  split.
  - unfold login_submit. cbn [post_login http_api server_api]. by rewrite wire_login_direct.
  - unfold register_submit. cbn [post_register http_api server_api]. rewrite wire_register_direct.
    by destruct (register _ _ _ _).
Qed.

End Http.
