(* ===== verification/Forms.v ===== *)
(** The Login and Register pages as the browser runs them: the JSX of
    [src/src/frontend/Login.js] (lines 84-113) and
    [src/src/frontend/Register.js] (lines 78-108), and HTML's constraint
    validation, which stands between the form and its [onSubmit] handler.

    Both forms have an [<input type="email" required>] and an
    [<input type="password" required>].  The browser fires [submit] only
    when neither input is empty and the email value is a "valid e-mail
    address" in the sense of the HTML standard ([valid_email]).  Otherwise
    it shows its own message and calls no handler.  This browser behaviour
    is modelled from the HTML standard.  [valid_email] transcribes the
    standard's grammar.  The browser's sanitisation of the email value
    (stripping newlines and surrounding spaces) is not modelled: typed
    values are taken as [e.target.value] returns them. *)

From Stdlib Require Import ZArith String Ascii.
From stdpp Require Import base list strings.
From S2P Require Import Spec2Rocq AuthServer AuthClient.

Module Forms.
Import AuthServer AuthClient.

(** ** The HTML standard's valid e-mail address *)

Definition is_alnum (c : ascii) : bool :=
  let n := nat_of_ascii c in
  ((48 <=? n) && (n <=? 57)) || ((65 <=? n) && (n <=? 90)) || ((97 <=? n) && (n <=? 122)).

(** [[a-zA-Z0-9.!#$%&'*+/=?^_`{|}~-]] *)
Definition local_char (c : ascii) : bool :=
  is_alnum c || existsb (Ascii.eqb c) (list_ascii_of_string ".!#$%&'*+/=?^_`{|}~-").

(** A domain label: [[a-zA-Z0-9]([a-zA-Z0-9-]{0,61}[a-zA-Z0-9])?] *)
Definition label_ok (l : string) : bool :=
  match list_ascii_of_string l with
  | [] => false
  | c :: cs =>
      is_alnum c && is_alnum (List.last cs c) &&
      forallb (fun x => is_alnum x || Ascii.eqb x "-") cs && (length cs <=? 62)
  end.

(** [local@label(.label)*], with a non-empty local part. *)
Definition valid_email (v : string) : bool :=
  match split_on "@" v with
  | [loc; dom] =>
      negb (String.eqb loc "") && forallb local_char (list_ascii_of_string loc) &&
      forallb label_ok (split_on "." dom)
  | _ => false
  end.

(** Every stored email is a valid e-mail address. *)
Definition emails_valid (d : db) : Prop := Forall (fun u => valid_email (email u) = true) (users d).

(** Constraint validation of the two inputs. *)
Definition form_valid (email password : string) : bool :=
  valid_email email && negb (String.eqb password "").

(** ** The pages *)

(** What the user does on either page. *)
Inductive form_event : Type :=
| TypeEmail (v : string)        (* onChange of the email input *)
| TypePassword (v : string)     (* onChange of the password input *)
| Submit.                       (* the submit button, or Enter *)

(** The rendered elements. *)
Inductive fnode : Type :=
| FText (tag content : string)
| FInput (type placeholder value : string)
| FSubmit (label : string)
| FLink (label href : string).

(** [Login.js] lines 84-113. *)
Definition login_view (f : login_form) : list fnode :=
  [FText "h2" "Login"] ++
  (if truthy (Val (l_error f)) then [FText "p" (l_error f)] else []) ++
  [FInput "email" "Enter Email" (l_email f); FInput "password" "Enter Password" (l_password f);
   FSubmit "Login"; FText "p" "Don’t have an account? "; FLink "Register" "/register"].

(** [Register.js] lines 78-108. *)
Definition register_view (f : register_form) : list fnode :=
  [FText "h2" "Register"] ++
  (if truthy (Val (r_error f)) then [FText "p" (r_error f)] else []) ++
  (if truthy (r_success f) then
     [FText "p" (match r_success f with Val m => m | _ => "" end)] else []) ++
  [FInput "email" "Enter Email" (r_email f); FInput "password" "Enter Password" (r_password f);
   FSubmit "Register"; FText "p" "Already have an account? "; FLink "Login" "/login"].

Section Pages.
Context {S : Type} `{AuthApi S}.

(** One user action on the Login page (lines 89-107). *)
Definition login_ui (fs : login_form * S) (ev : form_event) : login_form * S :=
  let '(f, srv) := fs in
  match ev with
  | TypeEmail v => (mkLogin v (l_password f) (l_error f) (l_token f) (l_route f), srv)
  | TypePassword v => (mkLogin (l_email f) v (l_error f) (l_token f) (l_route f), srv)
  | Submit => if form_valid (l_email f) (l_password f) then login_submit f srv else (f, srv)
  end.

(** One user action on the Register page (lines 84-102). *)
Definition register_ui (fs : register_form * S) (ev : form_event) : register_form * S :=
  let '(f, srv) := fs in
  match ev with
  | TypeEmail v => (mkRegister v (r_password f) (r_error f) (r_success f), srv)
  | TypePassword v => (mkRegister (r_email f) v (r_error f) (r_success f), srv)
  | Submit => if form_valid (r_email f) (r_password f) then register_submit f srv else (f, srv)
  end.

End Pages.

(** ** Lemmas *)

Lemma valid_email_nonempty (v : string) : valid_email v = true -> v <> "".
Proof. by intros Hv ->. Qed.

Lemma form_valid_filled (e p : string) :
  form_valid e p = true -> e <> "" /\ p <> "".
Proof.
  unfold form_valid. intros [He Hp]%andb_prop. split; [by apply valid_email_nonempty|].
  apply negb_true_iff, String.eqb_neq in Hp. exact Hp.
Qed.

Lemma login_msg `{Hasher} `{Signer} (e p : string) (d : db) (m : string) :
  resp_body (login e p d) = Msg m -> m <> msg_required.
Proof. unfold login. repeat case_match; simpl; intros [= <-]; discriminate. Qed.

Lemma login_error_ok `{Hasher} `{Signer} (f : login_form) (srv : db * nat) :
  l_email f <> "" -> l_password f <> "" -> l_error f <> msg_required ->
  l_error (login_submit f srv).1 <> msg_required.
Proof.
  intros He Hp Hf. unfold login_submit. rewrite fields_filled by done. simpl.
  unfold to_outcome. case_decide; simpl; [discriminate|].
  destruct (resp_body (login (l_email f) (l_password f) srv.1)) as [m|t] eqn:Eb; simpl;
    [|discriminate]. unfold js_or. destruct (truthy (Val m)); simpl; [|discriminate].
  exact (login_msg _ _ _ _ Eb).
Qed.

Lemma login_ui_error_ok `{Hasher} `{Signer} (fs : login_form * (db * nat)) (ev : form_event) :
  l_error fs.1 <> msg_required -> l_error (login_ui fs ev).1 <> msg_required.
Proof.
  destruct fs as [f srv], ev; simpl; try done.
  destruct (form_valid _ _) eqn:Hv; [|done]. apply form_valid_filled in Hv as [He Hp].
  by apply login_error_ok.
Qed.

Lemma login_view_required (f : login_form) :
  l_error f <> msg_required -> FText "p" msg_required ∉ login_view f.
Proof.
  intros Hf Hin. unfold login_view, msg_required in *.
  apply elem_of_app in Hin as [Hin|Hin]; [apply list_elem_of_singleton in Hin; discriminate|].
  apply elem_of_app in Hin as [Hin|Hin].
  { case_match; [apply list_elem_of_singleton in Hin; congruence | by apply not_elem_of_nil in Hin]. }
  repeat (apply elem_of_cons in Hin as [Hin|Hin]; [discriminate|]).
  by apply not_elem_of_nil in Hin.
Qed.

Lemma register_users `{Hasher} (salt : nat) (e p : string) (d : db) :
  users (register salt e p d).1 = users d \/
  exists u, users (register salt e p d).1 = users d ++ [u] /\ email u = e.
Proof.
  unfold register. destruct (findOne e d); [by left|].
  destruct (save e (hash p salt) d) as [d'|] eqn:Hs; [|by left]. right.
  apply save_Ok_inv in Hs as (_ & _ & _ & ->). by eexists.
Qed.

Lemma register_ui_valid `{Hasher} `{Signer} (fs : register_form * (db * nat)) (ev : form_event) :
  emails_valid fs.2.1 -> emails_valid (register_ui fs ev).2.1.
Proof.
  destruct fs as [f [d salt]], ev; simpl; try done. intros Hd.
  destruct (form_valid _ _) eqn:Hv; [|done].
  pose proof Hv as [He Hp]%form_valid_filled. apply andb_prop in Hv as [Hv _].
  unfold register_submit. rewrite fields_filled by done. simpl.
  destruct (register_users salt (r_email f) (r_password f) d) as [Hu|(u & Hu & Heu)];
    destruct (register salt (r_email f) (r_password f) d) as [d' r]; simpl in Hu;
    unfold to_outcome; case_decide; simpl; repeat case_match; simpl;
    unfold emails_valid; rewrite Hu; try done;
    (apply Forall_app; split; [done | apply Forall_singleton; by rewrite Heu]).
Qed.

(** ** Properties *)

(** C31 (error, dead code): in a browser, whatever the user types and
    submits, the Login page never shows "All fields are required!".  The
    [required] attributes stop an empty submission before [handleSubmit]
    runs, so its own empty-field check is unreachable. *)
Theorem login_required_unreachable `{Hasher} `{Signer} (srv : db * nat) (evs : list form_event) :
  FText "p" msg_required ∉ login_view (foldl login_ui (empty_login, srv) evs).1.
Proof.
  apply login_view_required. induction evs as [|ev evs IH] using rev_ind; [discriminate|].
  rewrite foldl_snoc. by apply login_ui_error_ok.
Qed.

(** C32 (invariant, client and server): every account created through the
    Register page has an email that is a valid e-mail address, since the
    browser submits no other value and the server stores exactly what it
    receives. *)
Theorem register_ui_valid_emails `{Hasher} `{Signer} (salt : nat) (evs : list form_event) :
  emails_valid (foldl register_ui (empty_register, (empty_db, salt)) evs).2.1.
Proof.
  induction evs as [|ev evs IH] using rev_ind; [constructor|].
  rewrite foldl_snoc. by apply register_ui_valid.
Qed.

Lemma register_ui_valid_emails_witness :
  let r := foldl register_ui (empty_register, (empty_db, 7))
             [TypeEmail "jamie"; TypePassword "s3cret"; Submit;
              TypeEmail "jamie@example.com"; Submit] in
  map email (users r.2.1) = ["jamie@example.com"] /\ emails_valid r.2.1.
Proof. cbv zeta. split; [reflexivity | apply register_ui_valid_emails]. Defined.

End Forms.
